(** * ErinGPT Builder: serverless handlers

  A shallow embedding of the four handlers of the repository

  - [api/stripe-webhooks.js]  (module [Webhooks], the event reconciler),
  - [api/stripe-config.js]    (module [StripeConfig], the action dispatcher),
  - [api/chat.js]             (module [Chat], the completion proxy),
  - the earlier copy of [api/chat.js] (module [ChatLegacy]),

  over an explicit model of their collaborators: the relational store
  (tables of rows that are JavaScript objects), the billing gateway
  (an oracle for every call, which may throw) and the completion API.
  Handlers are written in a state-and-exception monad whose state holds
  the store and the trace of every store and gateway operation issued. *)

From Stdlib Require Import ZArith Lia SpecFloat Ascii String.
From stdpp Require Import gmap strings list pretty.

Set Warnings "-register-all".

#[local] Open Scope Z_scope.
#[local] Open Scope string_scope.

(** ** JavaScript numbers and strings *)

Module Js.

(** A JavaScript number is an IEEE-754 binary64 value. *)
Abbreviation number := spec_float.

Definition prec : Z := 53.
Definition emax : Z := 1024.

(** The double [m * 2^e], in canonical form. *)
Definition num (m : Z) (e : Z) : number := binary_normalize prec emax m e false.

(** The double nearest to the decimal literal [d / 10^k]: both operands
    are exact doubles and the division is correctly rounded. *)
Definition decimal (d : Z) (k : Z) : number :=
  SFdiv prec emax (num d 0) (num (10 ^ k) 0).

(** [x * y] *)
Definition times (x y : number) : number := SFmul prec emax x y.

(** The exact value of a finite double as a fraction [n / d], [d] a
    power of two. *)
Definition numerator (s : bool) (m : positive) (e : Z) : Z :=
  cond_Zopp s (Zpos m) * 2 ^ Z.max e 0.
Definition denominator (e : Z) : Z := 2 ^ Z.max (- e) 0.

(** [Math.round(x)]: the integer closest to [x], the one closer to
    +infinity when two are equally close, that is [floor (x + 1/2)]
    computed exactly.  The result is integral, so it is given as a [Z];
    [None] stands for the results [NaN], [Infinity] and [-Infinity]. *)
Definition Math_round (x : number) : option Z :=
  match x with
  | S754_zero _ => Some 0
  | S754_finite s m e =>
      Some ((2 * numerator s m e + denominator e) / (2 * denominator e))
  | S754_infinity _ | S754_nan => None
  end.

(** Strings are held in UTF-8, as the literals of this file are.  A byte
    sequence that is not UTF-8 stands for no JavaScript string; its
    malformed bytes are read as U+FFFD. *)

(** The payload of a continuation byte 10xxxxxx. *)
Definition continuation (c : ascii) : option N :=
  let x := N_of_ascii c in
  if ((128 <=? x) && (x <? 192))%N then Some (x - 128)%N else None.

(** One code point of two, three or four bytes, unless it is over-long,
    a surrogate or beyond U+10FFFF. *)
Definition two_bytes (a b : ascii) : option N :=
  let x := N_of_ascii a in
  if ((194 <=? x) && (x <? 224))%N then
    match continuation b with
    | Some y => Some ((x - 192) * 64 + y)%N
    | None => None
    end
  else None.

Definition three_bytes (a b c : ascii) : option N :=
  let x := N_of_ascii a in
  if ((224 <=? x) && (x <? 240))%N then
    match continuation b, continuation c with
    | Some y, Some z =>
        let n := ((x - 224) * 4096 + y * 64 + z)%N in
        if ((2048 <=? n) && negb ((55296 <=? n) && (n <? 57344)))%N then Some n else None
    | _, _ => None
    end
  else None.

Definition four_bytes (a b c d : ascii) : option N :=
  let x := N_of_ascii a in
  if ((240 <=? x) && (x <? 245))%N then
    match continuation b, continuation c, continuation d with
    | Some y, Some z, Some t =>
        let n := ((x - 240) * 262144 + y * 4096 + z * 64 + t)%N in
        if ((65536 <=? n) && (n <? 1114112))%N then Some n else None
    | _, _, _ => None
    end
  else None.

Definition replacement : N := 65533%N.

(** The code points of a string. *)
Fixpoint code_points (s : string) : list N :=
  match s with
  | EmptyString => []
  | String a s1 =>
      if (N_of_ascii a <? 128)%N then N_of_ascii a :: code_points s1
      else
        match s1 with
        | String b s2 =>
            match two_bytes a b with
            | Some n => n :: code_points s2
            | None =>
                match s2 with
                | String c s3 =>
                    match three_bytes a b c with
                    | Some n => n :: code_points s3
                    | None =>
                        match s3 with
                        | String d s4 =>
                            match four_bytes a b c d with
                            | Some n => n :: code_points s4
                            | None => replacement :: code_points s1
                            end
                        | EmptyString => replacement :: code_points s1
                        end
                    end
                | EmptyString => replacement :: code_points s1
                end
            end
        | EmptyString => [replacement]
        end
  end.

Definition byte (n : N) : string := String (ascii_of_N n) EmptyString.

(** The UTF-8 bytes of a code point. *)
Definition utf8 (n : N) : string :=
  (if n <? 128 then byte n
   else if n <? 2048 then byte (192 + n / 64) ++ byte (128 + n mod 64)
   else if n <? 65536 then
     byte (224 + n / 4096) ++ byte (128 + (n / 64) mod 64) ++ byte (128 + n mod 64)
   else
     byte (240 + n / 262144) ++ byte (128 + (n / 4096) mod 64)
     ++ byte (128 + (n / 64) mod 64) ++ byte (128 + n mod 64))%N.

Fixpoint of_code_points (l : list N) : string :=
  match l with
  | [] => EmptyString
  | n :: l' => utf8 n ++ of_code_points l'
  end.

(** WhiteSpace and LineTerminator of ECMAScript: TAB, LF, VT, FF, CR,
    SP, NBSP, U+1680, U+2000 to U+200A, LS, PS, U+202F, U+205F, U+3000
    and ZWNBSP. *)
Definition is_space (n : N) : bool :=
  ((9 <=? n) && (n <=? 13) || (n =? 32) || (n =? 160) || (n =? 5760)
   || (8192 <=? n) && (n <=? 8202) || (n =? 8232) || (n =? 8233)
   || (n =? 8239) || (n =? 8287) || (n =? 12288) || (n =? 65279))%N.

(** [l] without its leading white space. *)
Fixpoint trimStart (l : list N) : list N :=
  match l with
  | n :: l' => if is_space n then trimStart l' else l
  | [] => []
  end.

(** [s.trim()] *)
Definition trim (s : string) : string :=
  of_code_points (rev (trimStart (rev (trimStart (code_points s))))).

(** [s[0]]: the first UTF-16 code unit of the string, as a string; for
    a code point beyond U+FFFF that is its high surrogate. *)
Definition first_unit (s : string) : option string :=
  match code_points s with
  | [] => None
  | n :: _ =>
      Some (utf8 (if n <? 65536 then n else 55296 + (n - 65536) / 1024))%N
  end.

(** Truthiness of a string: the empty string is falsy. *)
Definition truthy_string (s : string) : bool :=
  match s with EmptyString => false | _ => true end.

(** [`${x}`] for a value that is a string or undefined. *)
Definition template (o : option string) : string :=
  match o with Some s => s | None => "undefined" end.

(** JSON values as JavaScript sees them; [JUndefined] is a missing
    property. *)
Inductive value :=
| JUndefined
| JNull
| JBool (b : bool)
| JNum (x : number)
| JStr (s : string)
| JArr (items : list value)
| JObj (props : list (string * value)).

Definition is_zero_or_nan (x : number) : bool :=
  match x with S754_zero _ | S754_nan => true | _ => false end.

(** Truthiness. *)
Definition truthy (v : value) : bool :=
  match v with
  | JUndefined | JNull => false
  | JBool b => b
  | JNum x => negb (is_zero_or_nan x)
  | JStr s => truthy_string s
  | JArr _ | JObj _ => true
  end.

(** [Array.isArray(v)] *)
Definition isArray (v : value) : bool :=
  match v with JArr _ => true | _ => false end.

(** The elements of an array, for [v.length] and [...v]. *)
Definition elements (v : value) : list value :=
  match v with JArr items => items | _ => [] end.

Fixpoint lookup_prop (k : string) (props : list (string * value)) : value :=
  match props with
  | [] => JUndefined
  | (k', v) :: props' => if String.eqb k k' then v else lookup_prop k props'
  end.

(** The completion of an evaluation: a value, or a thrown error with its
    message. *)
Inductive completion (A : Type) : Type :=
| Normal (a : A)
| Throw (message : string).
#[global] Arguments Normal {A} a.
#[global] Arguments Throw {A} message.

(** [v.k] for a property name [k] that no array, string, number or
    boolean has: a TypeError on undefined and null. *)
Definition get (v : value) (k : string) : completion value :=
  match v with
  | JUndefined => Throw ("Cannot read properties of undefined (reading '" ++ k ++ "')")
  | JNull => Throw ("Cannot read properties of null (reading '" ++ k ++ "')")
  | JObj props => Normal (lookup_prop k props)
  | _ => Normal JUndefined
  end.

(** [v?.k] *)
Definition get_optional (v : value) (k : string) : value :=
  match v with
  | JObj props => lookup_prop k props
  | _ => JUndefined
  end.

(** [v[0]] *)
Definition first (v : value) : completion value :=
  match v with
  | JUndefined => Throw "Cannot read properties of undefined (reading '0')"
  | JNull => Throw "Cannot read properties of null (reading '0')"
  | JArr (x :: _) => Normal x
  | JStr s => Normal (match first_unit s with Some u => JStr u | None => JUndefined end)
  | JObj props => Normal (lookup_prop "0" props)
  | _ => Normal JUndefined
  end.

(** The string of a value, for a rendering [fmt] of the values that are
    not strings. *)
Definition to_string (fmt : value -> string) (v : value) : string :=
  match v with JStr s => s | _ => fmt v end.

(** The line feed of ["\n"]. *)
Definition nl : string := String (ascii_of_nat 10) EmptyString.

End Js.

(** ** The relational store

    Tables of rows, with the behaviour of the supabase-js query builder
    the handlers rely on: [.eq] filters by equality, [.single()] yields
    the row only when exactly one row matches, [.update] patches every
    matching row, [.upsert] inserts unless the primary key conflicts.
    Queries never throw: failures come back in the [error] field. *)

Module Store.

(** Column values.  [VObj] is a JSON column with string properties. *)
Inductive val :=
| VNull
| VBool (b : bool)
| VNum (z : Z)
| VStr (s : string)
| VObj (kv : list (string * string)).

#[global] Instance val_eq_dec : EqDecision val.
Proof. solve_decision. Defined.

(** A row is an object: a finite map from column names to values. *)
Abbreviation row := (gmap string val).
Abbreviation table := (list (gmap string val)).
Abbreviation database := (gmap string (list (gmap string val))).

(** A conjunction of [.eq(column, value)] filters. *)
Abbreviation filter := (list (string * string)).

Definition from (d : database) (t : string) : table := default [] (d !! t).

Definition matches (f : filter) (r : row) : bool :=
  forallb (fun cv => bool_decide (r !! cv.1 = Some (VStr cv.2))) f.

(** [.from(t).select('*').eq(..)...]: the matching rows. *)
Definition select (d : database) (t : string) (f : filter) : table :=
  List.filter (matches f) (from d t).

(** The outcome [{ data, error }] of a query. *)
Record result := { data : option row; error : bool }.

(** [.single()]: the row when exactly one row matches; otherwise data
    is null and an error is reported. *)
Definition single (rows : table) : result :=
  match rows with
  | [r] => {| data := Some r; error := false |}
  | _ => {| data := None; error := true |}
  end.

(** [.from(t).update(patch).eq(..)...]: the columns of the patch are
    overwritten in every matching row. *)
Definition update (d : database) (t : string) (patch : row) (f : filter) : database :=
  alter (List.map (fun r => if matches f r then patch ∪ r else r)) t d.

(** Two rows conflict when they agree on every column of the primary
    key [pk]. *)
Definition conflicts (pk : list string) (r r' : row) : bool :=
  match pk with
  | [] => false
  | _ => forallb (fun c => match r !! c, r' !! c with
                           | Some v, Some v' => bool_decide (v = v')
                           | _, _ => false
                           end) pk
  end.

(** [.from(t).upsert(r)]: insert, or on a primary-key conflict
    overwrite the given columns of the conflicting row. *)
Definition upsert (pk : list string) (d : database) (t : string) (r : row) : database :=
  let rows := from d t in
  if existsb (conflicts pk r) rows
  then <[t := List.map (fun r' => if conflicts pk r r' then r ∪ r' else r') rows]> d
  else <[t := (rows ++ [r])%list]> d.

(** Truthiness of a column value; a missing property is undefined. *)
Definition truthy (o : option val) : bool :=
  match o with
  | None | Some VNull => false
  | Some (VBool b) => b
  | Some (VNum z) => negb (z =? 0)%Z
  | Some (VStr s) => Js.truthy_string s
  | Some (VObj _) => true
  end.

(** The value of a text column: a string, or nothing when the column is
    null or missing (the columns read this way hold text). *)
Definition text_of (o : option val) : option string :=
  match o with Some (VStr s) => Some s | _ => None end.

(** Property lookup in a JSON column. *)
Fixpoint property (k : string) (kv : list (string * string)) : option string :=
  match kv with
  | [] => None
  | (k', v) :: kv' => if String.eqb k k' then Some v else property k kv'
  end.

(** A property of an object literal: omitted when the value is
    undefined. *)
Definition prop (k : string) (o : option string) (r : row) : row :=
  match o with Some s => <[k := VStr s]> r | None => r end.

(** A property whose value is a string or null. *)
Definition nullable (k : string) (o : option string) (r : row) : row :=
  <[k := match o with Some s => VStr s | None => VNull end]> r.

End Store.

(** ** HTTP responses *)

Module Http.

Inductive content :=
| json (o : list (string * Store.val))
| json_values (o : list (string * Js.value))
| text (s : string)
| no_content.

Record response := { status : Z; sent : content }.

End Http.

(** ** The billing gateway *)

Module Gateway.

Abbreviation metadata := (gmap string string).

(** The objects carried by webhook events, with the fields the handlers
    read.  Metadata and period bounds may be missing; the customer and
    subscription of a session may be null. *)
Record session := {
  session_id : string;
  session_metadata : option metadata;
  session_customer : option string;
  session_subscription : option string }.

Record subscription := {
  subscription_id : string;
  subscription_customer : option string;
  subscription_status : string;
  current_period_start : option Z;
  current_period_end : option Z;
  subscription_metadata : option metadata }.

Record invoice := { invoice_subscription : string }.

Record account := {
  account_id : string;
  charges_enabled : bool;
  payouts_enabled : bool;
  details_submitted : bool }.

(** A verified event: its type together with [event.data.object]. *)
Inductive event :=
| checkout_session_completed (s : session)
| customer_subscription_created (s : subscription)
| customer_subscription_updated (s : subscription)
| customer_subscription_deleted (s : subscription)
| invoice_payment_failed (i : invoice)
| invoice_payment_succeeded (i : invoice)
| account_updated (a : account)
| unhandled (type : string).

(** The parameters of [stripe.checkout.sessions.create] that vary: the
    others are the literals ['card'], ['usd'], [{ interval: 'month' }],
    quantity 1 and mode ['subscription']. *)
Record subscription_data := {
  application_fee_percent : Z;
  subscription_data_metadata : metadata }.

Record session_params := {
  customer : string;
  product_name : string;
  product_description : option string;
  unit_amount : option Z;
  success_url : string;
  cancel_url : string;
  subscription_data_ : option subscription_data;
  session_params_metadata : metadata }.

Record checkout_session := { checkout_session_id : string; url : string }.

Record retrieved_subscription := {
  retrieved_status : string;
  retrieved_current_period_end : Z;
  cancel_at_period_end : bool }.

(** The calls made to the gateway. *)
Inductive call :=
| customers_list (email : string)
| customers_create (email : string) (md : metadata) (stripeAccount : option string)
| checkout_sessions_create (p : session_params) (stripeAccount : option string)
| accounts_create (email : string) (md : metadata)
| accountLinks_create (account refresh_url return_url : string)
| subscriptions_retrieve (id : string) (stripeAccount : string)
| accounts_retrieve (id : option string).

(** The gateway as an oracle: the answer to every call, normal or thrown.
    Customers and accounts are given by their id.  [constructEvent]
    takes the serialised body, the signature header and the endpoint
    secret; it throws when the signature does not verify. *)
Class Stripe := {
  on_constructEvent : string -> option string -> option string -> Js.completion event;
  on_customers_list : string -> Js.completion (list string);
  on_customers_create : string -> metadata -> option string -> Js.completion string;
  on_checkout_sessions_create : session_params -> option string -> Js.completion checkout_session;
  on_accounts_create : string -> metadata -> Js.completion string;
  on_accountLinks_create : string -> string -> string -> Js.completion string;
  on_subscriptions_retrieve : string -> string -> Js.completion retrieved_subscription;
  on_accounts_retrieve : option string -> Js.completion account }.

End Gateway.

(** ** The completion API *)

Module Completion.

(** Where the bearer token of a request comes from. *)
Inductive credential :=
| from_environment (key : string)
| written_in_source.

(** The request sent to the chat-completions endpoint.  Fields that a
    handler does not send are [None]. *)
Record api_request := {
  authorization : credential;
  referer : option string;
  title : option string;
  model : string;
  messages : list Js.value;
  max_tokens : Z;
  temperature : Js.number;
  stream : option bool }.

(** The reply: [response.ok], [response.status], and the outcome of
    [response.json()]. *)
Record reply := {
  ok : bool;
  status : Z;
  parsed : Js.completion Js.value }.

(** The API as an oracle; [fetch] itself may throw. *)
Class Api := { on_fetch : api_request -> Js.completion reply }.

End Completion.

(** ** Effects: the store, the trace of operations, the clock *)

Module Eff.
Import Store.

(** What the schema and the runtime provide: the primary key of every
    table, the rendering of a time value by [toISOString], the
    successive readings of the clock, and the string conversion of the
    values that are not strings. *)
Class Platform := {
  primary_key : string -> list string;
  toISOString : Z -> string;
  clock : nat -> Z;
  format : Js.value -> string }.

Inductive effect :=
| Select (t : string) (f : filter)
| Update (t : string) (patch : row) (f : filter)
| Upsert (t : string) (r : row)
| Call (c : Gateway.call)
| Fetch (r : Completion.api_request).

(** A store operation that writes. *)
Definition is_mutation (e : effect) : bool :=
  match e with
  | Update _ _ _ | Upsert _ _ => true
  | Select _ _ | Call _ | Fetch _ => false
  end.

(** A call to the billing gateway. *)
Definition is_call (e : effect) : bool :=
  match e with Call _ => true | _ => false end.

(** A call to the completion API. *)
Definition is_fetch (e : effect) : bool :=
  match e with Fetch _ => true | _ => false end.

Record world := { db : database; trace : list effect; ticks : nat }.

Definition M (A : Type) : Type := world -> Js.completion A * world.

Definition ret {A} (a : A) : M A := fun w => (Js.Normal a, w).

Definition throw {A} (message : string) : M A := fun w => (Js.Throw message, w).

Definition bind {A B} (m : M A) (k : A -> M B) : M B :=
  fun w => match m w with
           | (Js.Normal a, w') => k a w'
           | (Js.Throw e, w') => (Js.Throw e, w')
           end.

(** [try { m } catch (err) { h err.message }] *)
Definition try_catch {A} (m : M A) (h : string -> M A) : M A :=
  fun w => match m w with
           | (Js.Normal a, w') => (Js.Normal a, w')
           | (Js.Throw e, w') => h e w'
           end.

Definition lift {A} (c : Js.completion A) : M A := fun w => (c, w).

Definition emit (e : effect) : M unit :=
  fun w => (Js.Normal tt,
            {| db := db w; trace := (trace w ++ [e])%list; ticks := ticks w |}).

Definition modify (f : database -> database) : M unit :=
  fun w => (Js.Normal tt, {| db := f (db w); trace := trace w; ticks := ticks w |}).

Definition read_db : M database := fun w => (Js.Normal (db w), w).

End Eff.

Declare Scope eff_scope.
Delimit Scope eff_scope with eff.
Notation "'let*' x ':=' m 'in' k" := (Eff.bind m (fun x => k))
  (at level 10, x name, m at level 100, k at level 200) : eff_scope.
Notation "m ';;' k" := (Eff.bind m (fun _ => k))
  (at level 100, k at level 200, right associativity) : eff_scope.

Module Supabase.
Import Store Eff.
#[local] Open Scope eff_scope.

Section WithPlatform.
Context `{Platform}.

(** [await supabase.from(t).select('*').eq(..)...single()] *)
Definition select_single (t : string) (f : filter) : M result :=
  (emit (Select t f) ;;
   let* d := read_db in
   ret (single (select d t f)))%eff.

(** [await supabase.from(t).update(patch).eq(..)] *)
Definition update (t : string) (patch : row) (f : filter) : M unit :=
  (emit (Update t patch f) ;;
   modify (fun d => Store.update d t patch f))%eff.

(** [await supabase.from(t).upsert(r)] *)
Definition upsert (t : string) (r : row) : M unit :=
  (emit (Upsert t r) ;;
   modify (fun d => Store.upsert (primary_key t) d t r))%eff.

(** [new Date().toISOString()] *)
Definition now_iso : M string :=
  fun w => (Js.Normal (toISOString (clock (ticks w))),
            {| db := db w; trace := trace w; ticks := S (ticks w) |}).

(** [new Date(seconds * 1000).toISOString()]: a RangeError when the
    time value is NaN (the field is missing) or beyond 8.64e15 ms. *)
Definition seconds_iso (seconds : option Z) : M string :=
  match seconds with
  | Some s =>
      if (Z.abs (s * 1000) <=? 8640000000000000)%Z
      then ret (toISOString (s * 1000))
      else throw "Invalid time value"
  | None => throw "Invalid time value"
  end.

End WithPlatform.
End Supabase.

(** The gateway client: every call is recorded, then answered by the
    oracle. *)
Module StripeClient.
Import Eff Gateway.
#[local] Open Scope eff_scope.

Section WithStripe.
Context `{Stripe}.

Definition request {A} (c : call) (answer : Js.completion A) : M A :=
  (emit (Call c) ;; lift answer)%eff.

Definition customers_list (email : string) : M (list string) :=
  request (Gateway.customers_list email) (on_customers_list email).

Definition customers_create (email : string) (md : metadata)
    (stripeAccount : option string) : M string :=
  request (Gateway.customers_create email md stripeAccount)
          (on_customers_create email md stripeAccount).

Definition checkout_sessions_create (p : session_params)
    (stripeAccount : option string) : M checkout_session :=
  request (Gateway.checkout_sessions_create p stripeAccount)
          (on_checkout_sessions_create p stripeAccount).

Definition accounts_create (email : string) (md : metadata) : M string :=
  request (Gateway.accounts_create email md) (on_accounts_create email md).

Definition accountLinks_create (account : string) (refresh_url return_url : string)
    : M string :=
  request (Gateway.accountLinks_create account refresh_url return_url)
          (on_accountLinks_create account refresh_url return_url).

Definition subscriptions_retrieve (id : string) (stripeAccount : string)
    : M retrieved_subscription :=
  request (Gateway.subscriptions_retrieve id stripeAccount)
          (on_subscriptions_retrieve id stripeAccount).

Definition accounts_retrieve (id : option string) : M account :=
  request (Gateway.accounts_retrieve id) (on_accounts_retrieve id).

End WithStripe.
End StripeClient.

(** ** [api/stripe-webhooks.js]: the webhook event reconciler *)

Module Webhooks.
Import Store Eff Gateway Http.
#[local] Open Scope eff_scope.

Record request := {
  method : string;
  stripe_signature : option string;
  body : string }.

Section Handlers.
Context `{Platform} `{Stripe}.

(** [metadata.type === tag] *)
Definition has_type (metadata : metadata) (tag : string) : bool :=
  bool_decide (metadata !! "type" = Some tag).

Definition handleCheckoutCompleted (session : session) : M unit :=
  match session_metadata session with
  | None => throw "Cannot read properties of undefined (reading 'type')"
  | Some metadata =>
      if has_type metadata "creator_subscription" then
        Supabase.upsert "creator_subscriptions"
          (prop "user_id" (metadata !! "userId")
          (nullable "stripe_customer_id" (session_customer session)
          (nullable "stripe_subscription_id" (session_subscription session)
          (<["status" := VStr "active"]> ∅))))
      else if has_type metadata "customer_subscription" then
        Supabase.upsert "customer_subscriptions"
          (prop "customer_id" (metadata !! "userId")
          (prop "gpt_id" (metadata !! "gptId")
          (prop "creator_id" (metadata !! "creatorId")
          (nullable "stripe_customer_id" (session_customer session)
          (nullable "stripe_subscription_id" (session_subscription session)
          (<["status" := VStr "active"]> ∅))))))
      else ret tt
  end.

(** [{ status, current_period_start: .., current_period_end: .. }] *)
Definition period_patch (status start_ end_ : string) : row :=
  <["status" := VStr status]>
  (<["current_period_start" := VStr start_]>
  (<["current_period_end" := VStr end_]> ∅)).

Definition handleSubscriptionCreated (subscription : subscription) : M unit :=
  let status := subscription_status subscription in
  if match subscription_metadata subscription with
     | Some metadata => has_type metadata "creator_subscription"
     | None => false
     end
  then
    let* start_ := Supabase.seconds_iso (current_period_start subscription) in
    let* end_ := Supabase.seconds_iso (current_period_end subscription) in
    Supabase.update "creator_subscriptions" (period_patch status start_ end_)
      [("stripe_subscription_id", subscription_id subscription)]
  else
    let* start_ := Supabase.seconds_iso (current_period_start subscription) in
    let* end_ := Supabase.seconds_iso (current_period_end subscription) in
    Supabase.update "customer_subscriptions" (period_patch status start_ end_)
      [("stripe_subscription_id", subscription_id subscription)].

Definition handleSubscriptionUpdated (subscription : subscription) : M unit :=
  let status := subscription_status subscription in
  let* start_ := Supabase.seconds_iso (current_period_start subscription) in
  let* end_ := Supabase.seconds_iso (current_period_end subscription) in
  let* now := Supabase.now_iso in
  Supabase.update "creator_subscriptions"
    (<["updated_at" := VStr now]> (period_patch status start_ end_))
    [("stripe_subscription_id", subscription_id subscription)] ;;
  let* start_ := Supabase.seconds_iso (current_period_start subscription) in
  let* end_ := Supabase.seconds_iso (current_period_end subscription) in
  let* now := Supabase.now_iso in
  Supabase.update "customer_subscriptions"
    (<["updated_at" := VStr now]> (period_patch status start_ end_))
    [("stripe_subscription_id", subscription_id subscription)].

(** [.update({ status: s, updated_at: new Date().toISOString() })
     .eq('stripe_subscription_id', id)] on both subscription tables. *)
Definition mark_both (status id : string) : M unit :=
  let* now := Supabase.now_iso in
  Supabase.update "creator_subscriptions"
    (<["status" := VStr status]> (<["updated_at" := VStr now]> ∅))
    [("stripe_subscription_id", id)] ;;
  let* now := Supabase.now_iso in
  Supabase.update "customer_subscriptions"
    (<["status" := VStr status]> (<["updated_at" := VStr now]> ∅))
    [("stripe_subscription_id", id)].

Definition handleSubscriptionDeleted (subscription : subscription) : M unit :=
  mark_both "canceled" (subscription_id subscription).

Definition handlePaymentFailed (invoice : invoice) : M unit :=
  mark_both "past_due" (invoice_subscription invoice).

Definition handlePaymentSucceeded (invoice : invoice) : M unit :=
  mark_both "active" (invoice_subscription invoice).

Definition handleConnectAccountUpdated (account : account) : M unit :=
  let* now := Supabase.now_iso in
  Supabase.update "creator_connect_accounts"
    (<["charges_enabled" := VBool (charges_enabled account)]>
    (<["payouts_enabled" := VBool (payouts_enabled account)]>
    (<["onboarding_complete" := VBool (details_submitted account)]>
    (<["updated_at" := VStr now]> ∅))))
    [("stripe_account_id", account_id account)].

(** [switch (event.type)] *)
Definition dispatch (event : event) : M unit :=
  match event with
  | checkout_session_completed o => handleCheckoutCompleted o
  | customer_subscription_created o => handleSubscriptionCreated o
  | customer_subscription_updated o => handleSubscriptionUpdated o
  | customer_subscription_deleted o => handleSubscriptionDeleted o
  | invoice_payment_failed o => handlePaymentFailed o
  | invoice_payment_succeeded o => handlePaymentSucceeded o
  | account_updated o => handleConnectAccountUpdated o
  | unhandled _ => ret tt
  end.

(** The handler, for the endpoint secret of the environment. *)
Definition handler (endpointSecret : option string) (req : request) : M response :=
  if negb (String.eqb (method req) "POST") then
    ret {| status := 405; sent := json [("error", VStr "Method not allowed")] |}
  else
    match on_constructEvent (body req) (stripe_signature req) endpointSecret with
    | Js.Throw message =>
        ret {| status := 400; sent := text ("Webhook Error: " ++ message) |}
    | Js.Normal event =>
        try_catch
          (dispatch event ;;
           ret {| status := 200; sent := json [("received", VBool true)] |})
          (fun _ =>
           ret {| status := 500;
                         sent := json [("error", VStr "Webhook processing failed")] |})
    end.

End Handlers.
End Webhooks.

(** ** [api/stripe-config.js]: the subscription action dispatcher *)

Module StripeConfig.
Import Store Eff Gateway Http.
#[local] Open Scope eff_scope.

(** The fields of [req.body] besides [action]. *)
Record payload := {
  userId : string;
  email : string;
  gptId : string;
  creatorId : string;
  monthlyPrice : Js.number;
  subscriptionId : string;
  stripeAccountId : string }.

Record request := {
  method : string;
  origin : option string;
  action : string;
  data_ : payload }.

(** The literals [100] and [0.30]. *)
Definition hundred : Js.number := Js.num 100 0.
Definition thirty_percent : Js.number := Js.decimal 30 2.

(** [Math.round(monthlyPrice * 100 * 0.30)] *)
Definition applicationFeeAmount (monthlyPrice : Js.number) : option Z :=
  Js.Math_round (Js.times (Js.times monthlyPrice hundred) thirty_percent).

(** [Math.round(monthlyPrice * 100)] *)
Definition unitAmount (monthlyPrice : Js.number) : option Z :=
  Js.Math_round (Js.times monthlyPrice hundred).

Definition ok (o : list (string * val)) : response :=
  {| status := 200; sent := json o |}.

Definition bad_request (message : string) : response :=
  {| status := 400; sent := json [("error", VStr message)] |}.

Section Handlers.
Context `{Platform} `{Stripe}.

Definition createCreatorSubscription (req : request) (d : payload) : M response :=
  try_catch
    (let* existing :=
       Supabase.select_single "creator_subscriptions"
         [("user_id", userId d); ("status", "active")] in
     match data existing with
     | Some _ => ret (bad_request "Already has active creator subscription")
     | None =>
         let* customers := StripeClient.customers_list (email d) in
         let* customer :=
           match customers with
           | c :: _ => ret c
           | [] =>
               StripeClient.customers_create (email d)
                 (<["userId" := userId d]> (<["type" := "creator"]> ∅)) None
           end in
         let* session :=
           StripeClient.checkout_sessions_create
             {| customer := customer;
                product_name := "Creator Subscription";
                product_description :=
                  Some "Monthly subscription to monetize your GPTs on the marketplace";
                unit_amount := Some 1900;
                success_url := Js.template (origin req) ++ "?creator_subscription=success";
                cancel_url := Js.template (origin req) ++ "?creator_subscription=cancelled";
                subscription_data_ := None;
                session_params_metadata :=
                  <["userId" := userId d]> (<["type" := "creator_subscription"]> ∅) |}
             None in
         ret (ok [("sessionId", VStr (checkout_session_id session));
                  ("customerId", VStr customer);
                  ("url", VStr (url session))])
     end)
    (fun error => throw error).

Definition createConnectAccount (req : request) (d : payload) : M response :=
  try_catch
    (let* existing :=
       Supabase.select_single "creator_connect_accounts" [("user_id", userId d)] in
     let existingId :=
       match data existing with
       | Some r => if truthy (r !! "stripe_account_id")
                   then text_of (r !! "stripe_account_id") else None
       | None => None
       end in
     let* accountId :=
       match existingId with
       | Some a => ret a
       | None =>
           let* a := StripeClient.accounts_create (email d)
                       (<["userId" := userId d]> ∅) in
           Supabase.upsert "creator_connect_accounts"
             (<["user_id" := VStr (userId d)]>
             (<["stripe_account_id" := VStr a]>
             (<["onboarding_complete" := VBool false]>
             (<["charges_enabled" := VBool false]>
             (<["payouts_enabled" := VBool false]> ∅))))) ;;
           ret a
       end in
     let* link :=
       StripeClient.accountLinks_create accountId
         (Js.template (origin req) ++ "/creator-dashboard?setup=refresh")
         (Js.template (origin req) ++ "?connect=success") in
     ret (ok [("accountId", VStr accountId); ("onboardingUrl", VStr link)]))
    (fun error => throw error).

(** [gptData.gpt_data.name] and [gptData.gpt_data.description]: reading
    a property of null or undefined throws. *)
Definition gpt_details (gptData : option row)
    : Js.completion (option string * option string) :=
  match gptData with
  | None => Js.Throw "Cannot read properties of null (reading 'gpt_data')"
  | Some r =>
      match r !! "gpt_data" with
      | Some (VObj kv) => Js.Normal (property "name" kv, property "description" kv)
      | None => Js.Throw "Cannot read properties of undefined (reading 'name')"
      | Some VNull => Js.Throw "Cannot read properties of null (reading 'name')"
      | Some _ => Js.Normal (None, None)
      end
  end.

Definition createCustomerSubscription (req : request) (d : payload) : M response :=
  try_catch
    (let* connect :=
       Supabase.select_single "creator_connect_accounts" [("user_id", creatorId d)] in
     if error connect
        || negb (match data connect with
                 | Some r => truthy (r !! "onboarding_complete")
                 | None => false
                 end)
     then ret (bad_request "Creator payment setup not complete")
     else
       let* existing :=
         Supabase.select_single "customer_subscriptions"
           [("customer_id", userId d); ("gpt_id", gptId d); ("status", "active")] in
       match data existing with
       | Some _ => ret (bad_request "Already subscribed to this GPT")
       | None =>
           let* gpt := Supabase.select_single "user_gpts" [("id", gptId d)] in
           if error gpt then ret (bad_request "GPT not found")
           else
             let stripeAccount :=
               match data connect with
               | Some r => text_of (r !! "stripe_account_id")
               | None => None
               end in
             let md :=
               <["userId" := userId d]>
               (<["gptId" := gptId d]>
               (<["creatorId" := creatorId d]> ∅)) in
             let* customer :=
               StripeClient.customers_create (email d) md stripeAccount in
             let applicationFeeAmount := applicationFeeAmount (monthlyPrice d) in
             let* details := lift (gpt_details (data gpt)) in
             let* session :=
               StripeClient.checkout_sessions_create
                 {| customer := customer;
                    product_name := "GPT Access: " ++ Js.template details.1;
                    product_description := details.2;
                    unit_amount := unitAmount (monthlyPrice d);
                    success_url :=
                      Js.template (origin req) ++ "?subscription=success&gpt=" ++ gptId d;
                    cancel_url := Js.template (origin req) ++ "?subscription=cancelled";
                    subscription_data_ :=
                      Some {| application_fee_percent := 30;
                              subscription_data_metadata :=
                                <["type" := "customer_subscription"]> md |};
                    session_params_metadata :=
                      <["type" := "customer_subscription"]> md |}
                 stripeAccount in
             ret (ok [("sessionId", VStr (checkout_session_id session));
                      ("customerId", VStr customer);
                      ("url", VStr (url session))])
       end)
    (fun error => throw error).

Definition verifySubscription (req : request) (d : payload) : M response :=
  try_catch
    (let* subscription :=
       StripeClient.subscriptions_retrieve (subscriptionId d) (stripeAccountId d) in
     ret (ok [("status", VStr (retrieved_status subscription));
              ("currentPeriodEnd", VNum (retrieved_current_period_end subscription));
              ("cancelAtPeriodEnd", VBool (cancel_at_period_end subscription))]))
    (fun error => throw error).

Definition getConnectStatus (req : request) (d : payload) : M response :=
  try_catch
    (let* connect :=
       Supabase.select_single "creator_connect_accounts" [("user_id", userId d)] in
     match error connect, data connect with
     | false, Some connectAccount =>
         let* account :=
           StripeClient.accounts_retrieve
             (text_of (connectAccount !! "stripe_account_id")) in
         Supabase.update "creator_connect_accounts"
           (<["onboarding_complete" := VBool (details_submitted account)]>
           (<["charges_enabled" := VBool (charges_enabled account)]>
           (<["payouts_enabled" := VBool (payouts_enabled account)]> ∅)))
           [("user_id", userId d)] ;;
         ret (ok [("exists", VBool true);
                  ("accountId", default VNull (connectAccount !! "stripe_account_id"));
                  ("onboardingComplete", VBool (details_submitted account));
                  ("chargesEnabled", VBool (charges_enabled account));
                  ("payoutsEnabled", VBool (payouts_enabled account))])
     | _, _ => ret (ok [("exists", VBool false)])
     end)
    (fun error => throw error).

(** The handler.  The CORS headers it sets on every response are not
    part of [response]. *)
Definition handler (req : request) : M response :=
  if String.eqb (method req) "OPTIONS" then
    ret {| status := 200; sent := no_content |}
  else if negb (String.eqb (method req) "POST") then
    ret {| status := 405; sent := json [("error", VStr "Method not allowed")] |}
  else
    try_catch
      (if String.eqb (action req) "create_creator_subscription" then
         createCreatorSubscription req (data_ req)
       else if String.eqb (action req) "create_connect_account" then
         createConnectAccount req (data_ req)
       else if String.eqb (action req) "create_customer_subscription" then
         createCustomerSubscription req (data_ req)
       else if String.eqb (action req) "verify_subscription" then
         verifySubscription req (data_ req)
       else if String.eqb (action req) "get_connect_status" then
         getConnectStatus req (data_ req)
       else ret (bad_request "Invalid action"))
      (fun message =>
       ret {| status := 500; sent := json [("error", VStr message)] |}).

End Handlers.
End StripeConfig.

(** ** [api/chat.js]: the completion proxy *)

Module Chat.
Import Eff Completion Http.
#[local] Open Scope eff_scope.

(** [req.body]: undefined or null when the request has no body or the
    body is the JSON literal null; otherwise the four properties the
    handler reads (a body that is not an object has none of them). *)
Inductive body :=
| absent (null : bool)
| object (messages : Js.value) (instructions context model : option string).

(** The request: method, origin header and body. *)
Record request := {
  method : string;
  origin : option string;
  body_ : body }.

(** The properties of the body, as the destructuring binds them. *)
Definition messages_ (req : request) : Js.value :=
  match body_ req with object m _ _ _ => m | absent _ => Js.JUndefined end.

Definition instructions (req : request) : option string :=
  match body_ req with object _ i _ _ => i | absent _ => None end.

Definition context (req : request) : option string :=
  match body_ req with object _ _ c _ => c | absent _ => None end.

Definition model_ (req : request) : option string :=
  match body_ req with object _ _ _ m => m | absent _ => None end.

(** The TypeError of [const { messages, ... } = req.body] on a body that
    is undefined or null. *)
Definition not_destructurable (null : bool) : string :=
  "Cannot destructure property 'messages' of 'req.body' as it is "
  ++ (if null then "null" else "undefined") ++ ".".

(** [x || d] for a string or undefined [x]. *)
Definition or_else (x : option string) (d : string) : string :=
  match x with
  | Some s => if Js.truthy_string s then s else d
  | None => d
  end.

Definition documents_header : string :=
  Js.nl ++ Js.nl ++ "Relevant information from uploaded documents:" ++ Js.nl.

(** [instructions || '..'], then the header and the context appended
    [if (context && context.trim())]. *)
Definition systemContent (instructions context : option string) : string :=
  let base := or_else instructions "You are a helpful AI assistant." in
  match context with
  | Some c =>
      if Js.truthy_string c && Js.truthy_string (Js.trim c)
      then base ++ documents_header ++ c
      else base
  | None => base
  end.

Definition system_turn (content : string) : Js.value :=
  Js.JObj [("role", Js.JStr "system"); ("content", Js.JStr content)].

(** [[{ role: 'system', content: systemContent }, ...messages]] *)
Definition openRouterMessages (req : request) : list Js.value :=
  system_turn (systemContent (instructions req) (context req))
  :: Js.elements (messages_ req).

Definition outgoing (apiKey : string) (req : request) : api_request :=
  {| authorization := from_environment apiKey;
     referer := Some (or_else (origin req) "https://eringptbuilder.com");
     title := Some "ErinGPT Builder";
     model := default "openai/gpt-4o-mini" (model_ req);
     messages := openRouterMessages req;
     max_tokens := 1500;
     temperature := Js.decimal 7 1;
     stream := Some false |}.

Section Handler.
Context `{Platform} `{Api}.

Definition fetch (r : api_request) : M reply :=
  emit (Fetch r) ;; lift (on_fetch r).

(** [data.error?.message || `API error: ${response.status}`] *)
Definition error_message (data : Js.value) (status : Z) : M string :=
  let* error := lift (Js.get data "error") in
  let message := Js.get_optional error "message" in
  ret (if Js.truthy message then Js.to_string format message
       else "API error: " ++ Js.to_string format (Js.JNum (Js.num status 0))).

(** [!data.choices || !data.choices[0] || !data.choices[0].message] *)
Definition invalid_structure (data : Js.value) : M bool :=
  let* choices := lift (Js.get data "choices") in
  if negb (Js.truthy choices) then ret true
  else
    let* choice := lift (Js.first choices) in
    if negb (Js.truthy choice) then ret true
    else
      let* message := lift (Js.get choice "message") in
      ret (negb (Js.truthy message)).

Definition respond (data : Js.value) : M response :=
  let* choices := lift (Js.get data "choices") in
  let* choice := lift (Js.first choices) in
  let* message := lift (Js.get choice "message") in
  let* content := lift (Js.get message "content") in
  let* model := lift (Js.get data "model") in
  let* usage := lift (Js.get data "usage") in
  ret {| Http.status := 200;
         sent := json_values
           [("success", Js.JBool true);
            ("message", content);
            ("model", model);
            ("usage", if Js.truthy usage then usage else Js.JObj [])] |}.

(** The handler, for the API key of the environment. *)
Definition handler (apiKey : option string) (req : request) : M response :=
  if String.eqb (method req) "OPTIONS" then
    ret {| Http.status := 200; sent := no_content |}
  else if negb (String.eqb (method req) "POST") then
    ret {| Http.status := 405;
           sent := json [("error", Store.VStr "Method not allowed")] |}
  else
    try_catch
      (match apiKey with
       | Some key =>
           if negb (Js.truthy_string key) then
             ret {| Http.status := 500;
                    sent := json [("error", Store.VStr "Server configuration error");
                                  ("details", Store.VStr "API key not configured")] |}
           else
             match body_ req with
             | absent null => throw (not_destructurable null)
             | object _ _ _ _ =>
                 if negb (Js.truthy (messages_ req))
                    || negb (Js.isArray (messages_ req))
                    || (length (Js.elements (messages_ req)) =? 0)%nat
                 then
                   ret {| Http.status := 400;
                          sent := json [("error",
                            Store.VStr "Messages array is required and cannot be empty")] |}
                 else
                   let* response := fetch (outgoing key req) in
                   let* data := lift (parsed response) in
                   if negb (ok response) then
                     let* message := error_message data (Completion.status response) in
                     throw message
                   else
                     let* invalid := invalid_structure data in
                     if invalid then throw "Invalid response structure from OpenRouter API"
                     else respond data
             end
       | None =>
           ret {| Http.status := 500;
                  sent := json [("error", Store.VStr "Server configuration error");
                                ("details", Store.VStr "API key not configured")] |}
       end)
      (fun message =>
       let* logged := Supabase.now_iso in
       let* timestamp := Supabase.now_iso in
       ret {| Http.status := 500;
              sent := json [("error", Store.VStr "Failed to process chat request");
                            ("details", Store.VStr message);
                            ("timestamp", Store.VStr timestamp)] |}).

End Handler.
End Chat.

(** ** The earlier copy of [api/chat.js] *)

Module ChatLegacy.
Import Eff Completion Http.
#[local] Open Scope eff_scope.

(** [instructions || '..'], then the header and the context appended
    [if (context)]. *)
Definition systemContent (instructions context : option string) : string :=
  let base := Chat.or_else instructions "You are a helpful assistant." in
  match context with
  | Some c => if Js.truthy_string c then base ++ Chat.documents_header ++ c else base
  | None => base
  end.

Definition openRouterMessages (req : Chat.request) : list Js.value :=
  Chat.system_turn (systemContent (Chat.instructions req) (Chat.context req))
  :: Js.elements (Chat.messages_ req).

Definition outgoing (req : Chat.request) : api_request :=
  {| authorization := written_in_source;
     referer := None;
     title := None;
     model := default "openai/gpt-4o-mini" (Chat.model_ req);
     messages := openRouterMessages req;
     max_tokens := 1000;
     temperature := Js.decimal 7 1;
     stream := None |}.

Section Handler.
Context `{Platform} `{Api}.

(** [data.error?.message || 'OpenRouter API error'] *)
Definition error_message (data : Js.value) : M string :=
  let* error := lift (Js.get data "error") in
  let message := Js.get_optional error "message" in
  ret (if Js.truthy message then Js.to_string format message
       else "OpenRouter API error").

(** [data.choices[0]?.message?.content || 'No response generated'] *)
Definition reply_text (data : Js.value) : M Js.value :=
  let* choices := lift (Js.get data "choices") in
  let* choice := lift (Js.first choices) in
  let content := Js.get_optional (Js.get_optional choice "message") "content" in
  ret (if Js.truthy content then content else Js.JStr "No response generated").

Definition handler (req : Chat.request) : M response :=
  if negb (String.eqb (Chat.method req) "POST") then
    ret {| Http.status := 405;
           sent := json [("error", Store.VStr "Method not allowed")] |}
  else
    try_catch
      (match Chat.body_ req with
       | Chat.absent null => throw (Chat.not_destructurable null)
       | Chat.object _ _ _ _ =>
           if negb (Js.truthy (Chat.messages_ req))
              || negb (Js.isArray (Chat.messages_ req))
           then
             ret {| Http.status := 400;
                    sent := json [("error", Store.VStr "Messages array is required")] |}
           else
             let* response := Chat.fetch (outgoing req) in
             let* data := lift (parsed response) in
             if negb (ok response) then
               let* message := error_message data in
               throw message
             else
               let* message := reply_text data in
               let* usage := lift (Js.get data "usage") in
               ret {| Http.status := 200;
                      sent := json_values
                        [("success", Js.JBool true);
                         ("message", message);
                         ("usage", usage)] |}
       end)
      (fun message =>
       ret {| Http.status := 500;
              sent := json [("error", Store.VStr "Failed to process request");
                            ("details", Store.VStr message)] |}).

End Handler.
End ChatLegacy.

(** ** Concrete collaborators, for evaluating the handlers *)

Module Scenario.
Import Store Eff Gateway Completion.

#[local] Instance platform : Platform := {|
  primary_key := fun _ => ["id"];
  toISOString := fun ms => "T" ++ pretty ms;
  clock := fun n => 1700000000000 + Z.of_nat n;
  format := fun _ => "[object Object]" |}.

(** A gateway that signs [e] with the signature ["t=1,v1=good"] and
    answers every call. *)
#[local] Instance stripe (e : event) : Stripe := {|
  on_constructEvent := fun _ signature _ =>
    if bool_decide (signature = Some "t=1,v1=good") then Js.Normal e
    else Js.Throw "No signatures found matching the expected signature for payload";
  on_customers_list := fun _ => Js.Normal [];
  on_customers_create := fun _ _ _ => Js.Normal "cus_1";
  on_checkout_sessions_create := fun _ _ =>
    Js.Normal {| checkout_session_id := "cs_1";
                 url := "https://checkout.stripe.com/c/pay/cs_1" |};
  on_accounts_create := fun _ _ => Js.Normal "acct_1";
  on_accountLinks_create := fun _ _ _ => Js.Normal "https://connect.stripe.com/setup/acct_1";
  on_subscriptions_retrieve := fun _ _ =>
    Js.Normal {| retrieved_status := "active";
                 retrieved_current_period_end := 1702592000;
                 cancel_at_period_end := false |};
  on_accounts_retrieve := fun id =>
    Js.Normal {| account_id := default "" id;
                 charges_enabled := true;
                 payouts_enabled := true;
                 details_submitted := true |} |}.

Definition start (d : database) : world := {| db := d; trace := []; ticks := 0 |}.

Definition sub_row (user subscription status : string) : row :=
  <["user_id" := VStr user]>
  (<["stripe_subscription_id" := VStr subscription]>
  (<["status" := VStr status]> ∅)).

Definition delivery : Webhooks.request :=
  {| Webhooks.method := "POST";
     Webhooks.stripe_signature := Some "t=1,v1=good";
     Webhooks.body := "{}" |}.

Definition sub (status : string) (md : option metadata) : subscription :=
  {| subscription_id := "sub_1";
     subscription_customer := Some "cus_1";
     subscription_status := status;
     current_period_start := Some 1700000000;
     current_period_end := Some 1702592000;
     subscription_metadata := md |}.

Definition store1 : database :=
  <["creator_subscriptions" := [sub_row "u1" "sub_1" "active"]]>
  (<["customer_subscriptions" := [sub_row "u2" "sub_1" "active"]]> ∅).

Definition connect_row : row :=
  <["user_id" := VStr "creator_1"]>
  (<["stripe_account_id" := VStr "acct_1"]>
  (<["onboarding_complete" := VBool true]> ∅)).

Definition gpt_row : row :=
  <["id" := VStr "gpt_1"]>
  (<["gpt_data" := VObj [("name", "Helper"); ("description", "Answers questions")]]> ∅).

(** The store of the dispatcher scenarios: user u1 holds two active
    creator subscriptions, creator_1 has finished onboarding and lists
    gpt_1. *)
Definition store2 : database :=
  <["creator_subscriptions" :=
      [sub_row "u1" "sub_1" "active"; sub_row "u1" "sub_2" "active"]]>
  (<["creator_connect_accounts" := [connect_row]]>
  (<["customer_subscriptions" := []]>
  (<["user_gpts" := [gpt_row]]> ∅))).

(** The same store once neither subscription of u1 is active. *)
Definition store3 : database :=
  <["creator_subscriptions" :=
      [sub_row "u1" "sub_1" "canceled"; sub_row "u1" "sub_2" "past_due"]]> store2.

Definition forged : Webhooks.request :=
  {| Webhooks.method := "POST";
     Webhooks.stripe_signature := Some "t=1,v1=forged";
     Webhooks.body := "{}" |}.

Definition checkout_session (type : string) : session :=
  {| session_id := "cs_1";
     session_metadata := Some (<["type" := type]> (<["userId" := "u1"]> ∅));
     session_customer := Some "cus_1";
     session_subscription := Some "sub_1" |}.

Definition payload1 (price : Js.number) : StripeConfig.payload :=
  {| StripeConfig.userId := "u1";
     StripeConfig.email := "u1@example.com";
     StripeConfig.gptId := "gpt_1";
     StripeConfig.creatorId := "creator_1";
     StripeConfig.monthlyPrice := price;
     StripeConfig.subscriptionId := "sub_1";
     StripeConfig.stripeAccountId := "acct_1" |}.

Definition post (action : string) (price : Js.number) : StripeConfig.request :=
  {| StripeConfig.method := "POST";
     StripeConfig.origin := Some "https://eringptbuilder.com";
     StripeConfig.action := action;
     StripeConfig.data_ := payload1 price |}.

(** A gateway for the dispatcher scenarios. *)
Definition gateway : Stripe := stripe (unhandled "ping").

(** A completion API that answers every request with one choice. *)
#[local] Instance api : Api := {|
  on_fetch := fun _ =>
    Js.Normal
      {| ok := true;
         Completion.status := 200;
         parsed := Js.Normal (Js.JObj
           [("choices", Js.JArr
               [Js.JObj [("message", Js.JObj [("role", Js.JStr "assistant");
                                              ("content", Js.JStr "Hello!")])]]);
            ("model", Js.JStr "openai/gpt-4o-mini");
            ("usage", Js.JObj [])]) |} |}.

Definition user_turn (content : string) : Js.value :=
  Js.JObj [("role", Js.JStr "user"); ("content", Js.JStr content)].

Definition chat (messages : Js.value) (context : option string) : Chat.request :=
  {| Chat.method := "POST";
     Chat.origin := Some "https://eringptbuilder.com";
     Chat.body_ := Chat.object messages None context None |}.

(** A POST without a body. *)
Definition bodiless : Chat.request :=
  {| Chat.method := "POST";
     Chat.origin := Some "https://eringptbuilder.com";
     Chat.body_ := Chat.absent false |}.

End Scenario.

(** * Properties *)

Import Store Eff Gateway Completion Http.

(** ** The store *)

Lemma from_update_same (d : database) t patch f :
  from (Store.update d t patch f) t
  = List.map (fun r => if matches f r then patch ∪ r else r) (from d t).
Proof.
  unfold from, Store.update. rewrite lookup_alter_eq.
  destruct (d !! t); reflexivity.
Qed.

Lemma from_update_other (d : database) t t' patch f :
  t ≠ t' -> from (Store.update d t patch f) t' = from d t'.
Proof.
  intros Hne. unfold from, Store.update. rewrite lookup_alter_ne; auto.
Qed.

Lemma matches_one c v (r : row) :
  matches [(c, v)] r = true <-> r !! c = Some (VStr v).
Proof.
  unfold matches. simpl. rewrite andb_true_r. apply bool_decide_eq_true.
Qed.

Lemma prop_lookup_ne k k' o (r : row) :
  k ≠ k' -> prop k o r !! k' = r !! k'.
Proof.
  intros Hne. unfold prop. destruct o; [apply lookup_insert_ne; exact Hne | reflexivity].
Qed.

Lemma nullable_lookup_ne k k' o (r : row) :
  k ≠ k' -> nullable k o r !! k' = r !! k'.
Proof. intros Hne. unfold nullable. apply lookup_insert_ne. exact Hne. Qed.

(** ** Running the monad *)

Ltac run_eff :=
  cbv beta iota zeta delta
    [Eff.bind Eff.ret Eff.throw Eff.try_catch Eff.lift Eff.emit Eff.modify
     Eff.read_db Supabase.update Supabase.upsert Supabase.select_single
     Supabase.now_iso Supabase.seconds_iso StripeClient.request
     StripeClient.customers_list StripeClient.customers_create
     StripeClient.checkout_sessions_create StripeClient.accounts_create
     StripeClient.accountLinks_create StripeClient.subscriptions_retrieve
     StripeClient.accounts_retrieve Chat.fetch];
  cbn [Eff.db Eff.trace Eff.ticks fst snd].

(** Case analysis on the options and conditions a run depends on. *)
Ltac split_cases :=
  repeat match goal with
  | |- context [match ?x with Some _ => _ | None => _ end] => destruct x; run_eff
  | |- context [if ?b then _ else _] => destruct b; run_eff
  end.

(** The operations a run has added to the trace. *)
Ltac found_trace :=
  first [ exists []; split; [symmetry; apply app_nil_r | constructor]
        | eexists; split; [rewrite <- ?app_assoc; reflexivity |] ].

Ltac each_effect tac :=
  repeat first [ constructor; [tac |] | constructor ].

(** ** The webhook event reconciler *)

Section Reconciler.
Context `{Platform} `{Stripe}.

Definition received : response :=
  {| Http.status := 200; sent := json [("received", VBool true)] |}.

Definition processing_failed : response :=
  {| Http.status := 500; sent := json [("error", VStr "Webhook processing failed")] |}.

(** C7.  A request whose signature does not verify changes nothing: the
    world after the handler is the world before it, no store operation is
    issued, and the answer is a client error, 400 with the verification
    message for a POST (any other method is refused with 405 before the
    signature is looked at). *)
Theorem invalid_signature_rejected (secret : option string) (req : Webhooks.request)
    (w : world) (message : string) :
  on_constructEvent (Webhooks.body req) (Webhooks.stripe_signature req) secret
    = Js.Throw message ->
  exists resp,
    Webhooks.handler secret req w = (Js.Normal resp, w)
    /\ (Webhooks.method req = "POST" ->
        resp = {| Http.status := 400; sent := text ("Webhook Error: " ++ message) |})
    /\ (Webhooks.method req ≠ "POST" -> Http.status resp = 405).
Proof.
  intros Hsig. unfold Webhooks.handler.
  destruct (String.eqb (Webhooks.method req) "POST") eqn:Hm; simpl.
  - apply String.eqb_eq in Hm. rewrite Hsig. eexists. split; [reflexivity|].
    split; [reflexivity | congruence].
  - apply String.eqb_neq in Hm. eexists. split; [reflexivity|].
    split; [congruence | reflexivity].
Qed.



(** *** customer.subscription.created *)

(** The [type] tag of the subscription's metadata, if any. *)
Definition type_tag (sub : subscription) : option string :=
  match subscription_metadata sub with
  | Some md => md !! "type"
  | None => None
  end.

(** A period bound that [new Date(seconds * 1000)] accepts. *)
Definition valid_seconds (o : option Z) (s : Z) : Prop :=
  o = Some s /\ Z.abs (s * 1000) <= 8640000000000000.

(** The table that customer.subscription.created updates. *)
Definition created_table (sub : subscription) : string :=
  if bool_decide (type_tag sub = Some "creator_subscription")
  then "creator_subscriptions" else "customer_subscriptions".

Definition by_subscription (id : string) : filter := [("stripe_subscription_id", id)].

(** The world after one update. *)
Definition updated (w : world) (t : string) (patch : row) (f : filter) : world :=
  {| db := Store.update (db w) t patch f;
     trace := (trace w ++ [Update t patch f])%list;
     ticks := ticks w |}.

Lemma seconds_iso_valid o s (w : world) :
  valid_seconds o s ->
  Supabase.seconds_iso o w = (Js.Normal (toISOString (s * 1000)), w).
Proof.
  intros [-> Hle]. unfold Supabase.seconds_iso.
  apply Z.leb_le in Hle. rewrite Hle. reflexivity.
Qed.

Lemma handleSubscriptionCreated_run (sub : subscription) (w : world) s1 s2 :
  valid_seconds (current_period_start sub) s1 ->
  valid_seconds (current_period_end sub) s2 ->
  Webhooks.handleSubscriptionCreated sub w
  = (Js.Normal tt,
     updated w (created_table sub)
       (Webhooks.period_patch (subscription_status sub)
          (toISOString (s1 * 1000)) (toISOString (s2 * 1000)))
       (by_subscription (subscription_id sub))).
Proof.
  intros H1 H2.
  unfold Webhooks.handleSubscriptionCreated, created_table, type_tag, Webhooks.has_type.
  destruct (subscription_metadata sub) as [md|].
  - destruct (bool_decide (md !! "type" = Some "creator_subscription"));
      unfold Eff.bind;
      rewrite (seconds_iso_valid _ _ _ H1), (seconds_iso_valid _ _ _ H2); reflexivity.
  - rewrite bool_decide_eq_false_2 by discriminate.
    unfold Eff.bind.
    rewrite (seconds_iso_valid _ _ _ H1), (seconds_iso_valid _ _ _ H2); reflexivity.
Qed.

(** C1, as the code has it.  A customer.subscription.created event with
    valid period bounds issues exactly one update, of status and period,
    on the rows with the subscription's id in one table:
    creator_subscriptions when the metadata's type tag is
    creator_subscription, and customer_subscriptions in every other case,
    the tag being absent included. *)
Theorem created_updates_one_table (secret : option string) (req : Webhooks.request)
    (w : world) (sub : subscription) (s1 s2 : Z) :
  Webhooks.method req = "POST" ->
  on_constructEvent (Webhooks.body req) (Webhooks.stripe_signature req) secret
    = Js.Normal (customer_subscription_created sub) ->
  valid_seconds (current_period_start sub) s1 ->
  valid_seconds (current_period_end sub) s2 ->
  Webhooks.handler secret req w
  = (Js.Normal received,
     updated w
       (if bool_decide (type_tag sub = Some "creator_subscription")
        then "creator_subscriptions" else "customer_subscriptions")
       (Webhooks.period_patch (subscription_status sub)
          (toISOString (s1 * 1000)) (toISOString (s2 * 1000)))
       [("stripe_subscription_id", subscription_id sub)]).
Proof.
  intros Hm Hev H1 H2.
  unfold Webhooks.handler. rewrite Hm, Hev. simpl.
  unfold Eff.try_catch, Eff.bind.
  rewrite (handleSubscriptionCreated_run _ _ _ _ H1 H2). reflexivity.
Qed.

End Reconciler.

(** An update of the rows with subscription [id] in table [t] is among
    the operations [tr]. *)
Definition attempts_update (tr : list effect) (t id : string) : Prop :=
  exists patch, In (Update t patch [("stripe_subscription_id", id)]) tr.

Definition statuses (d : database) (t : string) : list (option val) :=
  List.map (fun r : row => r !! "status") (from d t).

(** C1, as stated, fails.  The event carries metadata without a type tag;
    both tables hold a row for its subscription id.  Only
    customer_subscriptions is updated: no update of creator_subscriptions
    is attempted and its row keeps the status it had. *)
Lemma created_without_tag_skips_creator :
  let e := customer_subscription_created (Scenario.sub "past_due" (Some ∅)) in
  let w' := (@Webhooks.handler Scenario.platform (Scenario.stripe e)
               (Some "whsec_1") Scenario.delivery (Scenario.start Scenario.store1)).2 in
  ~ (attempts_update (trace w') "creator_subscriptions" "sub_1"
     /\ attempts_update (trace w') "customer_subscriptions" "sub_1")
  /\ statuses (db w') "creator_subscriptions" = [Some (VStr "active")]
  /\ statuses (db w') "customer_subscriptions" = [Some (VStr "past_due")].
Proof.
  cbv zeta. split; [|split; vm_compute; reflexivity].
  intros [[patch Hin] _].
  vm_compute in Hin.
  destruct Hin as [Hin | []]. discriminate Hin.
Qed.

(** *** Status values written *)

Section WrittenStatus.
Context `{Platform} `{Stripe}.

(** The enumerated set of the data model. *)
Definition enumerated (v : val) : Prop :=
  v = VStr "active" \/ v = VStr "past_due" \/ v = VStr "canceled".

(** The status an operation writes to a subscription table, if any. *)
Definition written_status (e : effect) : option val :=
  match e with
  | Update t r _ | Upsert t r =>
      if bool_decide (t = "creator_subscriptions" \/ t = "customer_subscriptions")
      then r !! "status" else None
  | _ => None
  end.

(** The status carried by the events that write it through. *)
Definition carried_status (ev : event) : option string :=
  match ev with
  | customer_subscription_created sub | customer_subscription_updated sub =>
      Some (subscription_status sub)
  | _ => None
  end.

Definition status_allowed (ev : event) (e : effect) : Prop :=
  forall v, written_status e = Some v ->
    enumerated v \/ exists s, carried_status ev = Some s /\ v = VStr s.

Lemma status_of_mark (st now : string) :
  (<["status" := VStr st]> (<["updated_at" := VStr now]> ∅) : row) !! "status"
  = Some (VStr st).
Proof. apply lookup_insert_eq. Qed.

Lemma status_of_period (st a b : string) :
  Webhooks.period_patch st a b !! "status" = Some (VStr st).
Proof. apply lookup_insert_eq. Qed.

Lemma status_of_stamped_period (st a b now : string) :
  (<["updated_at" := VStr now]> (Webhooks.period_patch st a b) : row) !! "status"
  = Some (VStr st).
Proof. rewrite lookup_insert_ne by discriminate. apply status_of_period. Qed.

Lemma allowed_enumerated_update ev t (r : row) f (st : string) :
  r !! "status" = Some (VStr st) ->
  enumerated (VStr st) ->
  status_allowed ev (Update t r f).
Proof.
  intros Hr Hst v Hv. unfold written_status in Hv.
  case_bool_decide; try discriminate. rewrite Hr in Hv.
  injection Hv as <-. left. exact Hst.
Qed.

Lemma allowed_enumerated_upsert ev t (r : row) (st : string) :
  r !! "status" = Some (VStr st) ->
  enumerated (VStr st) ->
  status_allowed ev (Upsert t r).
Proof.
  intros Hr Hst v Hv. unfold written_status in Hv.
  case_bool_decide; try discriminate. rewrite Hr in Hv.
  injection Hv as <-. left. exact Hst.
Qed.

Lemma allowed_carried ev t (r : row) f (st : string) :
  r !! "status" = Some (VStr st) ->
  carried_status ev = Some st ->
  status_allowed ev (Update t r f).
Proof.
  intros Hr Hst v Hv. unfold written_status in Hv.
  case_bool_decide; try discriminate. rewrite Hr in Hv.
  injection Hv as <-. right. eauto.
Qed.

Lemma allowed_other_table ev t (r : row) f :
  t ≠ "creator_subscriptions" -> t ≠ "customer_subscriptions" ->
  status_allowed ev (Update t r f).
Proof.
  intros H1 H2 v Hv. unfold written_status in Hv.
  rewrite bool_decide_eq_false_2 in Hv by tauto. discriminate.
Qed.

Lemma enumerated_active : enumerated (VStr "active").
Proof. left. reflexivity. Qed.

Lemma enumerated_past_due : enumerated (VStr "past_due").
Proof. right. left. reflexivity. Qed.

Lemma enumerated_canceled : enumerated (VStr "canceled").
Proof. right. right. reflexivity. Qed.

(** Every event handler only adds operations to the trace, and each
    status it writes is allowed. *)
Lemma dispatch_writes ev (w : world) :
  exists new, trace (Webhooks.dispatch ev w).2 = (trace w ++ new)%list
              /\ Forall (status_allowed ev) new.
Proof.
  destruct ev; unfold Webhooks.dispatch.
  - unfold Webhooks.handleCheckoutCompleted. run_eff. split_cases; found_trace.
    + each_effect ltac:(eapply allowed_enumerated_upsert;
        [rewrite !prop_lookup_ne, !nullable_lookup_ne by discriminate;
         apply lookup_insert_eq
        | apply enumerated_active]).
    + each_effect ltac:(eapply allowed_enumerated_upsert;
        [rewrite !prop_lookup_ne, !nullable_lookup_ne by discriminate;
         apply lookup_insert_eq
        | apply enumerated_active]).
  - unfold Webhooks.handleSubscriptionCreated. run_eff. split_cases; found_trace;
    each_effect ltac:(eapply allowed_carried; [apply status_of_period | reflexivity]).
  - unfold Webhooks.handleSubscriptionUpdated. run_eff. split_cases; found_trace;
    each_effect ltac:(eapply allowed_carried;
                      [apply status_of_stamped_period | reflexivity]).
  - unfold Webhooks.handleSubscriptionDeleted, Webhooks.mark_both. run_eff. found_trace.
    each_effect ltac:(eapply allowed_enumerated_update;
                      [apply status_of_mark | apply enumerated_canceled]).
  - unfold Webhooks.handlePaymentFailed, Webhooks.mark_both. run_eff. found_trace.
    each_effect ltac:(eapply allowed_enumerated_update;
                      [apply status_of_mark | apply enumerated_past_due]).
  - unfold Webhooks.handlePaymentSucceeded, Webhooks.mark_both. run_eff. found_trace.
    each_effect ltac:(eapply allowed_enumerated_update;
                      [apply status_of_mark | apply enumerated_active]).
  - unfold Webhooks.handleConnectAccountUpdated. run_eff. found_trace.
    each_effect ltac:(apply allowed_other_table; discriminate).
  - run_eff. found_trace.
Qed.

(** C2, as the code has it.  Whatever the request, the handler only adds
    operations to the trace, and every status value it writes to a
    creator- or customer-subscription row is active, past_due or
    canceled, or else is the status carried by the
    customer.subscription.created or customer.subscription.updated event
    being processed, written through as it came. *)
Theorem written_status_enumerated_or_carried (secret : option string)
    (req : Webhooks.request) (w : world) :
  exists new,
    trace (Webhooks.handler secret req w).2 = (trace w ++ new)%list
    /\ forall e v, In e new -> written_status e = Some v ->
         enumerated v
         \/ exists ev s,
              on_constructEvent (Webhooks.body req) (Webhooks.stripe_signature req) secret
                = Js.Normal ev
              /\ carried_status ev = Some s /\ v = VStr s.
Proof.
  unfold Webhooks.handler.
  destruct (negb (String.eqb (Webhooks.method req) "POST")).
  { exists []. split; [symmetry; apply app_nil_r | intros e v []]. }
  destruct (on_constructEvent _ _ _) as [ev | message] eqn:Hev.
  2:{ exists []. split; [symmetry; apply app_nil_r | intros e v []]. }
  destruct (dispatch_writes ev w) as [new [Htrace Hall]].
  exists new. split.
  - unfold Eff.try_catch, Eff.bind.
    destruct (Webhooks.dispatch ev w) as [[[] | message] w']; exact Htrace.
  - intros e v Hin Hv. rewrite List.Forall_forall in Hall.
    destruct (Hall e Hin v Hv) as [Hen | [s [Hs ->]]]; [left; exact Hen |].
    right. exists ev, s. auto.
Qed.

End WrittenStatus.

(** C2, as stated, fails.  A customer.subscription.updated event whose
    subscription is in its trial period writes the status trialing, which
    is outside the enumerated set, to both tables. *)
Lemma updated_writes_trialing :
  let e := customer_subscription_updated (Scenario.sub "trialing" None) in
  let w' := (@Webhooks.handler Scenario.platform (Scenario.stripe e)
               (Some "whsec_1") Scenario.delivery (Scenario.start Scenario.store1)).2 in
  (exists op v, In op (trace w') /\ written_status op = Some v /\ ~ enumerated v)
  /\ statuses (db w') "creator_subscriptions" = [Some (VStr "trialing")]
  /\ statuses (db w') "customer_subscriptions" = [Some (VStr "trialing")].
Proof.
  cbv zeta. split; [|split; vm_compute; reflexivity].
  vm_compute. eexists. exists (VStr "trialing").
  split; [left; reflexivity |]. split; [reflexivity |].
  intros [Hv | [Hv | Hv]]; discriminate Hv.
Qed.

(** *** customer.subscription.deleted, delivered twice *)

Section Deleted.
Context `{Platform} `{Stripe}.

(** [{ status: st, updated_at: now }] *)
Definition mark_patch (st now : string) : row :=
  <["status" := VStr st]> (<["updated_at" := VStr now]> ∅).

(** What an update by subscription id does to one row. *)
Definition mark_row (st now id : string) (r : row) : row :=
  if matches (by_subscription id) r then mark_patch st now ∪ r else r.

(** Every row of the two subscription tables with subscription [id] has
    status canceled. *)
Definition canceled_everywhere (d : database) (id : string) : Prop :=
  forall t r,
    t = "creator_subscriptions" \/ t = "customer_subscriptions" ->
    In r (from d t) ->
    r !! "stripe_subscription_id" = Some (VStr id) ->
    r !! "status" = Some (VStr "canceled").

Lemma mark_both_run (st id : string) (w : world) :
  Webhooks.mark_both st id w
  = (Js.Normal tt,
     {| db := Store.update
                (Store.update (db w) "creator_subscriptions"
                   (mark_patch st (toISOString (clock (ticks w)))) (by_subscription id))
                "customer_subscriptions"
                (mark_patch st (toISOString (clock (S (ticks w))))) (by_subscription id);
        trace := (trace w
                  ++ [Update "creator_subscriptions"
                        (mark_patch st (toISOString (clock (ticks w))))
                        (by_subscription id);
                      Update "customer_subscriptions"
                        (mark_patch st (toISOString (clock (S (ticks w)))))
                        (by_subscription id)])%list;
        ticks := S (S (ticks w)) |}).
Proof.
  unfold Webhooks.mark_both. run_eff. rewrite <- app_assoc. reflexivity.
Qed.

Lemma mark_row_id (st now id : string) (r : row) :
  mark_row st now id r !! "stripe_subscription_id" = r !! "stripe_subscription_id".
Proof.
  unfold mark_row. destruct (matches _ r); [|reflexivity].
  unfold mark_patch. rewrite lookup_union_r; [reflexivity|].
  rewrite !lookup_insert_ne by discriminate. apply lookup_empty.
Qed.

Lemma mark_row_matches (st now id : string) (r : row) :
  matches (by_subscription id) (mark_row st now id r) = matches (by_subscription id) r.
Proof.
  apply eq_true_iff_eq. unfold by_subscription.
  rewrite !matches_one, mark_row_id. reflexivity.
Qed.

Lemma mark_row_status (st now id : string) (r : row) :
  mark_row st now id r !! "stripe_subscription_id" = Some (VStr id) ->
  mark_row st now id r !! "status" = Some (VStr st).
Proof.
  intros Hid. rewrite mark_row_id in Hid.
  apply (matches_one "stripe_subscription_id") in Hid.
  unfold mark_row, by_subscription. rewrite Hid.
  apply lookup_union_Some_l. apply lookup_insert_eq.
Qed.

Lemma mark_row_again (st now now' id : string) (r : row) :
  mark_row st now' id (mark_row st now id r) !! "status"
  = mark_row st now id r !! "status".
Proof.
  unfold mark_row at 1. rewrite mark_row_matches.
  destruct (matches (by_subscription id) r) eqn:Hm; [|reflexivity].
  unfold mark_row. rewrite Hm.
  rewrite (lookup_union_Some_l (mark_patch st now') _ _ (VStr st))
    by apply lookup_insert_eq.
  rewrite (lookup_union_Some_l (mark_patch st now) _ _ (VStr st))
    by apply lookup_insert_eq.
  reflexivity.
Qed.

Lemma from_mark_both (st id : string) (w : world) (t : string) :
  exists now,
    from (db (Webhooks.mark_both st id w).2) t
    = if bool_decide (t = "creator_subscriptions" \/ t = "customer_subscriptions")
      then List.map (mark_row st now id) (from (db w) t)
      else from (db w) t.
Proof.
  rewrite mark_both_run. cbn [snd db]. unfold mark_row.
  destruct (decide (t = "customer_subscriptions")) as [-> | Hcustomer].
  - exists (toISOString (clock (S (ticks w)))).
    rewrite bool_decide_eq_true_2 by (right; reflexivity).
    rewrite from_update_same, from_update_other by discriminate. reflexivity.
  - rewrite from_update_other by (intros Heq; apply Hcustomer; symmetry; exact Heq).
    destruct (decide (t = "creator_subscriptions")) as [-> | Hcreator].
    + exists (toISOString (clock (ticks w))).
      rewrite bool_decide_eq_true_2 by (left; reflexivity).
      rewrite from_update_same. reflexivity.
    + exists "". rewrite bool_decide_eq_false_2 by (intros [Heq | Heq]; contradiction).
      apply from_update_other. intros Heq; apply Hcreator; symmetry; exact Heq.
Qed.

Lemma deleted_run (secret : option string) (req : Webhooks.request) (w : world)
    (sub : subscription) :
  Webhooks.method req = "POST" ->
  on_constructEvent (Webhooks.body req) (Webhooks.stripe_signature req) secret
    = Js.Normal (customer_subscription_deleted sub) ->
  Webhooks.handler secret req w
  = (Js.Normal received, (Webhooks.mark_both "canceled" (subscription_id sub) w).2).
Proof.
  intros Hm Hev. unfold Webhooks.handler. rewrite Hm, Hev.
  change (String.eqb "POST" "POST") with true. cbn [negb].
  unfold Webhooks.dispatch, Webhooks.handleSubscriptionDeleted, Eff.try_catch, Eff.bind.
  rewrite mark_both_run. reflexivity.
Qed.

Lemma mark_both_cancels (id : string) (w : world) :
  canceled_everywhere (db (Webhooks.mark_both "canceled" id w).2) id.
Proof.
  intros t r Ht Hin Hid.
  destruct (from_mark_both "canceled" id w t) as [now Hfrom].
  rewrite Hfrom, bool_decide_eq_true_2 in Hin by exact Ht.
  apply in_map_iff in Hin as [r0 [<- _]].
  apply mark_row_status. exact Hid.
Qed.

Lemma mark_both_again (st id : string) (w : world) (t : string) :
  statuses (db (Webhooks.mark_both st id (Webhooks.mark_both st id w).2).2) t
  = statuses (db (Webhooks.mark_both st id w).2) t.
Proof.
  unfold statuses.
  destruct (from_mark_both st id (Webhooks.mark_both st id w).2 t) as [now' ->].
  destruct (bool_decide (t = "creator_subscriptions" \/ t = "customer_subscriptions"))
    eqn:Ht; [|reflexivity].
  destruct (from_mark_both st id w t) as [now ->]. rewrite Ht.
  rewrite !List.map_map. apply List.map_ext. intros r. apply mark_row_again.
Qed.

(** The rows [after] are the rows [before], one for one and in their
    order: a row with subscription [id] has kept its columns and has the
    status canceled and a time stamp [updated_at]; every other row is as
    it was.  No row is added and none is removed. *)
Definition marked_canceled (id : string) (before after : table) : Prop :=
  exists now, after = List.map (mark_row "canceled" now id) before.

(** What [marked_canceled] says of the rows, one by one. *)
Lemma marked_canceled_rows (id : string) (before after : table) :
  marked_canceled id before after ->
  length after = length before
  /\ (forall r, In r before ->
        r !! "stripe_subscription_id" = Some (VStr id) ->
        exists r', In r' after
                   /\ r' !! "stripe_subscription_id" = Some (VStr id)
                   /\ r' !! "status" = Some (VStr "canceled")
                   /\ forall k, k ≠ "status" -> k ≠ "updated_at" -> r' !! k = r !! k)
  /\ (forall r, In r before ->
        r !! "stripe_subscription_id" ≠ Some (VStr id) -> In r after).
Proof.
  intros [now ->]. split; [apply List.length_map |]. split.
  - intros r Hin Hid. exists (mark_row "canceled" now id r).
    split; [apply in_map; exact Hin |].
    split; [rewrite mark_row_id; exact Hid |].
    split; [apply mark_row_status; rewrite mark_row_id; exact Hid |].
    intros k Hstatus Hstamp. unfold mark_row.
    destruct (matches (by_subscription id) r); [| reflexivity].
    apply lookup_union_r. unfold mark_patch.
    rewrite !lookup_insert_ne by congruence. apply lookup_empty.
  - intros r Hin Hid. apply in_map_iff. exists r. split; [| exact Hin].
    unfold mark_row, by_subscription.
    destruct (matches [("stripe_subscription_id", id)] r) eqn:Hmatch; [| reflexivity].
    apply matches_one in Hmatch. contradiction.
Qed.

Lemma mark_both_marks (id : string) (w : world) (t : string) :
  t = "creator_subscriptions" \/ t = "customer_subscriptions" ->
  marked_canceled id (from (db w) t) (from (db (Webhooks.mark_both "canceled" id w).2) t).
Proof.
  intros Ht. destruct (from_mark_both "canceled" id w t) as [now Hfrom].
  exists now. rewrite Hfrom, bool_decide_eq_true_2 by exact Ht. reflexivity.
Qed.

Lemma mark_both_elsewhere (st id : string) (w : world) (t : string) :
  ~ (t = "creator_subscriptions" \/ t = "customer_subscriptions") ->
  from (db (Webhooks.mark_both st id w).2) t = from (db w) t.
Proof.
  intros Ht. destruct (from_mark_both st id w t) as [now Hfrom].
  rewrite Hfrom, bool_decide_eq_false_2 by exact Ht. reflexivity.
Qed.

(** C8.  Delivering the same customer.subscription.deleted event twice:
    each delivery is answered 200 {received: true}.  After the first,
    each subscription table is the table before it with the rows of the
    event's subscription id marked canceled, row for row: no row is
    lost, added or otherwise changed, and every other table is as it
    was.  The second delivery does the same to the tables the first
    left, so that after each delivery every row with the subscription
    id has status canceled, and the second changes no status of any
    row. *)
Theorem deleted_twice_idempotent (secret : option string) (req : Webhooks.request)
    (w : world) (sub : subscription) :
  Webhooks.method req = "POST" ->
  on_constructEvent (Webhooks.body req) (Webhooks.stripe_signature req) secret
    = Js.Normal (customer_subscription_deleted sub) ->
  let first := Webhooks.handler secret req w in
  let second := Webhooks.handler secret req first.2 in
  first.1 = Js.Normal received
  /\ canceled_everywhere (db first.2) (subscription_id sub)
  /\ second.1 = Js.Normal received
  /\ canceled_everywhere (db second.2) (subscription_id sub)
  /\ (forall t, statuses (db second.2) t = statuses (db first.2) t)
  /\ (forall t, t = "creator_subscriptions" \/ t = "customer_subscriptions" ->
        marked_canceled (subscription_id sub) (from (db w) t) (from (db first.2) t)
        /\ marked_canceled (subscription_id sub)
             (from (db first.2) t) (from (db second.2) t))
  /\ (forall t, ~ (t = "creator_subscriptions" \/ t = "customer_subscriptions") ->
        from (db first.2) t = from (db w) t
        /\ from (db second.2) t = from (db w) t).
Proof.
  intros Hm Hev. cbv zeta.
  assert (Hsnd : forall w0, (Webhooks.handler secret req w0).2
                 = (Webhooks.mark_both "canceled" (subscription_id sub) w0).2)
    by (intros w0; rewrite (deleted_run secret req w0 sub Hm Hev); reflexivity).
  assert (Hfst : forall w0, (Webhooks.handler secret req w0).1 = Js.Normal received)
    by (intros w0; rewrite (deleted_run secret req w0 sub Hm Hev); reflexivity).
  rewrite !Hfst, !Hsnd.
  split; [reflexivity |].
  split; [apply mark_both_cancels |].
  split; [reflexivity |].
  split; [apply mark_both_cancels |].
  split; [apply mark_both_again |].
  split.
  - intros t Ht. split; apply mark_both_marks; exact Ht.
  - intros t Ht. split; [apply mark_both_elsewhere; exact Ht |].
    rewrite !mark_both_elsewhere by exact Ht. reflexivity.
Qed.

End Deleted.

(** ** Rounding *)

(** [r] is the integer nearest to the double [x], the upper one when [x]
    lies half-way between two integers: r <= x + 1/2 < r + 1 on the
    exact value of [x]. *)
Definition rounds_half_up (x : Js.number) (r : Z) : Prop :=
  match x with
  | S754_zero _ => r = 0
  | S754_finite s m e =>
      2 * r * Js.denominator e <= 2 * Js.numerator s m e + Js.denominator e
      /\ 2 * Js.numerator s m e + Js.denominator e < 2 * (r + 1) * Js.denominator e
  | _ => False
  end.

Lemma denominator_pos e : 0 < Js.denominator e.
Proof. unfold Js.denominator. apply Z.pow_pos_nonneg; lia. Qed.

Lemma Math_round_half_up (x : Js.number) (r : Z) :
  Js.Math_round x = Some r -> rounds_half_up x r.
Proof.
  destruct x as [s | s | | s m e]; simpl; try discriminate.
  - intros [= <-]. reflexivity.
  - intros [= <-]. pose proof (denominator_pos e) as Hd.
    set (a := 2 * Js.numerator s m e + Js.denominator e).
    set (d := Js.denominator e) in *.
    pose proof (Z.div_mod a (2 * d) ltac:(lia)) as Hdiv.
    pose proof (Z.mod_pos_bound a (2 * d) ltac:(lia)) as Hmod.
    split; nia.
Qed.

Lemma rounds_half_up_unique (x : Js.number) (r r' : Z) :
  rounds_half_up x r -> rounds_half_up x r' -> r = r'.
Proof.
  destruct x as [s | s | | s m e]; simpl; try tauto; [lia|].
  pose proof (denominator_pos e) as Hd. intros [H1 H2] [H3 H4]. nia.
Qed.

(** The amounts of the specification's example, 29.99. *)
Lemma amounts_2999 :
  StripeConfig.unitAmount (Js.decimal 2999 2) = Some 2999
  /\ StripeConfig.applicationFeeAmount (Js.decimal 2999 2) = Some 900.
Proof. split; vm_compute; reflexivity. Qed.

(** ** The subscription action dispatcher *)

Ltac in_trace :=
  repeat first [ apply in_or_app; right; left; reflexivity | apply in_or_app; left ].

Ltac ask_gateway :=
  repeat match goal with
  | |- context [on_customers_create ?a ?b ?c] =>
      destruct (on_customers_create a b c) eqn:?; run_eff
  | |- context [on_checkout_sessions_create ?a ?b] =>
      destruct (on_checkout_sessions_create a b) eqn:?; run_eff
  end.

Ltac post_action :=
  change (String.eqb "POST" "OPTIONS") with false;
  change (String.eqb "POST" "POST") with true;
  cbn [negb].

Section Dispatcher.
Context `{Platform} `{Stripe}.

Definition conflict : response :=
  StripeConfig.bad_request "Already has active creator subscription".

(** The filter of the duplicate check of create_creator_subscription. *)
Definition active_of (user : string) : filter :=
  [("user_id", user); ("status", "active")].

Lemma select_nil (d : database) (t : string) (f : filter) :
  (forall r, In r (from d t) -> matches f r = false) -> select d t f = [].
Proof.
  unfold select. induction (from d t) as [|r rows IH]; intros Hall; [reflexivity|].
  simpl. rewrite (Hall r) by (left; reflexivity).
  apply IH. intros r' Hr'. apply Hall. right. exact Hr'.
Qed.

(** With exactly one active row of the user, the request is refused
    with the conflict message after the one store query: no gateway call
    is made. *)
Lemma single_active_row_conflict (req : StripeConfig.request) (w : world) (r : row) :
  StripeConfig.method req = "POST" ->
  StripeConfig.action req = "create_creator_subscription" ->
  select (db w) "creator_subscriptions"
    (active_of (StripeConfig.userId (StripeConfig.data_ req))) = [r] ->
  StripeConfig.handler req w
  = (Js.Normal conflict,
     {| db := db w;
        trace := (trace w ++ [Select "creator_subscriptions"
                    (active_of (StripeConfig.userId (StripeConfig.data_ req)))])%list;
        ticks := ticks w |}).
Proof.
  intros Hm Ha Hrows. unfold StripeConfig.handler. rewrite Hm, Ha. post_action.
  change (String.eqb "create_creator_subscription" "create_creator_subscription")
    with true.
  unfold StripeConfig.createCreatorSubscription. run_eff.
  unfold active_of in Hrows. rewrite Hrows. reflexivity.
Qed.

(** A boolean check that no row of the user is active. *)
Definition none_active (d : database) (user : string) : bool :=
  forallb (fun r : row =>
             negb (bool_decide (r !! "user_id" = Some (VStr user))
                   && bool_decide (r !! "status" = Some (VStr "active"))))
          (from d "creator_subscriptions").

Lemma none_active_spec (d : database) (user : string) :
  none_active d user = true ->
  forall r, In r (from d "creator_subscriptions") ->
    r !! "user_id" = Some (VStr user) -> r !! "status" ≠ Some (VStr "active").
Proof.
  unfold none_active. rewrite forallb_forall. intros Hall r Hr Hu Hs.
  specialize (Hall r Hr).
  rewrite !bool_decide_eq_true_2 in Hall by assumption. discriminate Hall.
Qed.

(** The customer the session is created for: the first one the gateway
    lists for the email, else a new one. *)
Definition resolved_customer (d : StripeConfig.payload) : Js.completion string :=
  match on_customers_list (StripeConfig.email d) with
  | Js.Normal (c :: _) => Js.Normal c
  | Js.Normal [] =>
      on_customers_create (StripeConfig.email d)
        (<["userId" := StripeConfig.userId d]> (<["type" := "creator"]> ∅)) None
  | Js.Throw message => Js.Throw message
  end.

(** C10.  When every creator-subscription row of the user has a status
    other than active, the request is not answered with the conflict
    error: the handler goes on to look the customer up at the gateway,
    and, once the gateway has given the customer, asks it for a checkout
    session of 1900 minor units for that customer. *)
Theorem inactive_rows_do_not_block (req : StripeConfig.request) (w : world) :
  StripeConfig.method req = "POST" ->
  StripeConfig.action req = "create_creator_subscription" ->
  (forall r, In r (from (db w) "creator_subscriptions") ->
     r !! "user_id" = Some (VStr (StripeConfig.userId (StripeConfig.data_ req))) ->
     r !! "status" ≠ Some (VStr "active")) ->
  let out := StripeConfig.handler req w in
  out.1 ≠ Js.Normal conflict
  /\ In (Call (customers_list (StripeConfig.email (StripeConfig.data_ req)))) (trace out.2)
  /\ forall c, resolved_customer (StripeConfig.data_ req) = Js.Normal c ->
       exists p, In (Call (checkout_sessions_create p None)) (trace out.2)
                 /\ customer p = c /\ unit_amount p = Some 1900.
Proof.
  intros Hm Ha Hrows. cbv zeta.
  assert (Hsel : select (db w) "creator_subscriptions"
            [("user_id", StripeConfig.userId (StripeConfig.data_ req));
             ("status", "active")] = []).
  { apply select_nil. intros r Hr. unfold matches. cbn [forallb fst snd].
    destruct (bool_decide (r !! "user_id" = Some _)) eqn:Hu; [|reflexivity].
    apply bool_decide_eq_true in Hu. rewrite bool_decide_eq_false_2; [reflexivity|].
    apply Hrows; assumption. }
  unfold StripeConfig.handler. rewrite Hm, Ha. post_action.
  change (String.eqb "create_creator_subscription" "create_creator_subscription")
    with true.
  unfold StripeConfig.createCreatorSubscription, resolved_customer. run_eff.
  rewrite Hsel. cbn [single data].
  destruct (on_customers_list _) as [[|c0 cs]|m] eqn:Hlist; run_eff;
    ask_gateway;
    (split; [discriminate | split; [in_trace |]]);
    intros c Hc; first [discriminate Hc | injection Hc as <-];
    (eexists; split; [in_trace | split; reflexivity]).
Qed.

End Dispatcher.

(** C6 at a store with two active rows for the user.  [.single()] gives
    no row when two rows match, the check sees no active subscription,
    and the handler goes to the gateway: it lists and creates the
    customer, creates a checkout session, and answers 200 with the
    session. *)
Lemma two_active_rows_pass_check :
  let req := Scenario.post "create_creator_subscription" (Js.decimal 2999 2) in
  let out := @StripeConfig.handler Scenario.platform Scenario.gateway req
               (Scenario.start Scenario.store2) in
  List.map (fun r : row => (r !! "user_id", r !! "status"))
    (from Scenario.store2 "creator_subscriptions")
  = [(Some (VStr "u1"), Some (VStr "active")); (Some (VStr "u1"), Some (VStr "active"))]
  /\ out.1 = Js.Normal (StripeConfig.ok
               [("sessionId", VStr "cs_1"); ("customerId", VStr "cus_1");
                ("url", VStr "https://checkout.stripe.com/c/pay/cs_1")])
  /\ (exists p, In (Call (checkout_sessions_create p None)) (trace out.2)
                /\ unit_amount p = Some 1900)
  /\ length (List.filter is_call (trace out.2)) = 3%nat.
Proof.
  cbv zeta. split; [vm_compute; reflexivity |].
  split; [vm_compute; reflexivity |].
  split; [| vm_compute; reflexivity].
  vm_compute. eexists. split; [right; right; right; left; reflexivity | reflexivity].
Qed.

(** *** create_customer_subscription *)

Section CustomerSubscription.
Context `{Platform} `{Stripe}.

(** The fee datum a gateway call carries: the fee percentage of a
    checkout session's subscription data. *)
Definition fee_sent (c : call) : option Z :=
  match c with
  | checkout_sessions_create p _ =>
      match subscription_data_ p with
      | Some sd => Some (application_fee_percent sd)
      | None => None
      end
  | _ => None
  end.

(** The metadata [{ userId, gptId, creatorId }] of the request. *)
Definition ids (d : StripeConfig.payload) : metadata :=
  <["userId" := StripeConfig.userId d]>
  (<["gptId" := StripeConfig.gptId d]>
  (<["creatorId" := StripeConfig.creatorId d]> ∅)).

(** C3, as the code has it.  For a request that passes the checks
    (the creator's connect account has finished onboarding, the customer
    has no single active subscription to the listing, the listing is
    found) and whose customer the gateway creates, the gateway calls are
    the creation of the customer and of one checkout session.  The
    session carries the unit amount Math.round(monthlyPrice * 100) and the
    fee percentage 30; the fee amount Math.round(monthlyPrice * 100 * 0.30)
    is computed and sent nowhere.  Both roundings are to the nearest
    integer of the binary64 product, half-way cases upward; for 29.99 the
    unit amount is 2999 and the computed fee 900. *)
Theorem customer_subscription_amounts (req : StripeConfig.request) (w : world)
    (account gpt : row) (cus : string) (details : option string * option string) :
  let d := StripeConfig.data_ req in
  let price := StripeConfig.monthlyPrice d in
  StripeConfig.method req = "POST" ->
  StripeConfig.action req = "create_customer_subscription" ->
  select (db w) "creator_connect_accounts" [("user_id", StripeConfig.creatorId d)]
    = [account] ->
  truthy (account !! "onboarding_complete") = true ->
  data (single (select (db w) "customer_subscriptions"
          [("customer_id", StripeConfig.userId d); ("gpt_id", StripeConfig.gptId d);
           ("status", "active")])) = None ->
  select (db w) "user_gpts" [("id", StripeConfig.gptId d)] = [gpt] ->
  on_customers_create (StripeConfig.email d) (ids d)
    (text_of (account !! "stripe_account_id")) = Js.Normal cus ->
  StripeConfig.gpt_details (Some gpt) = Js.Normal details ->
  (exists p,
     List.filter is_call (trace (StripeConfig.handler req w).2)
     = (List.filter is_call (trace w)
        ++ [Call (customers_create (StripeConfig.email d) (ids d)
                    (text_of (account !! "stripe_account_id")));
            Call (checkout_sessions_create p
                    (text_of (account !! "stripe_account_id")))])%list
     /\ unit_amount p = Js.Math_round (Js.times price StripeConfig.hundred)
     /\ fee_sent (checkout_sessions_create p (text_of (account !! "stripe_account_id")))
        = Some 30)
  /\ (forall r, StripeConfig.unitAmount price = Some r ->
        rounds_half_up (Js.times price StripeConfig.hundred) r)
  /\ (forall r, StripeConfig.applicationFeeAmount price = Some r ->
        rounds_half_up
          (Js.times (Js.times price StripeConfig.hundred) StripeConfig.thirty_percent) r)
  /\ (StripeConfig.unitAmount (Js.decimal 2999 2) = Some 2999
      /\ StripeConfig.applicationFeeAmount (Js.decimal 2999 2) = Some 900).
Proof.
  intros d price Hm Ha Haccount Honboarded Hexisting Hgpt Hcus Hdetails.
  split; [| split; [| split]];
    [| intros r Hr; apply Math_round_half_up; exact Hr
     | intros r Hr; apply Math_round_half_up; exact Hr
     | exact amounts_2999].
  subst d price.
  unfold StripeConfig.handler. rewrite Hm, Ha. post_action.
  change (String.eqb "create_customer_subscription" "create_creator_subscription")
    with false.
  change (String.eqb "create_customer_subscription" "create_connect_account")
    with false.
  change (String.eqb "create_customer_subscription" "create_customer_subscription")
    with true.
  cbv iota. unfold StripeConfig.createCustomerSubscription. run_eff.
  rewrite Haccount.
  change (single [account]) with {| data := Some account; error := false |}.
  cbn [data error]. rewrite Honboarded. cbn [negb orb]. run_eff.
  rewrite Hexisting. run_eff. rewrite Hgpt.
  change (single [gpt]) with {| data := Some gpt; error := false |}.
  cbn [data error]. run_eff.
  fold (ids (StripeConfig.data_ req)). rewrite Hcus, Hdetails. run_eff.
  eexists. split.
  - destruct (on_checkout_sessions_create _ _); run_eff;
      rewrite !List.filter_app; cbn [List.filter is_call];
      rewrite !app_nil_r, <- app_assoc; reflexivity.
  - split; reflexivity.
Qed.

End CustomerSubscription.

(** C3, as stated, fails at monthlyPrice = 1.15.  The request passes
    every check and a checkout session is created.  The fee the handler
    computes is 34, not the 35 that 1.15 * 100 * 0.30 = 34.5 rounds up
    to, because the binary64 product is just below 34.5; and no gateway
    call carries it: the only fee datum sent is the percentage 30. *)
Lemma fee_amount_not_sent :
  let price := Js.decimal 115 2 in
  let req := Scenario.post "create_customer_subscription" price in
  let out := @StripeConfig.handler Scenario.platform Scenario.gateway req
               (Scenario.start Scenario.store2) in
  StripeConfig.applicationFeeAmount price = Some 34
  /\ (115 * 30 + 50) / 100 = 35
  /\ List.map fee_sent
       (List.flat_map (fun e => match e with Call c => [c] | _ => [] end) (trace out.2))
     = [None; Some 30]
  /\ ~ (exists c, In (Call c) (trace out.2)
                  /\ fee_sent c = StripeConfig.applicationFeeAmount price).
Proof.
  cbv zeta. split; [vm_compute; reflexivity |].
  split; [reflexivity |].
  split; [vm_compute; reflexivity |].
  intros [c [Hin Hfee]]. vm_compute in Hin. vm_compute in Hfee.
  destruct Hin as [Hin | [Hin | [Hin | [Hin | [Hin | []]]]]];
    try discriminate Hin; injection Hin as <-; vm_compute in Hfee; discriminate Hfee.
Qed.

(** ** The completion proxy *)

(** Case analysis on an innermost scrutinee of the goal. *)
Ltac destruct_inner :=
  match goal with
  | |- context [match ?x with _ => _ end] =>
      lazymatch x with
      | context [match _ with _ => _ end] => fail
      | _ => destruct x
      end
  end.

(** A request whose messages are an array has a body. *)
Ltac with_body req Hmsgs :=
  let Hbody := fresh "Hbody" in
  destruct (Chat.body_ req) eqn:Hbody;
  [ exfalso; unfold Chat.messages_ in Hmsgs; rewrite Hbody in Hmsgs;
    discriminate Hmsgs | ].

Section Proxy.
Context `{Platform} `{Api}.

(** The messages field is missing (or otherwise falsy), is not an array,
    or is an empty array. *)
Definition rejected (messages : Js.value) : Prop :=
  Js.truthy messages = false \/ Js.isArray messages = false
  \/ Js.elements messages = [].

Definition messages_required : response :=
  {| Http.status := 400;
     sent := json [("error", VStr "Messages array is required and cannot be empty")] |}.

Definition legacy_messages_required : response :=
  {| Http.status := 400; sent := json [("error", VStr "Messages array is required")] |}.

Lemma rejected_guard (messages : Js.value) :
  rejected messages ->
  negb (Js.truthy messages) || negb (Js.isArray messages)
  || (length (Js.elements messages) =? 0)%nat = true.
Proof.
  intros [Ht | [Ha | He]].
  - rewrite Ht. reflexivity.
  - rewrite Ha. apply orb_true_iff. left. apply orb_true_r.
  - rewrite He. apply orb_true_r.
Qed.

(** The answers of the guards and of the catch blocks. *)
Definition not_configured : response :=
  {| Http.status := 500;
     sent := json [("error", VStr "Server configuration error");
                   ("details", VStr "API key not configured")] |}.

Definition failed (details timestamp : string) : response :=
  {| Http.status := 500;
     sent := json [("error", VStr "Failed to process chat request");
                   ("details", VStr details);
                   ("timestamp", VStr timestamp)] |}.

Definition legacy_failed (details : string) : response :=
  {| Http.status := 500;
     sent := json [("error", VStr "Failed to process request");
                   ("details", VStr details)] |}.

(** The time stamp of the answer of the catch block: the clock is read
    once for the log and once more for the answer. *)
Definition answered_at (w : world) : string :=
  toISOString (clock (S (ticks w))).

(** [process.env.OPENROUTER_API_KEY] is set and not empty. *)
Definition configured (apiKey : option string) : bool :=
  match apiKey with Some key => Js.truthy_string key | None => false end.

(** The request has a body to destructure. *)
Definition has_body (req : Chat.request) : bool :=
  match Chat.body_ req with Chat.object _ _ _ _ => true | Chat.absent _ => false end.

(** C4, as the code has it.  Take a POST whose messages field is missing
    (or otherwise falsy, which includes a request without a body), is
    not an array, or is an empty array.  [api/chat.js] makes no call to
    the completion API, and
    - without a configured API key it answers 500 with the configuration
      error and leaves the world as it was, whatever the body;
    - with a configured key and a body it answers 400 and leaves the world
      as it was;
    - with a configured key and no body (undefined or null) it answers
      500 'Failed to process chat request', the details being the
      TypeError of the destructuring; it reads the clock and nothing
      else.
    The earlier copy of the handler, when messages is missing or not an
    array, answers 400 for a request with a body and 500 'Failed to
    process request' for one without, in both cases without a call. *)
Theorem invalid_messages_rejected (apiKey : option string) (req : Chat.request)
    (w : world) :
  Chat.method req = "POST" ->
  rejected (Chat.messages_ req) ->
  (configured apiKey = false ->
   Chat.handler apiKey req w = (Js.Normal not_configured, w))
  /\ (configured apiKey = true -> has_body req = true ->
      Chat.handler apiKey req w = (Js.Normal messages_required, w))
  /\ (configured apiKey = true ->
      forall null, Chat.body_ req = Chat.absent null ->
      Chat.handler apiKey req w
      = (Js.Normal (failed (Chat.not_destructurable null) (answered_at w)),
         {| db := db w; trace := trace w; ticks := S (S (ticks w)) |}))
  /\ (Js.truthy (Chat.messages_ req) = false \/ Js.isArray (Chat.messages_ req) = false ->
      ChatLegacy.handler req w
      = (Js.Normal match Chat.body_ req with
                   | Chat.object _ _ _ _ => legacy_messages_required
                   | Chat.absent null => legacy_failed (Chat.not_destructurable null)
                   end, w)).
Proof.
  intros Hm Hrej. pose proof (rejected_guard _ Hrej) as Hguard.
  unfold Chat.handler, ChatLegacy.handler. rewrite Hm. post_action.
  split; [| split; [| split]].
  - intros Hkey. destruct apiKey as [key |]; [| reflexivity].
    cbn [configured] in Hkey. rewrite Hkey. reflexivity.
  - intros Hkey Hbody. destruct apiKey as [key |]; [| discriminate Hkey].
    cbn [configured] in Hkey. rewrite Hkey. cbn [negb].
    unfold has_body in Hbody.
    destruct (Chat.body_ req); [discriminate Hbody |].
    rewrite Hguard. reflexivity.
  - intros Hkey null Hbody. destruct apiKey as [key |]; [| discriminate Hkey].
    cbn [configured] in Hkey. rewrite Hkey, Hbody. reflexivity.
  - intros Hfalsy. destruct (Chat.body_ req); [reflexivity |].
    destruct Hfalsy as [Ht | Ha]; [rewrite Ht | rewrite Ha, orb_true_r]; reflexivity.
Qed.

(** Every code point of the string is white space. *)
Definition blank (s : string) : bool := forallb Js.is_space (Js.code_points s).

Lemma code_points_empty (s : string) : Js.code_points s = [] <-> s = "".
Proof.
  split; [| intros ->; reflexivity].
  destruct s as [| a s1]; [reflexivity |]. cbn [Js.code_points].
  repeat match goal with
         | |- context [match ?x with _ => _ end] =>
             lazymatch x with
             | context [match _ with _ => _ end] => fail
             | _ => destruct x
             end
         end; discriminate.
Qed.

Lemma utf8_not_empty (n : N) : Js.utf8 n <> "".
Proof.
  unfold Js.utf8, Js.byte.
  repeat match goal with |- context [if ?b then _ else _] => destruct b end;
    discriminate.
Qed.

Lemma of_code_points_empty (l : list N) : Js.of_code_points l = "" <-> l = [].
Proof.
  split; [| intros ->; reflexivity].
  destruct l as [| n l]; [reflexivity |]. cbn [Js.of_code_points].
  pose proof (utf8_not_empty n) as Hn.
  destruct (Js.utf8 n); [contradiction | discriminate].
Qed.

Lemma trimStart_empty (l : list N) : Js.trimStart l = [] <-> forallb Js.is_space l = true.
Proof.
  induction l as [| n l IH]; cbn [Js.trimStart forallb]; [tauto |].
  destruct (Js.is_space n); cbn [andb]; [exact IH | split; discriminate].
Qed.

Lemma spaces_trimStart (l : list N) :
  forallb Js.is_space (Js.trimStart l) = forallb Js.is_space l.
Proof.
  induction l as [| n l IH]; [reflexivity |]. cbn [Js.trimStart].
  destruct (Js.is_space n) eqn:Hn; [cbn [forallb]; rewrite Hn; exact IH | reflexivity].
Qed.

Lemma spaces_rev (l : list N) : forallb Js.is_space (rev l) = forallb Js.is_space l.
Proof.
  induction l as [| n l IH]; [reflexivity |]. cbn [rev forallb].
  rewrite forallb_app, IH. cbn [forallb]. rewrite andb_true_r. apply andb_comm.
Qed.

Lemma truthy_empty (s : string) : Js.truthy_string s = false <-> s = "".
Proof. destruct s; simpl; split; congruence. Qed.

(** The condition [context && context.trim()] holds exactly of the
    strings that are not blank. *)
Lemma trim_truthy (c : string) :
  Js.truthy_string c && Js.truthy_string (Js.trim c) = negb (blank c).
Proof.
  assert (Htrim : Js.truthy_string (Js.trim c) = negb (blank c)).
  { unfold blank. destruct (Js.truthy_string (Js.trim c)) eqn:Ht.
    - destruct (forallb Js.is_space (Js.code_points c)) eqn:Hb; [| reflexivity].
      exfalso. apply trimStart_empty in Hb. unfold Js.trim in Ht. rewrite Hb in Ht.
      discriminate Ht.
    - apply truthy_empty, of_code_points_empty in Ht.
      assert (Hr : forallb Js.is_space
                     (rev (Js.trimStart (rev (Js.trimStart (Js.code_points c))))) = true)
        by (rewrite Ht; reflexivity).
      rewrite spaces_rev, spaces_trimStart, spaces_rev, spaces_trimStart in Hr.
      rewrite Hr. reflexivity. }
  rewrite Htrim. destruct (Js.truthy_string c) eqn:Hc; [reflexivity |].
  apply truthy_empty in Hc. subst c. reflexivity.
Qed.

(** An em space and an ideographic space are blank, and so is a context
    made of them: [api/chat.js] leaves it out of the system turn. *)
Lemma wide_spaces_blank :
  let em_space := String "226" (String "128" (String "131" "")) in
  let ideographic_space := String "227" (String "128" (String "128" "")) in
  Js.code_points (em_space ++ ideographic_space) = [8195%N; 12288%N]
  /\ blank (em_space ++ ideographic_space) = true
  /\ Chat.systemContent None (Some (em_space ++ ideographic_space))
     = "You are a helpful AI assistant.".
Proof. cbv zeta. repeat split; vm_compute; reflexivity. Qed.

(** The system content as the specification words it. *)
Definition system_content (default : string) (instructions context : option string)
    : string :=
  Chat.or_else instructions default
  ++ match context with
     | Some c => if blank c then "" else Chat.documents_header ++ c
     | None => ""
     end.

Lemma append_empty (s : string) : s ++ "" = s.
Proof.
  induction s as [|c s IH]; [reflexivity|].
  change (String c s ++ "") with (String c (s ++ "")). rewrite IH. reflexivity.
Qed.

Lemma systemContent_words (instructions context : option string) :
  Chat.systemContent instructions context
  = system_content "You are a helpful AI assistant." instructions context.
Proof.
  unfold Chat.systemContent, system_content.
  destruct context as [c|]; [| symmetry; apply append_empty].
  rewrite trim_truthy. destruct (blank c); simpl;
    [symmetry; apply append_empty | reflexivity].
Qed.

(** In [api/chat.js], a POST with a configured key and a non-empty
    array of messages makes exactly one call to the completion API; its
    messages are the system turn, whose content is the instructions (the
    default prompt when there are none) followed, when the context is
    not blank, by the header and the context, and then the caller's
    messages in their order. *)
Theorem system_turn_first (key : string) (req : Chat.request) (w : world)
    (m : Js.value) (ms : list Js.value) :
  Chat.method req = "POST" ->
  Js.truthy_string key = true ->
  Chat.messages_ req = Js.JArr (m :: ms) ->
  trace (Chat.handler (Some key) req w).2
    = (trace w ++ [Fetch (Chat.outgoing key req)])%list
  /\ messages (Chat.outgoing key req)
     = Chat.system_turn
         (system_content "You are a helpful AI assistant."
            (Chat.instructions req) (Chat.context req))
       :: m :: ms.
Proof.
  intros Hm Hkey Hmsgs. split.
  - unfold Chat.handler. rewrite Hm. post_action. with_body req Hmsgs.
    rewrite Hkey, Hmsgs.
    cbn [negb Js.truthy Js.isArray Js.elements length Nat.eqb orb].
    unfold Chat.error_message, Chat.invalid_structure, Chat.respond. run_eff.
    repeat (destruct_inner; run_eff); reflexivity.
  - unfold Chat.outgoing, Chat.openRouterMessages. cbn [messages].
    rewrite Hmsgs, systemContent_words. reflexivity.
Qed.
End Proxy.

(** C4, as stated, fails.  With no API key in the environment,
    [api/chat.js] answers an empty messages array with 500 and the
    configuration error, not with 400; and the earlier copy of the handler
    accepts the empty array, calls the completion API with the system
    turn alone and answers 200. *)
Lemma empty_messages_not_400 :
  let req := Scenario.chat (Js.JArr []) None in
  let out := @Chat.handler Scenario.platform Scenario.api None req (Scenario.start ∅) in
  let legacy := @ChatLegacy.handler Scenario.platform Scenario.api req (Scenario.start ∅) in
  rejected (Chat.messages_ req)
  /\ out.1 = Js.Normal
       {| Http.status := 500;
          sent := json [("error", VStr "Server configuration error");
                        ("details", VStr "API key not configured")] |}
  /\ trace legacy.2
     = [Fetch (ChatLegacy.outgoing req)]
  /\ messages (ChatLegacy.outgoing req)
     = [Chat.system_turn "You are a helpful assistant."]
  /\ legacy.1 = Js.Normal
       {| Http.status := 200;
          sent := json_values [("success", Js.JBool true);
                               ("message", Js.JStr "Hello!");
                               ("usage", Js.JObj [])] |}.
Proof.
  cbv zeta. split; [right; right; reflexivity |].
  repeat split; vm_compute; reflexivity.
Qed.

(** C5 in the earlier copy of the handler, at a context of one space.
    The context is blank, yet the header and the context are appended to
    the system turn: the copy tests [if (context)] where [api/chat.js]
    tests [context && context.trim()]. *)
Lemma legacy_appends_blank_context :
  let req := Scenario.chat (Js.JArr [Scenario.user_turn "Hi"]) (Some " ") in
  let legacy := @ChatLegacy.handler Scenario.platform Scenario.api req (Scenario.start ∅) in
  blank " " = true
  /\ trace legacy.2 = [Fetch (ChatLegacy.outgoing req)]
  /\ messages (ChatLegacy.outgoing req)
     = [Chat.system_turn
          ("You are a helpful assistant." ++ Chat.documents_header ++ " ");
        Scenario.user_turn "Hi"]
  /\ messages (Chat.outgoing "sk-or-1" req)
     = [Chat.system_turn "You are a helpful AI assistant."; Scenario.user_turn "Hi"].
Proof.
  cbv zeta. repeat split; vm_compute; reflexivity.
Qed.

(** * Instances of the theorems on the scenarios *)

Lemma invalid_signature_rejected_witness :
  @on_constructEvent (Scenario.stripe (unhandled "ping"))
    (Webhooks.body Scenario.forged) (Webhooks.stripe_signature Scenario.forged)
    (Some "whsec_1")
  = Js.Throw "No signatures found matching the expected signature for payload"
  /\ exists resp,
      @Webhooks.handler Scenario.platform (Scenario.stripe (unhandled "ping"))
        (Some "whsec_1") Scenario.forged (Scenario.start Scenario.store1)
      = (Js.Normal resp, Scenario.start Scenario.store1)
      /\ (Webhooks.method Scenario.forged = "POST" ->
          resp = {| Http.status := 400;
                    sent := text ("Webhook Error: "
                      ++ "No signatures found matching the expected signature for payload") |})
      /\ (Webhooks.method Scenario.forged ≠ "POST" -> Http.status resp = 405).
Proof.
  split; [reflexivity |].
  apply (@invalid_signature_rejected Scenario.platform
           (Scenario.stripe (unhandled "ping"))).
  reflexivity.
Defined.



Lemma created_updates_one_table_witness :
  let sub := Scenario.sub "active" (Some (<["type" := "creator_subscription"]> ∅)) in
  valid_seconds (current_period_start sub) 1700000000
  /\ valid_seconds (current_period_end sub) 1702592000
  /\ @Webhooks.handler Scenario.platform
       (Scenario.stripe (customer_subscription_created sub))
       (Some "whsec_1") Scenario.delivery (Scenario.start Scenario.store1)
     = (Js.Normal received,
        updated (Scenario.start Scenario.store1)
          (if bool_decide (type_tag sub = Some "creator_subscription")
           then "creator_subscriptions" else "customer_subscriptions")
          (Webhooks.period_patch "active"
             (@toISOString Scenario.platform (1700000000 * 1000))
             (@toISOString Scenario.platform (1702592000 * 1000)))
          [("stripe_subscription_id", "sub_1")]).
Proof.
  cbv zeta.
  assert (H1 : valid_seconds (Some 1700000000) 1700000000)
    by (split; [reflexivity | vm_compute; discriminate]).
  assert (H2 : valid_seconds (Some 1702592000) 1702592000)
    by (split; [reflexivity | vm_compute; discriminate]).
  split; [exact H1 | split; [exact H2 |]].
  apply (@created_updates_one_table Scenario.platform
           (Scenario.stripe (customer_subscription_created
              (Scenario.sub "active" (Some (<["type" := "creator_subscription"]> ∅)))))
           (Some "whsec_1") Scenario.delivery (Scenario.start Scenario.store1)
           (Scenario.sub "active" (Some (<["type" := "creator_subscription"]> ∅)))
           1700000000 1702592000);
    [reflexivity | reflexivity | exact H1 | exact H2].
Defined.

Lemma deleted_twice_idempotent_witness :
  let sub := Scenario.sub "canceled" None in
  let first := @Webhooks.handler Scenario.platform
                 (Scenario.stripe (customer_subscription_deleted sub))
                 (Some "whsec_1") Scenario.delivery (Scenario.start Scenario.store1) in
  let second := @Webhooks.handler Scenario.platform
                  (Scenario.stripe (customer_subscription_deleted sub))
                  (Some "whsec_1") Scenario.delivery first.2 in
  first.1 = Js.Normal received
  /\ canceled_everywhere (db first.2) "sub_1"
  /\ second.1 = Js.Normal received
  /\ canceled_everywhere (db second.2) "sub_1"
  /\ (forall t, statuses (db second.2) t = statuses (db first.2) t)
  /\ (forall t, t = "creator_subscriptions" \/ t = "customer_subscriptions" ->
        marked_canceled "sub_1" (from Scenario.store1 t) (from (db first.2) t)
        /\ marked_canceled "sub_1" (from (db first.2) t) (from (db second.2) t))
  /\ (forall t, ~ (t = "creator_subscriptions" \/ t = "customer_subscriptions") ->
        from (db first.2) t = from Scenario.store1 t
        /\ from (db second.2) t = from Scenario.store1 t).
Proof.
  apply (@deleted_twice_idempotent Scenario.platform
           (Scenario.stripe (customer_subscription_deleted (Scenario.sub "canceled" None)))
           (Some "whsec_1") Scenario.delivery (Scenario.start Scenario.store1)
           (Scenario.sub "canceled" None));
    reflexivity.
Defined.

Lemma inactive_rows_do_not_block_witness :
  let req := Scenario.post "create_creator_subscription" (Js.decimal 2999 2) in
  let out := @StripeConfig.handler Scenario.platform Scenario.gateway req
               (Scenario.start Scenario.store3) in
  statuses Scenario.store3 "creator_subscriptions"
  = [Some (VStr "canceled"); Some (VStr "past_due")]
  /\ out.1 ≠ Js.Normal conflict
  /\ In (Call (customers_list "u1@example.com")) (trace out.2)
  /\ forall c, @resolved_customer Scenario.gateway (StripeConfig.data_ req) = Js.Normal c ->
       exists p, In (Call (checkout_sessions_create p None)) (trace out.2)
                 /\ customer p = c /\ unit_amount p = Some 1900.
Proof.
  cbv zeta. split; [vm_compute; reflexivity |].
  apply (@inactive_rows_do_not_block Scenario.platform Scenario.gateway
           (Scenario.post "create_creator_subscription" (Js.decimal 2999 2))
           (Scenario.start Scenario.store3));
    [reflexivity | reflexivity |].
  apply none_active_spec. vm_compute. reflexivity.
Defined.

Lemma customer_subscription_amounts_witness :
  let req := Scenario.post "create_customer_subscription" (Js.decimal 2999 2) in
  let w := Scenario.start Scenario.store2 in
  StripeConfig.unitAmount (Js.decimal 2999 2) = Some 2999
  /\ StripeConfig.applicationFeeAmount (Js.decimal 2999 2) = Some 900
  /\ exists p,
       List.filter is_call
         (trace (@StripeConfig.handler Scenario.platform Scenario.gateway req w).2)
       = [Call (customers_create "u1@example.com" (ids (StripeConfig.data_ req))
                  (Some "acct_1"));
          Call (checkout_sessions_create p (Some "acct_1"))]
       /\ unit_amount p = Some 2999
       /\ fee_sent (checkout_sessions_create p (Some "acct_1")) = Some 30.
Proof.
  cbv zeta. split; [vm_compute; reflexivity |]. split; [vm_compute; reflexivity |].
  destruct (@customer_subscription_amounts Scenario.platform Scenario.gateway
              (Scenario.post "create_customer_subscription" (Js.decimal 2999 2))
              (Scenario.start Scenario.store2)
              Scenario.connect_row Scenario.gpt_row "cus_1"
              (Some "Helper", Some "Answers questions")
              eq_refl eq_refl) as [[p [Htrace [Hunit Hfee]]] _];
    [vm_compute; reflexivity | vm_compute; reflexivity | vm_compute; reflexivity
    | vm_compute; reflexivity | vm_compute; reflexivity | vm_compute; reflexivity |].
  exists p. split; [exact Htrace |]. split; [| exact Hfee].
  rewrite Hunit. vm_compute. reflexivity.
Defined.

Lemma invalid_messages_rejected_witness :
  let req := Scenario.chat (Js.JArr []) None in
  let w := Scenario.start ∅ in
  rejected (Chat.messages_ req)
  /\ @Chat.handler Scenario.platform Scenario.api (Some "sk-or-1") req w
     = (Js.Normal messages_required, w)
  /\ @Chat.handler Scenario.platform Scenario.api None req w
     = (Js.Normal not_configured, w)
  /\ rejected (Chat.messages_ Scenario.bodiless)
  /\ (@Chat.handler Scenario.platform Scenario.api (Some "sk-or-1") Scenario.bodiless w).1
     = Js.Normal (failed (Chat.not_destructurable false)
                    (@answered_at Scenario.platform w))
  /\ @ChatLegacy.handler Scenario.platform Scenario.api Scenario.bodiless w
     = (Js.Normal (legacy_failed (Chat.not_destructurable false)), w).
Proof.
  cbv zeta.
  assert (Hrej : rejected (Js.JArr [])) by (right; right; reflexivity).
  assert (Hnone : rejected (Chat.messages_ Scenario.bodiless)) by (left; reflexivity).
  destruct (@invalid_messages_rejected Scenario.platform Scenario.api (Some "sk-or-1")
              (Scenario.chat (Js.JArr []) None) (Scenario.start ∅) eq_refl Hrej)
    as [_ [Hkey _]].
  destruct (@invalid_messages_rejected Scenario.platform Scenario.api None
              (Scenario.chat (Js.JArr []) None) (Scenario.start ∅) eq_refl Hrej)
    as [Hunset _].
  destruct (@invalid_messages_rejected Scenario.platform Scenario.api (Some "sk-or-1")
              Scenario.bodiless (Scenario.start ∅) eq_refl Hnone)
    as [_ [_ [Hbodiless Hlegacy]]].
  split; [exact Hrej |].
  split; [apply Hkey; reflexivity |].
  split; [apply Hunset; reflexivity |].
  split; [exact Hnone |].
  split; [rewrite (Hbodiless eq_refl false eq_refl); reflexivity |].
  apply Hlegacy. left. reflexivity.
Defined.

(** * Further properties of the handlers *)

(** ** Patching rows *)

(** What [.update(patch).eq(..)] does to one row. *)
Definition patch_row (patch : row) (f : filter) (r : row) : row :=
  if matches f r then patch ∪ r else r.





Lemma from_update_patch (d : database) t patch f :
  from (Store.update d t patch f) t = List.map (patch_row patch f) (from d t).
Proof. apply from_update_same. Qed.


(** ** The reconciler, event by event *)

Section ReconcilerEvents.
Context `{Platform} `{Stripe}.

(** A verified POST is answered from the outcome of the event's handler. *)
Lemma handler_dispatch (secret : option string) (req : Webhooks.request) (w : world)
    (ev : event) :
  Webhooks.method req = "POST" ->
  on_constructEvent (Webhooks.body req) (Webhooks.stripe_signature req) secret
    = Js.Normal ev ->
  Webhooks.handler secret req w
  = match Webhooks.dispatch ev w with
    | (Js.Normal _, w') => (Js.Normal received, w')
    | (Js.Throw _, w') => (Js.Normal processing_failed, w')
    end.
Proof.
  intros Hm Hev. unfold Webhooks.handler. rewrite Hm, Hev.
  change (String.eqb "POST" "POST") with true. cbn [negb].
  unfold Eff.try_catch, Eff.bind.
  destruct (Webhooks.dispatch ev w) as [[[] | message] w']; reflexivity.
Qed.

(** X1.  No exception leaves the webhook handler: every request is answered,
    with status 200, 400, 405 or 500. *)
Theorem webhook_always_answers (secret : option string) (req : Webhooks.request)
    (w : world) :
  exists resp w',
    Webhooks.handler secret req w = (Js.Normal resp, w')
    /\ (Http.status resp = 200 \/ Http.status resp = 400
        \/ Http.status resp = 405 \/ Http.status resp = 500).
Proof.
  unfold Webhooks.handler.
  destruct (negb (String.eqb (Webhooks.method req) "POST")).
  { do 2 eexists. split; [reflexivity |]. cbn. auto. }
  destruct (on_constructEvent _ _ _) as [ev | message].
  2:{ do 2 eexists. split; [reflexivity |]. cbn. auto. }
  unfold Eff.try_catch, Eff.bind.
  destruct (Webhooks.dispatch ev w) as [[[] | message] w'];
    do 2 eexists; (split; [reflexivity |]); cbn; auto.
Qed.

(** *** Period bounds that are missing or out of range *)

Definition no_valid_seconds (o : option Z) : Prop := forall s, ~ valid_seconds o s.

Lemma seconds_iso_invalid (o : option Z) (w : world) :
  no_valid_seconds o ->
  Supabase.seconds_iso o w = (Js.Throw "Invalid time value", w).
Proof.
  intros Hno. unfold Supabase.seconds_iso. destruct o as [s|]; [|reflexivity].
  destruct (Z.abs (s * 1000) <=? 8640000000000000)%Z eqn:Hle; [|reflexivity].
  exfalso. apply (Hno s). split; [reflexivity | apply Z.leb_le; exact Hle].
Qed.

Lemma seconds_iso_cases (o : option Z) (w : world) :
  (exists s, valid_seconds o s
             /\ Supabase.seconds_iso o w = (Js.Normal (toISOString (s * 1000)), w))
  \/ (no_valid_seconds o
      /\ Supabase.seconds_iso o w = (Js.Throw "Invalid time value", w)).
Proof.
  destruct o as [s|].
  - destruct (Z.abs (s * 1000) <=? 8640000000000000)%Z eqn:Hle.
    + left. exists s. assert (Hv : valid_seconds (Some s) s)
        by (split; [reflexivity | apply Z.leb_le; exact Hle]).
      split; [exact Hv | apply seconds_iso_valid; exact Hv].
    + assert (Hno : no_valid_seconds (Some s)).
      { intros s' [[= <-] Hle']. apply Z.leb_le in Hle'. congruence. }
      right. split; [exact Hno | apply seconds_iso_invalid; exact Hno].
  - assert (Hno : no_valid_seconds None) by (intros s' [Hs _]; discriminate Hs).
    right. split; [exact Hno | apply seconds_iso_invalid; exact Hno].
Qed.

(** X2.  A customer.subscription.created or customer.subscription.updated
    event one of whose period bounds is missing, or beyond the range of
    dates, is answered 500 and writes nothing: the dates are rendered
    before the first update is issued. *)
Theorem period_bound_missing_fails (secret : option string) (req : Webhooks.request)
    (w : world) (sub : subscription) :
  Webhooks.method req = "POST" ->
  on_constructEvent (Webhooks.body req) (Webhooks.stripe_signature req) secret
    = Js.Normal (customer_subscription_created sub)
  \/ on_constructEvent (Webhooks.body req) (Webhooks.stripe_signature req) secret
     = Js.Normal (customer_subscription_updated sub) ->
  no_valid_seconds (current_period_start sub)
  \/ no_valid_seconds (current_period_end sub) ->
  Webhooks.handler secret req w = (Js.Normal processing_failed, w).
Proof.
  intros Hm Hev Hbound.
  assert (Hthrow : forall k : string -> string -> Eff.M unit,
            (let* start_ := Supabase.seconds_iso (current_period_start sub) in
             let* end_ := Supabase.seconds_iso (current_period_end sub) in
             k start_ end_)%eff w = (Js.Throw "Invalid time value", w)).
  { intros k. unfold Eff.bind.
    destruct (seconds_iso_cases (current_period_start sub) w)
      as [[s1 [Hv1 ->]] | [Hno1 ->]]; [|reflexivity].
    destruct Hbound as [Hno | Hno]; [exfalso; exact (Hno s1 Hv1) |].
    rewrite (seconds_iso_invalid _ _ Hno). reflexivity. }
  destruct Hev as [Hev | Hev]; rewrite (handler_dispatch _ _ _ _ Hm Hev);
    unfold Webhooks.dispatch.
  - unfold Webhooks.handleSubscriptionCreated.
    destruct (match subscription_metadata sub with
              | Some metadata => Webhooks.has_type metadata "creator_subscription"
              | None => false
              end); rewrite Hthrow; reflexivity.
  - unfold Webhooks.handleSubscriptionUpdated. rewrite Hthrow. reflexivity.
Qed.

End ReconcilerEvents.

Lemma period_bound_missing_fails_witness :
  let sub := {| subscription_id := "sub_1";
                subscription_customer := Some "cus_1";
                subscription_status := "active";
                current_period_start := Some 1700000000;
                current_period_end := None;
                subscription_metadata := None |} in
  no_valid_seconds (current_period_end sub)
  /\ @Webhooks.handler Scenario.platform
       (Scenario.stripe (customer_subscription_updated sub))
       (Some "whsec_1") Scenario.delivery (Scenario.start Scenario.store1)
     = (Js.Normal processing_failed, Scenario.start Scenario.store1).
Proof.
  cbv zeta.
  assert (Hno : no_valid_seconds None) by (intros s [Hs _]; discriminate Hs).
  split; [exact Hno |].
  match goal with
  | |- @Webhooks.handler _ (Scenario.stripe (customer_subscription_updated ?sub)) _ _ _ = _ =>
      apply (@period_bound_missing_fails Scenario.platform
               (Scenario.stripe (customer_subscription_updated sub))
               (Some "whsec_1") Scenario.delivery (Scenario.start Scenario.store1) sub)
  end; [reflexivity | right; reflexivity | right; exact Hno].
Defined.

(** ** Tables after an update *)

Lemma patched_length (patch : row) (f : filter) (rows : table) :
  length (List.map (patch_row patch f) rows) = length rows.
Proof. apply List.length_map. Qed.



Lemma patched_statuses (patch : row) (f : filter) (rows : table) (v : val) :
  patch !! "status" = Some v ->
  List.map (fun r : row => r !! "status") (List.map (patch_row patch f) rows)
  = List.map (fun r : row => if matches f r then Some v else r !! "status") rows.
Proof.
  intros Hp. rewrite List.map_map. apply List.map_ext. intros r.
  unfold patch_row. destruct (matches f r); [|reflexivity].
  apply lookup_union_Some_l. exact Hp.
Qed.

(** The subscription tables. *)
Definition subscription_table (t : string) : Prop :=
  t = "creator_subscriptions" \/ t = "customer_subscriptions".

(** The table [t] after the same filter was updated in both subscription
    tables, with patch [p1] and then [p2]. *)
Lemma from_both_updates (d : database) (p1 p2 : row) (f : filter) (t : string) :
  from (Store.update (Store.update d "creator_subscriptions" p1 f)
          "customer_subscriptions" p2 f) t
  = if bool_decide (t = "creator_subscriptions")
    then List.map (patch_row p1 f) (from d t)
    else if bool_decide (t = "customer_subscriptions")
         then List.map (patch_row p2 f) (from d t)
         else from d t.
Proof.
  destruct (decide (t = "customer_subscriptions")) as [-> | Hcustomer].
  - rewrite bool_decide_eq_false_2 by discriminate.
    rewrite bool_decide_eq_true_2 by reflexivity.
    rewrite from_update_patch, from_update_other by discriminate. reflexivity.
  - rewrite from_update_other by (intros Heq; apply Hcustomer; symmetry; exact Heq).
    rewrite (bool_decide_eq_false_2 (t = "customer_subscriptions")) by exact Hcustomer.
    destruct (decide (t = "creator_subscriptions")) as [-> | Hcreator].
    + rewrite bool_decide_eq_true_2 by reflexivity. apply from_update_patch.
    + rewrite bool_decide_eq_false_2 by exact Hcreator.
      apply from_update_other. intros Heq; apply Hcreator; symmetry; exact Heq.
Qed.

(** ** customer.subscription.updated *)

Section Updated.
Context `{Platform} `{Stripe}.





End Updated.


(** ** Events that mark a subscription *)

Section Marking.
Context `{Platform} `{Stripe}.

(** The status an event marks a subscription with, and the subscription:
    customer.subscription.deleted, invoice.payment_failed and
    invoice.payment_succeeded. *)
Definition marking (ev : event) : option (string * string) :=
  match ev with
  | customer_subscription_deleted sub => Some ("canceled", subscription_id sub)
  | invoice_payment_failed inv => Some ("past_due", invoice_subscription inv)
  | invoice_payment_succeeded inv => Some ("active", invoice_subscription inv)
  | _ => None
  end.

Lemma dispatch_marking (ev : event) (st id : string) :
  marking ev = Some (st, id) -> Webhooks.dispatch ev = Webhooks.mark_both st id.
Proof. destruct ev; intros [= <- <-]; reflexivity. Qed.

(** The statuses of a table once the rows of subscription [id] are
    marked [st]. *)
Definition marked_statuses (st id : string) (rows : table) : list (option val) :=
  List.map (fun r : row =>
              if matches [("stripe_subscription_id", id)] r
              then Some (VStr st) else r !! "status") rows.

Lemma mark_both_statuses (st id : string) (w : world) (t : string) :
  statuses (db (Webhooks.mark_both st id w).2) t
  = if bool_decide (subscription_table t)
    then marked_statuses st id (from (db w) t)
    else statuses (db w) t.
Proof.
  unfold statuses. rewrite mark_both_run. cbn [snd db]. rewrite from_both_updates.
  unfold subscription_table, marked_statuses, by_subscription.
  destruct (decide (t = "creator_subscriptions")) as [-> | Hcreator].
  - rewrite !bool_decide_eq_true_2 by (first [reflexivity | left; reflexivity]).
    apply patched_statuses. apply lookup_insert_eq.
  - rewrite (bool_decide_eq_false_2 (t = "creator_subscriptions")) by exact Hcreator.
    destruct (decide (t = "customer_subscriptions")) as [-> | Hcustomer].
    + rewrite !bool_decide_eq_true_2 by (first [reflexivity | right; reflexivity]).
      apply patched_statuses. apply lookup_insert_eq.
    + rewrite !bool_decide_eq_false_2
        by (first [exact Hcustomer | intros [Heq | Heq]; contradiction]).
      reflexivity.
Qed.

Lemma mark_both_tables (st id : string) (w : world) (t : string) :
  length (from (db (Webhooks.mark_both st id w).2) t) = length (from (db w) t)
  /\ (~ subscription_table t ->
      from (db (Webhooks.mark_both st id w).2) t = from (db w) t).
Proof.
  rewrite mark_both_run. cbn [snd db]. rewrite from_both_updates.
  destruct (decide (t = "creator_subscriptions")) as [-> | Hcreator].
  - rewrite bool_decide_eq_true_2 by reflexivity.
    split; [apply patched_length | intros Hno; exfalso; apply Hno; left; reflexivity].
  - rewrite (bool_decide_eq_false_2 (t = "creator_subscriptions")) by exact Hcreator.
    destruct (decide (t = "customer_subscriptions")) as [-> | Hcustomer].
    + rewrite bool_decide_eq_true_2 by reflexivity.
      split; [apply patched_length | intros Hno; exfalso; apply Hno; right; reflexivity].
    + rewrite bool_decide_eq_false_2 by exact Hcustomer. split; reflexivity.
Qed.

(** X4.  customer.subscription.deleted, invoice.payment_failed and
    invoice.payment_succeeded are answered 200 and set the status
    canceled, past_due and active on every row of the two subscription
    tables with the event's subscription id, whatever status the row had
    (a payment that succeeds after a deletion makes the row active
    again).  The status of every other row, the number of rows and all
    other tables are left as they were. *)
Theorem marking_event_sets_status (secret : option string) (req : Webhooks.request)
    (w : world) (ev : event) (st id : string) :
  Webhooks.method req = "POST" ->
  on_constructEvent (Webhooks.body req) (Webhooks.stripe_signature req) secret
    = Js.Normal ev ->
  marking ev = Some (st, id) ->
  let out := Webhooks.handler secret req w in
  out.1 = Js.Normal received
  /\ (forall t, subscription_table t ->
        statuses (db out.2) t = marked_statuses st id (from (db w) t))
  /\ (forall t, length (from (db out.2) t) = length (from (db w) t))
  /\ (forall t, ~ subscription_table t -> from (db out.2) t = from (db w) t).
Proof.
  intros Hm Hev Hmark. cbv zeta.
  rewrite (handler_dispatch _ _ _ _ Hm Hev), (dispatch_marking _ _ _ Hmark).
  rewrite mark_both_run. cbn [fst snd].
  split; [reflexivity |].
  repeat split.
  - intros t Ht. pose proof (mark_both_statuses st id w t) as Hs.
    rewrite bool_decide_eq_true_2 in Hs by exact Ht.
    rewrite mark_both_run in Hs. exact Hs.
  - intros t. pose proof (mark_both_tables st id w t) as [Hl _].
    rewrite mark_both_run in Hl. exact Hl.
  - intros t Ht. pose proof (mark_both_tables st id w t) as [_ Ho].
    rewrite mark_both_run in Ho. apply Ho. exact Ht.
Qed.

(** X5.  The last marking wins: when two such events for the same
    subscription are delivered one after the other, every table holds
    the statuses it would hold had only the second been delivered. *)
Theorem last_marking_wins (secret : option string) (req1 req2 : Webhooks.request)
    (w : world) (ev1 ev2 : event) (st1 st2 id : string) :
  Webhooks.method req1 = "POST" ->
  Webhooks.method req2 = "POST" ->
  on_constructEvent (Webhooks.body req1) (Webhooks.stripe_signature req1) secret
    = Js.Normal ev1 ->
  on_constructEvent (Webhooks.body req2) (Webhooks.stripe_signature req2) secret
    = Js.Normal ev2 ->
  marking ev1 = Some (st1, id) ->
  marking ev2 = Some (st2, id) ->
  forall t,
    statuses (db (Webhooks.handler secret req2 (Webhooks.handler secret req1 w).2).2) t
    = statuses (db (Webhooks.handler secret req2 w).2) t.
Proof.
  intros Hm1 Hm2 Hev1 Hev2 Hmark1 Hmark2 t.
  assert (Hsnd : forall req ev st w0,
            Webhooks.method req = "POST" ->
            on_constructEvent (Webhooks.body req) (Webhooks.stripe_signature req) secret
              = Js.Normal ev ->
            marking ev = Some (st, id) ->
            (Webhooks.handler secret req w0).2 = (Webhooks.mark_both st id w0).2).
  { intros req ev st w0 Hm Hev Hmark.
    rewrite (handler_dispatch _ _ _ _ Hm Hev), (dispatch_marking _ _ _ Hmark).
    rewrite mark_both_run. reflexivity. }
  rewrite (Hsnd req1 ev1 st1 w Hm1 Hev1 Hmark1).
  rewrite !(Hsnd req2 ev2 st2 _ Hm2 Hev2 Hmark2).
  rewrite !mark_both_statuses.
  destruct (bool_decide (subscription_table t)) eqn:Ht.
  - unfold marked_statuses.
    destruct (from_mark_both st1 id w t) as [now Hfrom]. rewrite Hfrom.
    apply bool_decide_eq_true in Ht.
    rewrite bool_decide_eq_true_2 by exact Ht.
    rewrite List.map_map. apply List.map_ext. intros r.
    change [("stripe_subscription_id", id)] with (by_subscription id).
    rewrite mark_row_matches.
    destruct (matches (by_subscription id) r) eqn:Hmatch; [reflexivity |].
    unfold mark_row. rewrite Hmatch. reflexivity.
  - reflexivity.
Qed.

End Marking.

Lemma marking_event_sets_status_witness :
  let ev := invoice_payment_succeeded {| invoice_subscription := "sub_1" |} in
  let w := Scenario.start
             (<["creator_subscriptions" :=
                  [Scenario.sub_row "u1" "sub_1" "canceled";
                   Scenario.sub_row "u3" "sub_9" "past_due"]]> Scenario.store1) in
  let out := @Webhooks.handler Scenario.platform (Scenario.stripe ev)
               (Some "whsec_1") Scenario.delivery w in
  marked_statuses "active" "sub_1" (from (db w) "creator_subscriptions")
  = [Some (VStr "active"); Some (VStr "past_due")]
  /\ out.1 = Js.Normal received
  /\ (forall t, subscription_table t ->
        statuses (db out.2) t = marked_statuses "active" "sub_1" (from (db w) t))
  /\ (forall t, length (from (db out.2) t) = length (from (db w) t))
  /\ (forall t, ~ subscription_table t -> from (db out.2) t = from (db w) t).
Proof.
  cbv zeta. split; [vm_compute; reflexivity |].
  apply (@marking_event_sets_status Scenario.platform
           (Scenario.stripe (invoice_payment_succeeded
                               {| invoice_subscription := "sub_1" |}))
           (Some "whsec_1") Scenario.delivery _
           (invoice_payment_succeeded {| invoice_subscription := "sub_1" |})
           "active" "sub_1");
    reflexivity.
Defined.

(** A gateway that verifies two deliveries: the body ["deleted"] as the
    deletion of sub_1 and any other body as a paid invoice of sub_1. *)
Definition two_deliveries : Stripe := {|
  on_constructEvent := fun body _ _ =>
    if String.eqb body "deleted"
    then Js.Normal (customer_subscription_deleted (Scenario.sub "canceled" None))
    else Js.Normal (invoice_payment_succeeded {| invoice_subscription := "sub_1" |});
  on_customers_list := @on_customers_list Scenario.gateway;
  on_customers_create := @on_customers_create Scenario.gateway;
  on_checkout_sessions_create := @on_checkout_sessions_create Scenario.gateway;
  on_accounts_create := @on_accounts_create Scenario.gateway;
  on_accountLinks_create := @on_accountLinks_create Scenario.gateway;
  on_subscriptions_retrieve := @on_subscriptions_retrieve Scenario.gateway;
  on_accounts_retrieve := @on_accounts_retrieve Scenario.gateway |}.

Definition delivery_of (body : string) : Webhooks.request :=
  {| Webhooks.method := "POST";
     Webhooks.stripe_signature := Some "t=1,v1=good";
     Webhooks.body := body |}.

Lemma last_marking_wins_witness :
  marking (customer_subscription_deleted (Scenario.sub "canceled" None))
  = Some ("canceled", "sub_1")
  /\ marking (invoice_payment_succeeded {| invoice_subscription := "sub_1" |})
     = Some ("active", "sub_1")
  /\ forall t,
       statuses
         (db (@Webhooks.handler Scenario.platform two_deliveries
                (Some "whsec_1") (delivery_of "paid")
                (@Webhooks.handler Scenario.platform two_deliveries
                   (Some "whsec_1") (delivery_of "deleted")
                   (Scenario.start Scenario.store1)).2).2) t
       = statuses
           (db (@Webhooks.handler Scenario.platform two_deliveries
                  (Some "whsec_1") (delivery_of "paid")
                  (Scenario.start Scenario.store1)).2) t.
Proof.
  split; [reflexivity |]. split; [reflexivity |].
  apply (@last_marking_wins Scenario.platform two_deliveries
           (Some "whsec_1") (delivery_of "deleted") (delivery_of "paid")
           (Scenario.start Scenario.store1)
           (customer_subscription_deleted (Scenario.sub "canceled" None))
           (invoice_payment_succeeded {| invoice_subscription := "sub_1" |})
           "canceled" "active" "sub_1");
    reflexivity.
Defined.

(** ** account.updated *)

Section AccountUpdated.
Context `{Platform} `{Stripe}.



End AccountUpdated.


(** ** Tables after an upsert *)

Lemma from_upsert_same (pk : list string) (d : database) (t : string) (r : row) :
  from (Store.upsert pk d t r) t
  = if existsb (conflicts pk r) (from d t)
    then List.map (fun r' => if conflicts pk r r' then r ∪ r' else r') (from d t)
    else (from d t ++ [r])%list.
Proof.
  unfold Store.upsert. destruct (existsb (conflicts pk r) (from d t));
    unfold from at 1; rewrite lookup_insert_eq; reflexivity.
Qed.

Lemma from_upsert_other (pk : list string) (d : database) (t t' : string) (r : row) :
  t ≠ t' -> from (Store.upsert pk d t r) t' = from d t'.
Proof.
  intros Hne. unfold Store.upsert. destruct (existsb (conflicts pk r) (from d t));
    unfold from at 1; rewrite lookup_insert_ne by exact Hne; reflexivity.
Qed.

(** After an upsert the table holds a row with every column of the
    given row. *)
Lemma upsert_recorded (pk : list string) (d : database) (t : string) (r : row) :
  exists r', In r' (from (Store.upsert pk d t r) t)
             /\ forall k v, r !! k = Some v -> r' !! k = Some v.
Proof.
  rewrite from_upsert_same.
  destruct (existsb (conflicts pk r) (from d t)) eqn:Hex.
  - apply existsb_exists in Hex as [x [Hx Hconflict]].
    exists (r ∪ x). split.
    + apply in_map_iff. exists x. rewrite Hconflict. split; [reflexivity | exact Hx].
    + intros k v Hk. apply lookup_union_Some_l. exact Hk.
  - exists r. split; [apply in_or_app; right; left; reflexivity | auto].
Qed.

Lemma upsert_length (pk : list string) (d : database) (t : string) (r : row) :
  (length (from d t) <= length (from (Store.upsert pk d t r) t) <= S (length (from d t)))%nat.
Proof.
  rewrite from_upsert_same. destruct (existsb (conflicts pk r) (from d t)).
  - rewrite List.length_map. lia.
  - rewrite List.length_app. simpl. lia.
Qed.

(** ** checkout.session.completed *)

Section CheckoutCompleted.
Context `{Platform} `{Stripe}.

(** The table and the column of the user that a type tag selects. *)
Definition checkout_target (tag : string) : option (string * string) :=
  if bool_decide (tag = "creator_subscription")
  then Some ("creator_subscriptions", "user_id")
  else if bool_decide (tag = "customer_subscription")
       then Some ("customer_subscriptions", "customer_id")
       else None.

Definition text_or_null (o : option string) : val :=
  match o with Some s => VStr s | None => VNull end.

(** X7.  A checkout.session.completed event tagged creator_subscription or
    customer_subscription is answered 200 after one upsert into the
    table the tag names.  That table then holds a row with status
    active, the session's customer and subscription, and the user of the
    metadata (for a customer subscription also the listing and the
    creator); it has at most one row more than before and none fewer,
    and every other table is untouched. *)
Theorem checkout_completed_records (secret : option string) (req : Webhooks.request)
    (w : world) (s : session) (md : metadata) (tag t user_column : string) :
  Webhooks.method req = "POST" ->
  on_constructEvent (Webhooks.body req) (Webhooks.stripe_signature req) secret
    = Js.Normal (checkout_session_completed s) ->
  session_metadata s = Some md ->
  md !! "type" = Some tag ->
  checkout_target tag = Some (t, user_column) ->
  let out := Webhooks.handler secret req w in
  out.1 = Js.Normal received
  /\ (exists r, In r (from (db out.2) t)
        /\ r !! "status" = Some (VStr "active")
        /\ r !! "stripe_customer_id" = Some (text_or_null (session_customer s))
        /\ r !! "stripe_subscription_id" = Some (text_or_null (session_subscription s))
        /\ (forall u, md !! "userId" = Some u -> r !! user_column = Some (VStr u))
        /\ (t = "customer_subscriptions" ->
            (forall g, md !! "gptId" = Some g -> r !! "gpt_id" = Some (VStr g))
            /\ (forall c, md !! "creatorId" = Some c -> r !! "creator_id" = Some (VStr c))))
  /\ (length (from (db w) t) <= length (from (db out.2) t) <= S (length (from (db w) t)))%nat
  /\ (forall t', t ≠ t' -> from (db out.2) t' = from (db w) t').
Proof.
  intros Hm Hev Hmd Htype Htarget. cbv zeta.
  rewrite (handler_dispatch _ _ _ _ Hm Hev). unfold Webhooks.dispatch.
  unfold Webhooks.handleCheckoutCompleted, Webhooks.has_type. rewrite Hmd, Htype.
  unfold checkout_target in Htarget.
  destruct (decide (tag = "creator_subscription")) as [-> | Hcreator].
  - rewrite bool_decide_eq_true_2 in Htarget by reflexivity.
    injection Htarget as <- <-.
    rewrite bool_decide_eq_true_2 by reflexivity. run_eff.
    split; [reflexivity |]. split; [| split; [apply upsert_length |
      intros t' Ht'; apply from_upsert_other; exact Ht']].
    match goal with
    | |- context [Store.upsert ?pk ?d ?t ?r] =>
        destruct (upsert_recorded pk d t r) as [r' [Hin Hcols]]
    end.
    exists r'. split; [exact Hin |].
    repeat split; try discriminate;
      try (apply Hcols; unfold text_or_null, nullable;
           rewrite ?prop_lookup_ne, ?lookup_insert_ne by discriminate;
           apply lookup_insert_eq).
    intros u Hu. apply Hcols. rewrite Hu. apply lookup_insert_eq.
  - rewrite bool_decide_eq_false_2 in Htarget by exact Hcreator.
    destruct (decide (tag = "customer_subscription")) as [-> | Hcustomer];
      [| rewrite bool_decide_eq_false_2 in Htarget by exact Hcustomer;
         discriminate Htarget].
    rewrite bool_decide_eq_true_2 in Htarget by reflexivity.
    injection Htarget as <- <-.
    rewrite bool_decide_eq_false_2 by (intros [=]).
    rewrite bool_decide_eq_true_2 by reflexivity. run_eff.
    split; [reflexivity |]. split; [| split; [apply upsert_length |
      intros t' Ht'; apply from_upsert_other; exact Ht']].
    match goal with
    | |- context [Store.upsert ?pk ?d ?t ?r] =>
        destruct (upsert_recorded pk d t r) as [r' [Hin Hcols]]
    end.
    exists r'. split; [exact Hin |].
    split; [apply Hcols; unfold nullable;
            rewrite ?prop_lookup_ne, ?lookup_insert_ne by discriminate;
            apply lookup_insert_eq |].
    split; [apply Hcols; unfold text_or_null, nullable;
            rewrite ?prop_lookup_ne, ?lookup_insert_ne by discriminate;
            apply lookup_insert_eq |].
    split; [apply Hcols; unfold text_or_null, nullable;
            rewrite ?prop_lookup_ne, ?lookup_insert_ne by discriminate;
            apply lookup_insert_eq |].
    split; [intros u Hu; apply Hcols; rewrite Hu; apply lookup_insert_eq |].
    intros _. split.
    + intros g Hg. apply Hcols. rewrite prop_lookup_ne by discriminate.
      rewrite Hg. apply lookup_insert_eq.
    + intros c Hc. apply Hcols. rewrite !prop_lookup_ne by discriminate.
      rewrite Hc. apply lookup_insert_eq.
Qed.

(** X8.  A checkout.session.completed event whose session has no metadata
    object is answered 500 and writes nothing: reading the type tag
    throws. *)
Theorem checkout_without_metadata_fails (secret : option string)
    (req : Webhooks.request) (w : world) (s : session) :
  Webhooks.method req = "POST" ->
  on_constructEvent (Webhooks.body req) (Webhooks.stripe_signature req) secret
    = Js.Normal (checkout_session_completed s) ->
  session_metadata s = None ->
  Webhooks.handler secret req w = (Js.Normal processing_failed, w).
Proof.
  intros Hm Hev Hmd. rewrite (handler_dispatch _ _ _ _ Hm Hev).
  unfold Webhooks.dispatch, Webhooks.handleCheckoutCompleted. rewrite Hmd. reflexivity.
Qed.

End CheckoutCompleted.

Lemma checkout_completed_records_witness :
  let s := Scenario.checkout_session "customer_subscription" in
  let md : metadata := <["type" := "customer_subscription"]> (<["userId" := "u1"]> ∅) in
  let t := "customer_subscriptions" in
  let out := @Webhooks.handler Scenario.platform
               (Scenario.stripe (checkout_session_completed s))
               (Some "whsec_1") Scenario.delivery (Scenario.start Scenario.store1) in
  out.1 = Js.Normal received
  /\ (exists r, In r (from (db out.2) t)
        /\ r !! "status" = Some (VStr "active")
        /\ r !! "stripe_customer_id" = Some (text_or_null (session_customer s))
        /\ r !! "stripe_subscription_id" = Some (text_or_null (session_subscription s))
        /\ (forall u, md !! "userId" = Some u -> r !! "customer_id" = Some (VStr u))
        /\ (t = "customer_subscriptions" ->
            (forall g, md !! "gptId" = Some g -> r !! "gpt_id" = Some (VStr g))
            /\ (forall c, md !! "creatorId" = Some c -> r !! "creator_id" = Some (VStr c))))
  /\ (length (from Scenario.store1 t) <= length (from (db out.2) t)
      <= S (length (from Scenario.store1 t)))%nat
  /\ (forall t', t ≠ t' -> from (db out.2) t' = from Scenario.store1 t').
Proof.
  cbv zeta.
  apply (@checkout_completed_records Scenario.platform
           (Scenario.stripe (checkout_session_completed
                               (Scenario.checkout_session "customer_subscription")))
           (Some "whsec_1") Scenario.delivery (Scenario.start Scenario.store1)
           (Scenario.checkout_session "customer_subscription")
           (<["type" := "customer_subscription"]> (<["userId" := "u1"]> ∅))
           "customer_subscription" "customer_subscriptions" "customer_id");
    reflexivity.
Defined.

Lemma checkout_without_metadata_fails_witness :
  let s := {| session_id := "cs_2"; session_metadata := None;
              session_customer := Some "cus_1"; session_subscription := None |} in
  @Webhooks.handler Scenario.platform (Scenario.stripe (checkout_session_completed s))
    (Some "whsec_1") Scenario.delivery (Scenario.start Scenario.store1)
  = (Js.Normal processing_failed, Scenario.start Scenario.store1).
Proof.
  cbv zeta.
  apply (@checkout_without_metadata_fails Scenario.platform
           (Scenario.stripe (checkout_session_completed
              {| session_id := "cs_2"; session_metadata := None;
                 session_customer := Some "cus_1"; session_subscription := None |}))
           (Some "whsec_1") Scenario.delivery (Scenario.start Scenario.store1)
           {| session_id := "cs_2"; session_metadata := None;
              session_customer := Some "cus_1"; session_subscription := None |});
    reflexivity.
Defined.

(** ** What the reconciler never does *)

Section ReconcilerEffects.
Context `{Platform} `{Stripe}.

(** A write to one of the three tables the reconciler maintains. *)
Definition reconciler_write (e : effect) : Prop :=
  match e with
  | Update t _ _ | Upsert t _ =>
      t = "creator_subscriptions" \/ t = "customer_subscriptions"
      \/ t = "creator_connect_accounts"
  | Select _ _ | Call _ | Fetch _ => False
  end.

Lemma dispatch_effects (ev : event) (w : world) :
  exists new, trace (Webhooks.dispatch ev w).2 = (trace w ++ new)%list
              /\ Forall reconciler_write new /\ (length new <= 2)%nat.
Proof.
  assert (Hcreator : forall p f, reconciler_write (Update "creator_subscriptions" p f))
    by (intros; left; reflexivity).
  assert (Hcustomer : forall p f, reconciler_write (Update "customer_subscriptions" p f))
    by (intros; right; left; reflexivity).
  destruct ev; unfold Webhooks.dispatch.
  - unfold Webhooks.handleCheckoutCompleted. run_eff. split_cases;
      (eexists; split; [first [symmetry; apply app_nil_r | reflexivity] |]);
      (split; [| cbn; lia]);
      each_effect ltac:(first [left; reflexivity | right; left; reflexivity]).
  - unfold Webhooks.handleSubscriptionCreated. run_eff. split_cases;
      (eexists; split; [first [symmetry; apply app_nil_r | reflexivity] |]);
      (split; [| cbn; lia]);
      each_effect ltac:(first [apply Hcreator | apply Hcustomer]).
  - unfold Webhooks.handleSubscriptionUpdated. run_eff. split_cases;
      (eexists; split;
       [first [symmetry; apply app_nil_r | rewrite <- ?app_assoc; reflexivity] |]);
      (split; [| cbn; lia]);
      each_effect ltac:(first [apply Hcreator | apply Hcustomer]).
  - unfold Webhooks.handleSubscriptionDeleted, Webhooks.mark_both. run_eff.
    eexists; (split; [rewrite <- app_assoc; reflexivity |]); (split; [| cbn; lia]).
    each_effect ltac:(first [apply Hcreator | apply Hcustomer]).
  - unfold Webhooks.handlePaymentFailed, Webhooks.mark_both. run_eff.
    eexists; (split; [rewrite <- app_assoc; reflexivity |]); (split; [| cbn; lia]).
    each_effect ltac:(first [apply Hcreator | apply Hcustomer]).
  - unfold Webhooks.handlePaymentSucceeded, Webhooks.mark_both. run_eff.
    eexists; (split; [rewrite <- app_assoc; reflexivity |]); (split; [| cbn; lia]).
    each_effect ltac:(first [apply Hcreator | apply Hcustomer]).
  - unfold Webhooks.handleConnectAccountUpdated. run_eff.
    eexists; (split; [reflexivity |]); (split; [| cbn; lia]).
    each_effect ltac:(right; right; reflexivity).
  - run_eff. exists []. split; [symmetry; apply app_nil_r |].
    split; [constructor | cbn; lia].
Qed.

(** X9.  Whatever the request, the webhook handler issues at most two store
    operations, each an update or an upsert of creator_subscriptions,
    customer_subscriptions or creator_connect_accounts: it never reads
    the store, never touches another table, and never calls the gateway
    or the completion API. *)
Theorem reconciler_only_writes_its_tables (secret : option string)
    (req : Webhooks.request) (w : world) :
  exists new,
    trace (Webhooks.handler secret req w).2 = (trace w ++ new)%list
    /\ Forall reconciler_write new
    /\ (length new <= 2)%nat.
Proof.
  unfold Webhooks.handler.
  destruct (negb (String.eqb (Webhooks.method req) "POST")).
  { exists []. split; [symmetry; apply app_nil_r | split; [constructor | cbn; lia]]. }
  destruct (on_constructEvent _ _ _) as [ev | message].
  2:{ exists []. split; [symmetry; apply app_nil_r | split; [constructor | cbn; lia]]. }
  destruct (dispatch_effects ev w) as [new [Htrace Hall]].
  exists new. split; [| exact Hall].
  unfold Eff.try_catch, Eff.bind.
  destruct (Webhooks.dispatch ev w) as [[[] | message] w']; exact Htrace.
Qed.

End ReconcilerEffects.

(** ** The dispatcher, action by action *)

Ltac dispatch_action :=
  post_action;
  repeat match goal with
  | |- context [String.eqb ?a ?b] =>
      let v := eval vm_compute in (String.eqb a b) in
      change (String.eqb a b) with v
  end;
  cbv iota.

Section DispatcherActions.
Context `{Platform} `{Stripe}.

Definition internal_error (message : string) : response :=
  {| Http.status := 500; sent := json [("error", VStr message)] |}.

(** The world after the operations [ops], none of which writes. *)
Definition after (w : world) (ops : list effect) : world :=
  {| db := db w; trace := (trace w ++ ops)%list; ticks := ticks w |}.

(** *** verify_subscription *)

(** X10.  verify_subscription reads through to the gateway: it makes the one
    call subscriptions.retrieve and no store operation.  The answer is 200
    with the status, period end and cancel flag the gateway gave, or,
    when the call throws, 500 with the thrown message. *)
Theorem verify_subscription_reads_through (req : StripeConfig.request) (w : world) :
  StripeConfig.method req = "POST" ->
  StripeConfig.action req = "verify_subscription" ->
  let d := StripeConfig.data_ req in
  StripeConfig.handler req w
  = (Js.Normal
       match on_subscriptions_retrieve (StripeConfig.subscriptionId d)
               (StripeConfig.stripeAccountId d) with
       | Js.Normal s =>
           StripeConfig.ok
             [("status", VStr (retrieved_status s));
              ("currentPeriodEnd", VNum (retrieved_current_period_end s));
              ("cancelAtPeriodEnd", VBool (cancel_at_period_end s))]
       | Js.Throw message => internal_error message
       end,
     after w [Call (subscriptions_retrieve (StripeConfig.subscriptionId d)
                      (StripeConfig.stripeAccountId d))]).
Proof.
  intros Hm Ha. cbv zeta. unfold StripeConfig.handler. rewrite Hm, Ha. dispatch_action.
  unfold StripeConfig.verifySubscription. run_eff.
  destruct (on_subscriptions_retrieve _ _); reflexivity.
Qed.

(** *** get_connect_status *)

Definition connect_of (user : string) : filter := [("user_id", user)].

(** X11.  Without exactly one connect-account row for the user,
    get_connect_status answers 200 {exists: false} after the one store
    query: it calls the gateway for nothing and writes nothing. *)
Theorem connect_status_absent (req : StripeConfig.request) (w : world) :
  StripeConfig.method req = "POST" ->
  StripeConfig.action req = "get_connect_status" ->
  let user := StripeConfig.userId (StripeConfig.data_ req) in
  data (single (select (db w) "creator_connect_accounts" (connect_of user))) = None ->
  StripeConfig.handler req w
  = (Js.Normal (StripeConfig.ok [("exists", VBool false)]),
     after w [Select "creator_connect_accounts" (connect_of user)]).
Proof.
  intros Hm Ha user Hnone. subst user.
  unfold StripeConfig.handler. rewrite Hm, Ha. dispatch_action.
  unfold StripeConfig.getConnectStatus. run_eff.
  unfold connect_of in Hnone. rewrite Hnone.
  destruct (error _); reflexivity.
Qed.



End DispatcherActions.

Lemma verify_subscription_reads_through_witness :
  let req := Scenario.post "verify_subscription" (Js.decimal 2999 2) in
  @StripeConfig.handler Scenario.platform Scenario.gateway req
    (Scenario.start Scenario.store2)
  = (Js.Normal (StripeConfig.ok
       [("status", VStr "active"); ("currentPeriodEnd", VNum 1702592000);
        ("cancelAtPeriodEnd", VBool false)]),
     after (Scenario.start Scenario.store2)
       [Call (subscriptions_retrieve "sub_1" "acct_1")]).
Proof.
  cbv zeta.
  apply (@verify_subscription_reads_through Scenario.platform Scenario.gateway
           (Scenario.post "verify_subscription" (Js.decimal 2999 2))
           (Scenario.start Scenario.store2));
    reflexivity.
Defined.

Lemma connect_status_absent_witness :
  let req := Scenario.post "get_connect_status" (Js.decimal 2999 2) in
  data (single (select Scenario.store2 "creator_connect_accounts" (connect_of "u1")))
  = None
  /\ @StripeConfig.handler Scenario.platform Scenario.gateway req
       (Scenario.start Scenario.store2)
     = (Js.Normal (StripeConfig.ok [("exists", VBool false)]),
        after (Scenario.start Scenario.store2)
          [Select "creator_connect_accounts" (connect_of "u1")]).
Proof.
  cbv zeta.
  assert (Hnone : data (single (select Scenario.store2 "creator_connect_accounts"
                                  (connect_of "u1"))) = None)
    by (vm_compute; reflexivity).
  split; [exact Hnone |].
  apply (@connect_status_absent Scenario.platform Scenario.gateway
           (Scenario.post "get_connect_status" (Js.decimal 2999 2))
           (Scenario.start Scenario.store2));
    [reflexivity | reflexivity | exact Hnone].
Defined.

Definition post_as (user action : string) : StripeConfig.request :=
  {| StripeConfig.method := "POST";
     StripeConfig.origin := Some "https://eringptbuilder.com";
     StripeConfig.action := action;
     StripeConfig.data_ :=
       {| StripeConfig.userId := user;
          StripeConfig.email := "creator@example.com";
          StripeConfig.gptId := "gpt_1";
          StripeConfig.creatorId := "creator_2";
          StripeConfig.monthlyPrice := Js.decimal 2999 2;
          StripeConfig.subscriptionId := "sub_1";
          StripeConfig.stripeAccountId := "acct_1" |} |}.


(** *** create_connect_account *)

Section ConnectAccount.
Context `{Platform} `{Stripe}.

(** The account id the store already holds for the user, if the query
    gives one row and its id is a non-empty string. *)
Definition stored_account (d : database) (user : string) : option string :=
  match data (single (select d "creator_connect_accounts" (connect_of user))) with
  | Some r => if truthy (r !! "stripe_account_id")
              then text_of (r !! "stripe_account_id") else None
  | None => None
  end.

Definition refresh_url (req : StripeConfig.request) : string :=
  Js.template (StripeConfig.origin req) ++ "/creator-dashboard?setup=refresh".

Definition return_url (req : StripeConfig.request) : string :=
  Js.template (StripeConfig.origin req) ++ "?connect=success".

(** X13.  When the store already holds an account id for the user,
    create_connect_account creates no account and writes nothing: its
    one gateway call asks for a fresh onboarding link for that id, and
    the answer carries the id and the link (or 500 with the message when
    the call throws). *)
Theorem connect_account_reused (req : StripeConfig.request) (w : world)
    (accountId : string) :
  StripeConfig.method req = "POST" ->
  StripeConfig.action req = "create_connect_account" ->
  let user := StripeConfig.userId (StripeConfig.data_ req) in
  stored_account (db w) user = Some accountId ->
  StripeConfig.handler req w
  = (Js.Normal
       match on_accountLinks_create accountId (refresh_url req) (return_url req) with
       | Js.Normal link =>
           StripeConfig.ok [("accountId", VStr accountId); ("onboardingUrl", VStr link)]
       | Js.Throw message => internal_error message
       end,
     after w [Select "creator_connect_accounts" (connect_of user);
              Call (accountLinks_create accountId (refresh_url req) (return_url req))]).
Proof.
  intros Hm Ha user Hstored. subst user.
  unfold StripeConfig.handler. rewrite Hm, Ha. dispatch_action.
  unfold StripeConfig.createConnectAccount. run_eff.
  unfold stored_account, connect_of in Hstored. rewrite Hstored. run_eff.
  fold (refresh_url req) (return_url req).
  unfold after. rewrite <- app_assoc.
  destruct (on_accountLinks_create _ _ _); reflexivity.
Qed.

Definition new_account_row (user accountId : string) : row :=
  <["user_id" := VStr user]>
  (<["stripe_account_id" := VStr accountId]>
  (<["onboarding_complete" := VBool false]>
  (<["charges_enabled" := VBool false]>
  (<["payouts_enabled" := VBool false]> ∅)))).

(** X14.  When the store holds no account id for the user,
    create_connect_account creates an account at the gateway, upserts a
    row with the user, the new id and the three flags false, and then
    asks for the onboarding link.  After it the table holds a row with
    those five columns, whether or not the link call succeeds.  When the
    creation itself throws, the answer is 500 with the message, nothing
    is written and no link is asked for. *)
Theorem connect_account_created (req : StripeConfig.request) (w : world) :
  StripeConfig.method req = "POST" ->
  StripeConfig.action req = "create_connect_account" ->
  let d := StripeConfig.data_ req in
  let user := StripeConfig.userId d in
  stored_account (db w) user = None ->
  let out := StripeConfig.handler req w in
  match on_accounts_create (StripeConfig.email d) (<["userId" := user]> ∅) with
  | Js.Normal accountId =>
      trace out.2
      = (trace w
         ++ [Select "creator_connect_accounts" (connect_of user);
             Call (accounts_create (StripeConfig.email d) (<["userId" := user]> ∅));
             Upsert "creator_connect_accounts" (new_account_row user accountId);
             Call (accountLinks_create accountId (refresh_url req) (return_url req))])%list
      /\ (exists r, In r (from (db out.2) "creator_connect_accounts")
            /\ r !! "user_id" = Some (VStr user)
            /\ r !! "stripe_account_id" = Some (VStr accountId)
            /\ r !! "onboarding_complete" = Some (VBool false)
            /\ r !! "charges_enabled" = Some (VBool false)
            /\ r !! "payouts_enabled" = Some (VBool false))
      /\ (forall link,
            on_accountLinks_create accountId (refresh_url req) (return_url req)
              = Js.Normal link ->
            out.1 = Js.Normal (StripeConfig.ok [("accountId", VStr accountId);
                                                ("onboardingUrl", VStr link)]))
  | Js.Throw message =>
      StripeConfig.handler req w
      = (Js.Normal (internal_error message),
         after w [Select "creator_connect_accounts" (connect_of user);
                  Call (accounts_create (StripeConfig.email d) (<["userId" := user]> ∅))])
  end.
Proof.
  intros Hm Ha d user Hstored out. subst d user out.
  unfold StripeConfig.handler. rewrite Hm, Ha. dispatch_action.
  unfold StripeConfig.createConnectAccount. run_eff.
  unfold stored_account, connect_of in Hstored. rewrite Hstored. run_eff.
  destruct (on_accounts_create _ _) as [accountId | message]; run_eff.
  2:{ unfold after. rewrite <- app_assoc. reflexivity. }
  fold (refresh_url req) (return_url req)
       (new_account_row (StripeConfig.userId (StripeConfig.data_ req)) accountId).
  split; [| split].
  - destruct (on_accountLinks_create _ _ _); run_eff;
      rewrite <- !app_assoc; reflexivity.
  - destruct (upsert_recorded (primary_key "creator_connect_accounts") (db w)
                "creator_connect_accounts"
                (new_account_row (StripeConfig.userId (StripeConfig.data_ req)) accountId))
      as [r [Hin Hcols]].
    exists r. split.
    + destruct (on_accountLinks_create _ _ _); exact Hin.
    + unfold new_account_row in Hcols.
      repeat split; apply Hcols;
        rewrite ?lookup_insert_ne by discriminate; apply lookup_insert_eq.
  - intros link Hlink. rewrite Hlink. reflexivity.
Qed.

End ConnectAccount.

Lemma connect_account_reused_witness :
  let req := post_as "creator_1" "create_connect_account" in
  @stored_account Scenario.store2 "creator_1" = Some "acct_1"
  /\ @StripeConfig.handler Scenario.platform Scenario.gateway req
       (Scenario.start Scenario.store2)
     = (Js.Normal (StripeConfig.ok
          [("accountId", VStr "acct_1");
           ("onboardingUrl", VStr "https://connect.stripe.com/setup/acct_1")]),
        after (Scenario.start Scenario.store2)
          [Select "creator_connect_accounts" (connect_of "creator_1");
           Call (accountLinks_create "acct_1" (refresh_url req) (return_url req))]).
Proof.
  cbv zeta.
  assert (Hstored : stored_account Scenario.store2 "creator_1" = Some "acct_1")
    by (vm_compute; reflexivity).
  split; [exact Hstored |].
  exact (@connect_account_reused Scenario.platform Scenario.gateway
           (post_as "creator_1" "create_connect_account")
           (Scenario.start Scenario.store2) "acct_1" eq_refl eq_refl Hstored).
Defined.

Lemma connect_account_created_witness :
  let req := post_as "u1" "create_connect_account" in
  let out := @StripeConfig.handler Scenario.platform Scenario.gateway req
               (Scenario.start Scenario.store2) in
  stored_account Scenario.store2 "u1" = None
  /\ trace out.2
     = [Select "creator_connect_accounts" (connect_of "u1");
        Call (accounts_create "creator@example.com" (<["userId" := "u1"]> ∅));
        Upsert "creator_connect_accounts" (new_account_row "u1" "acct_1");
        Call (accountLinks_create "acct_1" (refresh_url req) (return_url req))]
  /\ (exists r, In r (from (db out.2) "creator_connect_accounts")
        /\ r !! "user_id" = Some (VStr "u1")
        /\ r !! "stripe_account_id" = Some (VStr "acct_1")
        /\ r !! "onboarding_complete" = Some (VBool false)
        /\ r !! "charges_enabled" = Some (VBool false)
        /\ r !! "payouts_enabled" = Some (VBool false))
  /\ (forall link,
        @on_accountLinks_create Scenario.gateway "acct_1" (refresh_url req) (return_url req)
          = Js.Normal link ->
        out.1 = Js.Normal (StripeConfig.ok [("accountId", VStr "acct_1");
                                            ("onboardingUrl", VStr link)])).
Proof.
  cbv zeta.
  assert (Hstored : stored_account Scenario.store2 "u1" = None)
    by (vm_compute; reflexivity).
  split; [exact Hstored |].
  exact (@connect_account_created Scenario.platform Scenario.gateway
           (post_as "u1" "create_connect_account")
           (Scenario.start Scenario.store2) eq_refl eq_refl Hstored).
Defined.

(** *** create_customer_subscription: the refusals *)

Section CustomerRefusals.
Context `{Platform} `{Stripe}.

Definition setup_incomplete : response :=
  StripeConfig.bad_request "Creator payment setup not complete".
Definition already_subscribed : response :=
  StripeConfig.bad_request "Already subscribed to this GPT".
Definition gpt_not_found : response := StripeConfig.bad_request "GPT not found".

Definition subscription_of (user gpt : string) : filter :=
  [("customer_id", user); ("gpt_id", gpt); ("status", "active")].

(** What [.single()] makes of the creator's connect account: exactly one
    row of the creator, and its onboarding_complete is truthy. *)
Definition ready (d : database) (creator : string) : Prop :=
  exists account,
    select d "creator_connect_accounts" (connect_of creator) = [account]
    /\ truthy (account !! "onboarding_complete") = true.

(** [.single()] gives a row exactly for a result of one row. *)
Lemma single_row (rows : table) (r : row) :
  data (single rows) = Some r <-> rows = [r].
Proof.
  destruct rows as [| r0 [| r1 rows]]; cbn [single data]; split;
    intros Heq; try discriminate Heq; congruence.
Qed.

Lemma single_error (rows : table) :
  error (single rows) = false <-> exists r, rows = [r].
Proof.
  destruct rows as [| r0 [| r1 rows]]; cbn [single error]; split;
    try discriminate; try (intros [r Hr]; discriminate Hr); eauto.
Qed.

(** X15.  create_customer_subscription makes three lookups, each with
    [.single()], in this order, and refuses with 400 and a message of
    its own, after store queries only (no gateway call, no write):
    - 'Creator payment setup not complete' unless the creator has
      exactly one connect-account row and its onboarding_complete is
      truthy;
    - 'Already subscribed to this GPT' when the customer has exactly one
      active subscription row for the listing;
    - 'GPT not found' unless the listing has exactly one row.
    With no active row, or with several, the second lookup yields no row
    and the check passes: when the listing is found the handler goes on
    to create a customer at the gateway, the store being as it was. *)
Theorem customer_subscription_refusals (req : StripeConfig.request) (w : world) :
  StripeConfig.method req = "POST" ->
  StripeConfig.action req = "create_customer_subscription" ->
  let d := StripeConfig.data_ req in
  let q1 := Select "creator_connect_accounts" (connect_of (StripeConfig.creatorId d)) in
  let q2 := Select "customer_subscriptions"
              (subscription_of (StripeConfig.userId d) (StripeConfig.gptId d)) in
  let q3 := Select "user_gpts" [("id", StripeConfig.gptId d)] in
  let subscriptions :=
    select (db w) "customer_subscriptions"
      (subscription_of (StripeConfig.userId d) (StripeConfig.gptId d)) in
  let listings := select (db w) "user_gpts" [("id", StripeConfig.gptId d)] in
  (~ ready (db w) (StripeConfig.creatorId d) ->
   StripeConfig.handler req w = (Js.Normal setup_incomplete, after w [q1]))
  /\ (ready (db w) (StripeConfig.creatorId d) ->
      (exists r, subscriptions = [r]) ->
      StripeConfig.handler req w = (Js.Normal already_subscribed, after w [q1; q2]))
  /\ (ready (db w) (StripeConfig.creatorId d) ->
      (forall r, subscriptions ≠ [r]) ->
      (forall g, listings ≠ [g]) ->
      StripeConfig.handler req w = (Js.Normal gpt_not_found, after w [q1; q2; q3]))
  /\ (forall account g,
        select (db w) "creator_connect_accounts" (connect_of (StripeConfig.creatorId d))
        = [account] ->
        truthy (account !! "onboarding_complete") = true ->
        (forall r, subscriptions ≠ [r]) ->
        listings = [g] ->
        let out := StripeConfig.handler req w in
        (exists rest,
           trace out.2
           = (trace w
              ++ [q1; q2; q3;
                  Call (customers_create (StripeConfig.email d) (ids d)
                          (text_of (account !! "stripe_account_id")))]
              ++ rest)%list)
        /\ db out.2 = db w
        /\ out.1 ≠ Js.Normal already_subscribed).
Proof.
  intros Hm Ha. cbv zeta.
  unfold StripeConfig.handler. rewrite Hm, Ha. dispatch_action.
  unfold StripeConfig.createCustomerSubscription, ready, connect_of, subscription_of, ids.
  run_eff.
  split; [| split; [| split]].
  - intros Hno.
    destruct (select (db w) "creator_connect_accounts" _) as [| a [| a' accounts]];
      cbn [single data error orb negb]; try reflexivity.
    destruct (truthy (a !! "onboarding_complete")) eqn:Hdone; [| reflexivity].
    exfalso. apply Hno. exists a. split; [reflexivity | exact Hdone].
  - intros [a [-> Hdone]] [r Hr]. cbn [single data error orb negb].
    rewrite Hdone. cbn [negb]. run_eff. rewrite Hr. cbn [single data].
    unfold after. rewrite <- app_assoc. reflexivity.
  - intros [a [-> Hdone]] Hsubs Hlist. cbn [single data error orb negb].
    rewrite Hdone. cbn [negb]. run_eff.
    destruct (data (single (select (db w) "customer_subscriptions" _))) as [r |] eqn:Hr;
      [apply single_row in Hr; exfalso; exact (Hsubs r Hr) |].
    run_eff.
    destruct (error (single (select (db w) "user_gpts" _))) eqn:Herr.
    + unfold after. rewrite <- !app_assoc. reflexivity.
    + apply single_error in Herr as [g Hg]. exfalso. exact (Hlist g Hg).
  - intros a g -> Hdone Hsubs Hg. cbn [single data error orb negb].
    rewrite Hdone. cbn [negb]. run_eff.
    destruct (data (single (select (db w) "customer_subscriptions" _))) as [r |] eqn:Hr;
      [apply single_row in Hr; exfalso; exact (Hsubs r Hr) |].
    run_eff. rewrite Hg. cbn [single data error].
    unfold StripeConfig.gpt_details.
    repeat (destruct_inner; run_eff);
      (split; [eexists; rewrite <- ?app_assoc; cbn [app]; reflexivity |];
       split; [reflexivity | discriminate]).
Qed.

End CustomerRefusals.

(** The store of the dispatcher scenarios once u1 holds two active
    subscriptions to gpt_1. *)
Definition gpt_subscription (user gpt subscription : string) : row :=
  <["customer_id" := VStr user]>
  (<["gpt_id" := VStr gpt]>
  (<["stripe_subscription_id" := VStr subscription]>
  (<["status" := VStr "active"]> ∅))).

Definition store4 : database :=
  <["customer_subscriptions" :=
      [gpt_subscription "u1" "gpt_1" "sub_5"; gpt_subscription "u1" "gpt_1" "sub_6"]]>
  Scenario.store2.

Lemma customer_subscription_refusals_witness :
  let req := Scenario.post "create_customer_subscription" (Js.decimal 2999 2) in
  let d := StripeConfig.data_ req in
  let out := @StripeConfig.handler Scenario.platform Scenario.gateway req
               (Scenario.start store4) in
  select store4 "customer_subscriptions" (subscription_of "u1" "gpt_1")
  = [gpt_subscription "u1" "gpt_1" "sub_5"; gpt_subscription "u1" "gpt_1" "sub_6"]
  /\ (exists rest,
        trace out.2
        = ([Select "creator_connect_accounts" (connect_of "creator_1");
            Select "customer_subscriptions" (subscription_of "u1" "gpt_1");
            Select "user_gpts" [("id", "gpt_1")];
            Call (customers_create "u1@example.com" (ids d) (Some "acct_1"))]
           ++ rest)%list)
  /\ db out.2 = store4
  /\ out.1 ≠ Js.Normal already_subscribed.
Proof.
  cbv zeta.
  assert (Hsubs : select store4 "customer_subscriptions" (subscription_of "u1" "gpt_1")
                  = [gpt_subscription "u1" "gpt_1" "sub_5";
                     gpt_subscription "u1" "gpt_1" "sub_6"])
    by (vm_compute; reflexivity).
  split; [exact Hsubs |].
  destruct (@customer_subscription_refusals Scenario.platform Scenario.gateway
              (Scenario.post "create_customer_subscription" (Js.decimal 2999 2))
              (Scenario.start store4) eq_refl eq_refl) as [_ [_ [_ Hpass]]].
  apply (Hpass Scenario.connect_row Scenario.gpt_row).
  - vm_compute. reflexivity.
  - vm_compute. reflexivity.
  - intros r Hr. cbn [db Scenario.start StripeConfig.data_ Scenario.post
                      StripeConfig.userId StripeConfig.gptId Scenario.payload1] in Hr.
    rewrite Hsubs in Hr. discriminate Hr.
  - vm_compute. reflexivity.
Defined.

(** ** Refusals come before any effect *)

Section Refusals.
Context `{Platform} `{Stripe}.

(** A store query: neither a write nor a call. *)
Definition is_query (e : effect) : Prop :=
  match e with Select _ _ => True | _ => False end.

Ltac leaf :=
  intros resp w' [= <- <-]; cbn [Http.status StripeConfig.ok StripeConfig.bad_request];
  intros [Hs | Hs]; try discriminate Hs;
  (split; [reflexivity |]);
  first [ exists []; split; [symmetry; apply app_nil_r | constructor]
        | eexists; split; [rewrite <- ?app_assoc; reflexivity |];
          repeat (constructor; [exact I |]); constructor ].

(** X16.  In the dispatcher a 400 or 405 answer is given before anything is
    done: the store is as it was, and the operations issued are store
    queries only, no write and no gateway call.  This holds for every
    action and every method. *)
Theorem refusal_without_effect (req : StripeConfig.request) (w : world) :
  forall resp w',
    StripeConfig.handler req w = (Js.Normal resp, w') ->
    Http.status resp = 400 \/ Http.status resp = 405 ->
    db w' = db w
    /\ exists queries, trace w' = (trace w ++ queries)%list /\ Forall is_query queries.
Proof.
  unfold StripeConfig.handler.
  destruct (String.eqb (StripeConfig.method req) "OPTIONS"); [run_eff; leaf |].
  destruct (negb (String.eqb (StripeConfig.method req) "POST")); [run_eff; leaf |].
  destruct (String.eqb (StripeConfig.action req) "create_creator_subscription").
  { unfold StripeConfig.createCreatorSubscription. run_eff.
    repeat (destruct_inner; run_eff); leaf. }
  destruct (String.eqb (StripeConfig.action req) "create_connect_account").
  { unfold StripeConfig.createConnectAccount. run_eff.
    repeat (destruct_inner; run_eff); leaf. }
  destruct (String.eqb (StripeConfig.action req) "create_customer_subscription").
  { unfold StripeConfig.createCustomerSubscription, StripeConfig.gpt_details. run_eff.
    repeat (destruct_inner; run_eff); leaf. }
  destruct (String.eqb (StripeConfig.action req) "verify_subscription").
  { unfold StripeConfig.verifySubscription. run_eff.
    repeat (destruct_inner; run_eff); leaf. }
  destruct (String.eqb (StripeConfig.action req) "get_connect_status").
  { unfold StripeConfig.getConnectStatus. run_eff.
    repeat (destruct_inner; run_eff); leaf. }
  run_eff. leaf.
Qed.

End Refusals.

Lemma refusal_without_effect_witness :
  let req := post_as "u1" "delete_everything" in
  let w := Scenario.start Scenario.store2 in
  @StripeConfig.handler Scenario.platform Scenario.gateway req w
  = (Js.Normal (StripeConfig.bad_request "Invalid action"), w)
  /\ db w = db w
  /\ exists queries, trace w = (trace w ++ queries)%list /\ Forall is_query queries.
Proof.
  cbv zeta.
  assert (Hrun : @StripeConfig.handler Scenario.platform Scenario.gateway
                   (post_as "u1" "delete_everything") (Scenario.start Scenario.store2)
                 = (Js.Normal (StripeConfig.bad_request "Invalid action"),
                    Scenario.start Scenario.store2)) by reflexivity.
  split; [exact Hrun |].
  apply (@refusal_without_effect Scenario.platform Scenario.gateway
           (post_as "u1" "delete_everything") (Scenario.start Scenario.store2)
           (StripeConfig.bad_request "Invalid action") (Scenario.start Scenario.store2)
           Hrun).
  left. reflexivity.
Defined.

(** *** create_creator_subscription at the gateway *)

Section CreatorGateway.
Context `{Platform} `{Stripe}.

(** The checkout session create_creator_subscription asks for. *)
Definition creator_session (req : StripeConfig.request) (customer : string)
    : session_params :=
  {| Gateway.customer := customer;
     product_name := "Creator Subscription";
     product_description :=
       Some "Monthly subscription to monetize your GPTs on the marketplace";
     unit_amount := Some 1900;
     success_url := Js.template (StripeConfig.origin req) ++ "?creator_subscription=success";
     cancel_url := Js.template (StripeConfig.origin req) ++ "?creator_subscription=cancelled";
     subscription_data_ := None;
     session_params_metadata :=
       <["userId" := StripeConfig.userId (StripeConfig.data_ req)]>
       (<["type" := "creator_subscription"]> ∅) |}.

(** X17.  When the duplicate check passes and the gateway already lists a
    customer for the email, create_creator_subscription creates no
    customer: it asks for a checkout session for the first customer
    listed, tagged creator_subscription with the user, and answers with
    the session and that customer.  It writes nothing to the store: the
    row is left to the webhook. *)
Theorem creator_subscription_reuses_customer (req : StripeConfig.request) (w : world)
    (c : string) (cs : list string) (session : checkout_session) :
  StripeConfig.method req = "POST" ->
  StripeConfig.action req = "create_creator_subscription" ->
  let d := StripeConfig.data_ req in
  data (single (select (db w) "creator_subscriptions"
                  (active_of (StripeConfig.userId d)))) = None ->
  on_customers_list (StripeConfig.email d) = Js.Normal (c :: cs) ->
  on_checkout_sessions_create (creator_session req c) None = Js.Normal session ->
  StripeConfig.handler req w
  = (Js.Normal (StripeConfig.ok [("sessionId", VStr (checkout_session_id session));
                                 ("customerId", VStr c);
                                 ("url", VStr (url session))]),
     after w [Select "creator_subscriptions" (active_of (StripeConfig.userId d));
              Call (customers_list (StripeConfig.email d));
              Call (checkout_sessions_create (creator_session req c) None)]).
Proof.
  intros Hm Ha d Hnone Hlist Hsession. subst d.
  unfold StripeConfig.handler. rewrite Hm, Ha. dispatch_action.
  unfold StripeConfig.createCreatorSubscription. run_eff.
  unfold active_of in Hnone. rewrite Hnone, Hlist. run_eff.
  fold (creator_session req c). rewrite Hsession.
  unfold after. rewrite <- !app_assoc. reflexivity.
Qed.

(** X18.  When a gateway call of create_creator_subscription throws, the
    answer is 500 with the thrown message and no later call is made: a
    failed customer lookup is followed by no customer creation and no
    checkout session, a failed customer creation by no checkout
    session. *)
Theorem creator_subscription_gateway_failure (req : StripeConfig.request) (w : world)
    (message : string) :
  StripeConfig.method req = "POST" ->
  StripeConfig.action req = "create_creator_subscription" ->
  let d := StripeConfig.data_ req in
  data (single (select (db w) "creator_subscriptions"
                  (active_of (StripeConfig.userId d)))) = None ->
  resolved_customer d = Js.Throw message ->
  let out := StripeConfig.handler req w in
  out.1 = Js.Normal (internal_error message)
  /\ db out.2 = db w
  /\ forall p account, ~ In (Call (checkout_sessions_create p account)) (trace w) ->
       ~ In (Call (checkout_sessions_create p account)) (trace out.2).
Proof.
  intros Hm Ha d Hnone Hthrow. subst d. cbv zeta.
  unfold StripeConfig.handler. rewrite Hm, Ha. dispatch_action.
  unfold StripeConfig.createCreatorSubscription. run_eff.
  unfold active_of in Hnone. rewrite Hnone. run_eff.
  unfold resolved_customer in Hthrow.
  destruct (on_customers_list _) as [[| c cs] | m]; run_eff.
  - rewrite Hthrow. run_eff. split; [reflexivity |]. split; [reflexivity |].
    intros p account Hnot Hin.
    rewrite !in_app_iff in Hin. cbn [In] in Hin.
    destruct Hin as [[[Hin | [Hin | []]] | [Hin | []]] | [Hin | []]];
      first [contradiction | discriminate Hin].
  - discriminate Hthrow.
  - injection Hthrow as ->. split; [reflexivity |]. split; [reflexivity |].
    intros p account Hnot Hin.
    rewrite !in_app_iff in Hin. cbn [In] in Hin.
    destruct Hin as [[Hin | [Hin | []]] | [Hin | []]];
      first [contradiction | discriminate Hin].
Qed.

End CreatorGateway.

(** A gateway that already lists two customers for every email, and one
    whose customer lookup throws. *)
Definition listing_gateway : Stripe := {|
  on_constructEvent := @on_constructEvent Scenario.gateway;
  on_customers_list := fun _ => Js.Normal ["cus_7"; "cus_8"];
  on_customers_create := @on_customers_create Scenario.gateway;
  on_checkout_sessions_create := @on_checkout_sessions_create Scenario.gateway;
  on_accounts_create := @on_accounts_create Scenario.gateway;
  on_accountLinks_create := @on_accountLinks_create Scenario.gateway;
  on_subscriptions_retrieve := @on_subscriptions_retrieve Scenario.gateway;
  on_accounts_retrieve := @on_accounts_retrieve Scenario.gateway |}.

Definition failing_gateway : Stripe := {|
  on_constructEvent := @on_constructEvent Scenario.gateway;
  on_customers_list := fun _ => Js.Throw "Invalid API Key provided";
  on_customers_create := @on_customers_create Scenario.gateway;
  on_checkout_sessions_create := @on_checkout_sessions_create Scenario.gateway;
  on_accounts_create := @on_accounts_create Scenario.gateway;
  on_accountLinks_create := @on_accountLinks_create Scenario.gateway;
  on_subscriptions_retrieve := @on_subscriptions_retrieve Scenario.gateway;
  on_accounts_retrieve := @on_accounts_retrieve Scenario.gateway |}.

Lemma creator_subscription_reuses_customer_witness :
  let req := Scenario.post "create_creator_subscription" (Js.decimal 2999 2) in
  let w := Scenario.start Scenario.store3 in
  @StripeConfig.handler Scenario.platform listing_gateway req w
  = (Js.Normal (StripeConfig.ok
       [("sessionId", VStr "cs_1");
        ("customerId", VStr "cus_7");
        ("url", VStr "https://checkout.stripe.com/c/pay/cs_1")]),
     after w [Select "creator_subscriptions" (active_of "u1");
              Call (customers_list "u1@example.com");
              Call (checkout_sessions_create
                      (@creator_session
                         (Scenario.post "create_creator_subscription" (Js.decimal 2999 2))
                         "cus_7") None)]).
Proof.
  cbv zeta.
  assert (Hnone : data (single (select Scenario.store3 "creator_subscriptions"
                                  (active_of "u1"))) = None)
    by (vm_compute; reflexivity).
  exact (@creator_subscription_reuses_customer Scenario.platform listing_gateway
           (Scenario.post "create_creator_subscription" (Js.decimal 2999 2))
           (Scenario.start Scenario.store3) "cus_7" ["cus_8"]
           {| checkout_session_id := "cs_1";
              url := "https://checkout.stripe.com/c/pay/cs_1" |}
           eq_refl eq_refl Hnone eq_refl eq_refl).
Defined.

Lemma creator_subscription_gateway_failure_witness :
  let req := Scenario.post "create_creator_subscription" (Js.decimal 2999 2) in
  let w := Scenario.start Scenario.store3 in
  let out := @StripeConfig.handler Scenario.platform failing_gateway req w in
  out.1 = Js.Normal (internal_error "Invalid API Key provided")
  /\ db out.2 = db w
  /\ forall p account, ~ In (Call (checkout_sessions_create p account)) (trace w) ->
       ~ In (Call (checkout_sessions_create p account)) (trace out.2).
Proof.
  cbv zeta.
  assert (Hnone : data (single (select Scenario.store3 "creator_subscriptions"
                                  (active_of "u1"))) = None)
    by (vm_compute; reflexivity).
  exact (@creator_subscription_gateway_failure Scenario.platform failing_gateway
           (Scenario.post "create_creator_subscription" (Js.decimal 2999 2))
           (Scenario.start Scenario.store3) "Invalid API Key provided"
           eq_refl eq_refl Hnone eq_refl).
Defined.

(** ** The chat proxy and its replies *)

Section ProxyReplies.
Context `{Platform} `{Api}.

Lemma accepted_not_rejected (messages : Js.value) :
  negb (Js.truthy messages) || negb (Js.isArray messages)
  || (length (Js.elements messages) =? 0)%nat = false ->
  ~ rejected messages.
Proof.
  intros Hguard Hrej. apply rejected_guard in Hrej. congruence.
Qed.

(** X19.  Whatever the request, the key and the completion API do,
    [api/chat.js] answers (no exception leaves the handler) with 200,
    400, 405 or 500, never touches the store, and calls the completion
    API at most once; a call is made only with a configured key and an
    accepted messages field, and it is the request the handler builds
    from them. *)
Theorem chat_calls_at_most_once (apiKey : option string) (req : Chat.request)
    (w : world) :
  exists resp w',
    Chat.handler apiKey req w = (Js.Normal resp, w')
    /\ In (Http.status resp) [200; 400; 405; 500]
    /\ db w' = db w
    /\ (trace w' = trace w
        \/ exists key, apiKey = Some key /\ Js.truthy_string key = true
             /\ ~ rejected (Chat.messages_ req)
             /\ trace w' = (trace w ++ [Fetch (Chat.outgoing key req)])%list).
Proof.
  unfold Chat.handler.
  destruct (String.eqb (Chat.method req) "OPTIONS");
    [do 2 eexists; split; [reflexivity |]; cbn; auto |].
  destruct (negb (String.eqb (Chat.method req) "POST"));
    [do 2 eexists; split; [reflexivity |]; cbn; auto 6 |].
  destruct apiKey as [key |];
    [| do 2 eexists; split; [reflexivity |]; cbn; auto 6].
  destruct (Js.truthy_string key) eqn:Hkey; cbn [negb];
    [| do 2 eexists; split; [reflexivity |]; cbn; auto 6].
  destruct (Chat.body_ req) eqn:Hbody;
    [do 2 eexists; split; [reflexivity |]; cbn; auto 6 |].
  destruct (negb (Js.truthy (Chat.messages_ req)) || negb (Js.isArray (Chat.messages_ req))
            || (length (Js.elements (Chat.messages_ req)) =? 0)%nat) eqn:Hguard;
    [do 2 eexists; split; [reflexivity |]; cbn; auto 6 |].
  apply accepted_not_rejected in Hguard.
  unfold Chat.error_message, Chat.invalid_structure, Chat.respond. run_eff.
  repeat (destruct_inner; run_eff);
    (do 2 eexists; split; [reflexivity |]; cbn [Http.status db trace];
     split; [cbn; auto 6 |]; split; [reflexivity |];
     right; exists key; auto).
Qed.

(** X20.  When the completion API answers with a status that is not ok and a
    JSON object, [api/chat.js] answers 500 and relays the upstream
    message [error.message] as the details; without such a message the
    details are 'API error: ' followed by the upstream status. *)
Theorem upstream_error_relayed (key : string) (req : Chat.request) (w : world)
    (m : Js.value) (ms : list Js.value) (r : reply) (props : list (string * Js.value)) :
  Chat.method req = "POST" ->
  Js.truthy_string key = true ->
  Chat.messages_ req = Js.JArr (m :: ms) ->
  on_fetch (Chat.outgoing key req) = Js.Normal r ->
  ok r = false ->
  parsed r = Js.Normal (Js.JObj props) ->
  let message := Js.get_optional (Js.lookup_prop "error" props) "message" in
  (Chat.handler (Some key) req w).1
  = Js.Normal
      (failed (if Js.truthy message then Js.to_string format message
               else "API error: "
                    ++ Js.to_string format (Js.JNum (Js.num (Completion.status r) 0)))
              (answered_at w)).
Proof.
  intros Hm Hkey Hmsgs Hfetch Hok Hdata. cbv zeta.
  unfold Chat.handler. rewrite Hm. post_action. with_body req Hmsgs.
  rewrite Hkey, Hmsgs.
  cbn [negb Js.truthy Js.isArray Js.elements length Nat.eqb orb].
  run_eff. rewrite Hfetch, Hdata, Hok. cbn [negb].
  unfold Chat.error_message. run_eff. cbn [Js.get]. reflexivity.
Qed.

(** The first choice of a reply. *)
Definition first_choice (props : list (string * Js.value)) : Js.value :=
  match Js.lookup_prop "choices" props with
  | Js.JArr (c :: _) => c
  | _ => Js.JUndefined
  end.

(** X21.  When the completion API answers ok with a JSON object whose choices
    are an array and whose first choice carries a message, [api/chat.js]
    answers 200 with that message's content, the upstream model, and the
    upstream usage (an empty object when there is none). *)
Theorem completion_relayed (key : string) (req : Chat.request) (w : world)
    (m : Js.value) (ms : list Js.value) (r : reply) (props : list (string * Js.value))
    (c : Js.value) (cs : list Js.value) :
  Chat.method req = "POST" ->
  Js.truthy_string key = true ->
  Chat.messages_ req = Js.JArr (m :: ms) ->
  on_fetch (Chat.outgoing key req) = Js.Normal r ->
  ok r = true ->
  parsed r = Js.Normal (Js.JObj props) ->
  Js.lookup_prop "choices" props = Js.JArr (c :: cs) ->
  let message := Js.get_optional c "message" in
  let usage := Js.lookup_prop "usage" props in
  Js.truthy message = true ->
  (Chat.handler (Some key) req w).1
  = Js.Normal
      {| Http.status := 200;
         sent := json_values
           [("success", Js.JBool true);
            ("message", Js.get_optional message "content");
            ("model", Js.lookup_prop "model" props);
            ("usage", if Js.truthy usage then usage else Js.JObj [])] |}.
Proof.
  intros Hm Hkey Hmsgs Hfetch Hok Hdata Hchoices message usage Hmessage.
  subst message usage.
  unfold Chat.handler. rewrite Hm. post_action. with_body req Hmsgs.
  rewrite Hkey, Hmsgs.
  cbn [negb Js.truthy Js.isArray Js.elements length Nat.eqb orb].
  run_eff. rewrite Hfetch, Hdata, Hok. cbn [negb].
  unfold Chat.invalid_structure, Chat.respond. run_eff.
  cbn [Js.get]. rewrite Hchoices. cbn [Js.truthy negb Js.first].
  destruct c as [| | b | x | s | items | cprops]; try discriminate Hmessage.
  cbn [Js.truthy negb Js.get Js.get_optional] in *.
  rewrite Hmessage. cbn [negb].
  destruct (Js.lookup_prop "message" cprops) as [| | b | x | s | items | mprops];
    try discriminate Hmessage; reflexivity.
Qed.

(** X22.  When the completion API answers ok with a JSON object that has no
    choices, an empty array of choices, or a first choice without a
    message, [api/chat.js] answers 500 with the details 'Invalid
    response structure from OpenRouter API'. *)
Theorem reply_without_message_refused (key : string) (req : Chat.request) (w : world)
    (m : Js.value) (ms : list Js.value) (r : reply) (props : list (string * Js.value)) :
  Chat.method req = "POST" ->
  Js.truthy_string key = true ->
  Chat.messages_ req = Js.JArr (m :: ms) ->
  on_fetch (Chat.outgoing key req) = Js.Normal r ->
  ok r = true ->
  parsed r = Js.Normal (Js.JObj props) ->
  Js.truthy (Js.lookup_prop "choices" props) = false
  \/ (exists cs, Js.lookup_prop "choices" props = Js.JArr cs
                 /\ Js.truthy (Js.get_optional (first_choice props) "message") = false) ->
  (Chat.handler (Some key) req w).1
  = Js.Normal (failed "Invalid response structure from OpenRouter API" (answered_at w)).
Proof.
  intros Hm Hkey Hmsgs Hfetch Hok Hdata Hshape.
  unfold Chat.handler. rewrite Hm. post_action. with_body req Hmsgs.
  rewrite Hkey, Hmsgs.
  cbn [negb Js.truthy Js.isArray Js.elements length Nat.eqb orb].
  run_eff. rewrite Hfetch, Hdata, Hok. cbn [negb].
  unfold Chat.invalid_structure, Chat.respond. run_eff.
  cbn [Js.get]. unfold first_choice in Hshape.
  destruct Hshape as [Hfalsy | [cs [Hchoices Hnone]]].
  - rewrite Hfalsy. reflexivity.
  - rewrite Hchoices in *. cbn [Js.truthy negb Js.first].
    destruct cs as [| c cs]; [reflexivity |].
    destruct c as [| | b | x | s | items | cprops]; cbn [Js.truthy negb Js.get];
      try reflexivity.
    + destruct b; reflexivity.
    + destruct (negb (Js.is_zero_or_nan x)); reflexivity.
    + destruct (Js.truthy_string s); reflexivity.
    + cbn [Js.get_optional] in Hnone. rewrite Hnone. reflexivity.
Qed.

(** X23.  The earlier copy of the handler treats such replies differently: an
    ok reply whose choices are an empty array, or whose first choice has
    no message content, is answered 200 with the text 'No response
    generated' (and the upstream usage as it is), while an ok reply
    without a choices property is answered 500: reading its first
    element throws. *)
Theorem legacy_reply_without_content (req : Chat.request) (w : world)
    (messages : list Js.value) (r : reply) (props : list (string * Js.value)) :
  Chat.method req = "POST" ->
  Chat.messages_ req = Js.JArr messages ->
  on_fetch (ChatLegacy.outgoing req) = Js.Normal r ->
  ok r = true ->
  parsed r = Js.Normal (Js.JObj props) ->
  ((exists cs, Js.lookup_prop "choices" props = Js.JArr cs)
   /\ Js.truthy (Js.get_optional (Js.get_optional (first_choice props) "message")
                   "content") = false ->
   (ChatLegacy.handler req w).1
   = Js.Normal {| Http.status := 200;
                  sent := json_values
                    [("success", Js.JBool true);
                     ("message", Js.JStr "No response generated");
                     ("usage", Js.lookup_prop "usage" props)] |})
  /\ (Js.lookup_prop "choices" props = Js.JUndefined ->
      exists details,
        (ChatLegacy.handler req w).1
        = Js.Normal {| Http.status := 500;
                       sent := json [("error", VStr "Failed to process request");
                                     ("details", VStr details)] |}).
Proof.
  intros Hm Hmsgs Hfetch Hok Hdata.
  unfold ChatLegacy.handler. rewrite Hm. post_action. with_body req Hmsgs.
  rewrite Hmsgs.
  cbn [negb Js.truthy Js.isArray orb].
  run_eff. rewrite Hfetch, Hdata, Hok. cbn [negb].
  unfold ChatLegacy.reply_text. run_eff. cbn [Js.get].
  unfold first_choice. split.
  - intros [[cs Hchoices] Hnone]. rewrite Hchoices in *. cbn [Js.first].
    destruct cs as [| c cs]; [reflexivity |].
    rewrite Hnone. reflexivity.
  - intros Hmissing. rewrite Hmissing. cbn [Js.first]. eexists. reflexivity.
Qed.

End ProxyReplies.

(** A completion API that refuses every request with 429, and one whose
    ok reply has no choice. *)
Definition limited_api : Api := {|
  on_fetch := fun _ =>
    Js.Normal
      {| ok := false;
         Completion.status := 429;
         parsed := Js.Normal (Js.JObj
           [("error", Js.JObj [("message", Js.JStr "Rate limit exceeded");
                               ("code", Js.JNum (Js.num 429 0))])]) |} |}.

Definition silent_api : Api := {|
  on_fetch := fun _ =>
    Js.Normal
      {| ok := true;
         Completion.status := 200;
         parsed := Js.Normal (Js.JObj
           [("choices", Js.JArr []);
            ("model", Js.JStr "openai/gpt-4o-mini");
            ("usage", Js.JObj [])]) |} |}.

Definition greeting : Chat.request :=
  Scenario.chat (Js.JArr [Scenario.user_turn "Hi"]) None.

Lemma upstream_error_relayed_witness :
  (@Chat.handler Scenario.platform limited_api (Some "sk-or-1") greeting
     (Scenario.start ∅)).1
  = Js.Normal (@failed "Rate limit exceeded"
                 (@answered_at Scenario.platform (Scenario.start ∅))).
Proof.
  exact (@upstream_error_relayed Scenario.platform limited_api "sk-or-1" greeting
           (Scenario.start ∅) (Scenario.user_turn "Hi") []
           {| ok := false;
              Completion.status := 429;
              parsed := Js.Normal (Js.JObj
                [("error", Js.JObj [("message", Js.JStr "Rate limit exceeded");
                                    ("code", Js.JNum (Js.num 429 0))])]) |}
           [("error", Js.JObj [("message", Js.JStr "Rate limit exceeded");
                               ("code", Js.JNum (Js.num 429 0))])]
           eq_refl eq_refl eq_refl eq_refl eq_refl eq_refl).
Defined.

Lemma completion_relayed_witness :
  (@Chat.handler Scenario.platform Scenario.api (Some "sk-or-1") greeting
     (Scenario.start ∅)).1
  = Js.Normal
      {| Http.status := 200;
         sent := json_values
           [("success", Js.JBool true);
            ("message", Js.JStr "Hello!");
            ("model", Js.JStr "openai/gpt-4o-mini");
            ("usage", Js.JObj [])] |}.
Proof.
  exact (@completion_relayed Scenario.platform Scenario.api "sk-or-1" greeting
           (Scenario.start ∅) (Scenario.user_turn "Hi") []
           {| ok := true;
              Completion.status := 200;
              parsed := Js.Normal (Js.JObj
                [("choices", Js.JArr
                    [Js.JObj [("message", Js.JObj [("role", Js.JStr "assistant");
                                                   ("content", Js.JStr "Hello!")])]]);
                 ("model", Js.JStr "openai/gpt-4o-mini");
                 ("usage", Js.JObj [])]) |}
           [("choices", Js.JArr
               [Js.JObj [("message", Js.JObj [("role", Js.JStr "assistant");
                                              ("content", Js.JStr "Hello!")])]]);
            ("model", Js.JStr "openai/gpt-4o-mini");
            ("usage", Js.JObj [])]
           (Js.JObj [("message", Js.JObj [("role", Js.JStr "assistant");
                                          ("content", Js.JStr "Hello!")])])
           []
           eq_refl eq_refl eq_refl eq_refl eq_refl eq_refl eq_refl eq_refl).
Defined.

Lemma reply_without_message_refused_witness :
  (@Chat.handler Scenario.platform silent_api (Some "sk-or-1") greeting
     (Scenario.start ∅)).1
  = Js.Normal (@failed "Invalid response structure from OpenRouter API"
                 (@answered_at Scenario.platform (Scenario.start ∅))).
Proof.
  apply (@reply_without_message_refused Scenario.platform silent_api "sk-or-1" greeting
           (Scenario.start ∅) (Scenario.user_turn "Hi") []
           {| ok := true;
              Completion.status := 200;
              parsed := Js.Normal (Js.JObj
                [("choices", Js.JArr []);
                 ("model", Js.JStr "openai/gpt-4o-mini");
                 ("usage", Js.JObj [])]) |}
           [("choices", Js.JArr []);
            ("model", Js.JStr "openai/gpt-4o-mini");
            ("usage", Js.JObj [])]
           eq_refl eq_refl eq_refl eq_refl eq_refl eq_refl).
  right. exists []. split; reflexivity.
Defined.

Lemma legacy_reply_without_content_witness :
  (@ChatLegacy.handler Scenario.platform silent_api greeting (Scenario.start ∅)).1
  = Js.Normal {| Http.status := 200;
                 sent := json_values
                   [("success", Js.JBool true);
                    ("message", Js.JStr "No response generated");
                    ("usage", Js.JObj [])] |}.
Proof.
  apply (@legacy_reply_without_content Scenario.platform silent_api greeting
           (Scenario.start ∅) [Scenario.user_turn "Hi"]
           {| ok := true;
              Completion.status := 200;
              parsed := Js.Normal (Js.JObj
                [("choices", Js.JArr []);
                 ("model", Js.JStr "openai/gpt-4o-mini");
                 ("usage", Js.JObj [])]) |}
           [("choices", Js.JArr []);
            ("model", Js.JStr "openai/gpt-4o-mini");
            ("usage", Js.JObj [])]
           eq_refl eq_refl eq_refl eq_refl eq_refl).
  split; [exists []; reflexivity | reflexivity].
Defined.

(** ** From the checkout session to the recorded subscription *)

Section CheckoutRoundTrip.
Context `{Platform} `{Stripe}.

(** The metadata the two subscription actions attach to a session. *)
Definition creator_metadata (d : StripeConfig.payload) : metadata :=
  <["userId" := StripeConfig.userId d]> (<["type" := "creator_subscription"]> ∅).

Definition customer_metadata (d : StripeConfig.payload) : metadata :=
  <["type" := "customer_subscription"]>
  (<["userId" := StripeConfig.userId d]>
  (<["gptId" := StripeConfig.gptId d]>
  (<["creatorId" := StripeConfig.creatorId d]> ∅))).

Ltac session_call Hnot :=
  intros Hin; rewrite ?in_app_iff in Hin; cbn [In] in Hin;
  repeat match goal with
  | H : _ \/ _ |- _ => destruct H
  | H : False |- _ => destruct H
  | H : In _ (trace _) |- _ => exact (False_ind _ (Hnot H))
  | H : @eq effect _ _ |- _ =>
      first [ discriminate H
            | injection H as <- <-;
              solve [ left; split; reflexivity | right; split; reflexivity ] ]
  end.

(** Whatever the action, a checkout session the dispatcher asks for
    carries the metadata of its action. *)
Lemma session_call_metadata (req : StripeConfig.request) (w : world)
    (p : session_params) (account : option string) :
  ~ In (Call (checkout_sessions_create p account)) (trace w) ->
  In (Call (checkout_sessions_create p account)) (trace (StripeConfig.handler req w).2) ->
  (StripeConfig.action req = "create_creator_subscription"
   /\ session_params_metadata p = creator_metadata (StripeConfig.data_ req))
  \/ (StripeConfig.action req = "create_customer_subscription"
      /\ session_params_metadata p = customer_metadata (StripeConfig.data_ req)).
Proof.
  intros Hnot. unfold StripeConfig.handler.
  destruct (String.eqb (StripeConfig.method req) "OPTIONS"); [run_eff; session_call Hnot |].
  destruct (negb (String.eqb (StripeConfig.method req) "POST"));
    [run_eff; session_call Hnot |].
  destruct (String.eqb (StripeConfig.action req) "create_creator_subscription") eqn:Ha1.
  { apply String.eqb_eq in Ha1. rewrite Ha1.
    unfold StripeConfig.createCreatorSubscription. run_eff.
    repeat (destruct_inner; run_eff); session_call Hnot. }
  destruct (String.eqb (StripeConfig.action req) "create_connect_account").
  { unfold StripeConfig.createConnectAccount. run_eff.
    repeat (destruct_inner; run_eff); session_call Hnot. }
  destruct (String.eqb (StripeConfig.action req) "create_customer_subscription") eqn:Ha3.
  { apply String.eqb_eq in Ha3. rewrite Ha3.
    unfold StripeConfig.createCustomerSubscription, StripeConfig.gpt_details. run_eff.
    repeat (destruct_inner; run_eff); session_call Hnot. }
  destruct (String.eqb (StripeConfig.action req) "verify_subscription").
  { unfold StripeConfig.verifySubscription. run_eff.
    repeat (destruct_inner; run_eff); session_call Hnot. }
  destruct (String.eqb (StripeConfig.action req) "get_connect_status").
  { unfold StripeConfig.getConnectStatus. run_eff.
    repeat (destruct_inner; run_eff); session_call Hnot. }
  run_eff. session_call Hnot.
Qed.

(** The row the webhook is to record for a completed session of the
    request: in [creator_subscriptions] for the user, or in
    [customer_subscriptions] for the user, the listing and the creator. *)
Definition recorded_for (req : StripeConfig.request) (t : string) (r : row) : Prop :=
  let d := StripeConfig.data_ req in
  (StripeConfig.action req = "create_creator_subscription"
   /\ t = "creator_subscriptions"
   /\ r !! "user_id" = Some (VStr (StripeConfig.userId d)))
  \/ (StripeConfig.action req = "create_customer_subscription"
      /\ t = "customer_subscriptions"
      /\ r !! "customer_id" = Some (VStr (StripeConfig.userId d))
      /\ r !! "gpt_id" = Some (VStr (StripeConfig.gptId d))
      /\ r !! "creator_id" = Some (VStr (StripeConfig.creatorId d))).

(** X24.  The dispatcher and the webhook agree on the session metadata.  Take
    any checkout session the dispatcher asks the gateway for, under any
    action; when the gateway later delivers a verified
    checkout.session.completed event whose session carries the metadata
    of that request, the webhook answers 200 and the store holds an
    active row for the subscription of the session: in
    creator_subscriptions for the requesting user when the action was
    create_creator_subscription, in customer_subscriptions for the
    user, the listing and the creator when it was
    create_customer_subscription. *)
Theorem checkout_round_trip (req : StripeConfig.request) (w : world)
    (p : session_params) (account : option string)
    (secret : option string) (delivery : Webhooks.request) (w2 : world) (s : session) :
  ~ In (Call (checkout_sessions_create p account)) (trace w) ->
  In (Call (checkout_sessions_create p account)) (trace (StripeConfig.handler req w).2) ->
  Webhooks.method delivery = "POST" ->
  on_constructEvent (Webhooks.body delivery) (Webhooks.stripe_signature delivery) secret
    = Js.Normal (checkout_session_completed s) ->
  session_metadata s = Some (session_params_metadata p) ->
  let out := Webhooks.handler secret delivery w2 in
  out.1 = Js.Normal received
  /\ exists t r,
       In r (from (db out.2) t)
       /\ r !! "status" = Some (VStr "active")
       /\ r !! "stripe_subscription_id" = Some (text_or_null (session_subscription s))
       /\ recorded_for req t r.
Proof.
  intros Hnot Hin Hm Hev Hmd. cbv zeta.
  rewrite (handler_dispatch _ _ _ _ Hm Hev). unfold Webhooks.dispatch.
  unfold Webhooks.handleCheckoutCompleted, Webhooks.has_type. rewrite Hmd.
  destruct (session_call_metadata req w p account Hnot Hin) as [[Ha ->] | [Ha ->]].
  - unfold creator_metadata.
    rewrite lookup_insert_ne by discriminate. rewrite !lookup_insert_eq.
    rewrite bool_decide_eq_true_2 by reflexivity. run_eff.
    split; [reflexivity |].
    match goal with
    | |- context [Store.upsert ?pk ?d ?t ?r] =>
        destruct (upsert_recorded pk d t r) as [r' [Hr Hcols]]
    end.
    exists "creator_subscriptions", r'. split; [exact Hr |].
    split; [| split].
    + apply Hcols. unfold nullable, prop.
      rewrite !lookup_insert_ne by discriminate. apply lookup_insert_eq.
    + apply Hcols. unfold nullable, prop, text_or_null.
      rewrite !lookup_insert_ne by discriminate. apply lookup_insert_eq.
    + left. split; [exact Ha |]. split; [reflexivity |].
      apply Hcols. unfold prop. apply lookup_insert_eq.
  - unfold customer_metadata.
    rewrite !lookup_insert_eq.
    rewrite bool_decide_eq_false_2 by discriminate.
    rewrite bool_decide_eq_true_2 by reflexivity.
    rewrite (lookup_insert_ne _ "type" "userId") by discriminate.
    rewrite lookup_insert_eq.
    rewrite (lookup_insert_ne _ "type" "gptId") by discriminate.
    rewrite (lookup_insert_ne _ "userId" "gptId") by discriminate.
    rewrite lookup_insert_eq.
    rewrite (lookup_insert_ne _ "type" "creatorId") by discriminate.
    rewrite (lookup_insert_ne _ "userId" "creatorId") by discriminate.
    rewrite (lookup_insert_ne _ "gptId" "creatorId") by discriminate.
    rewrite lookup_insert_eq.
    run_eff. split; [reflexivity |].
    match goal with
    | |- context [Store.upsert ?pk ?d ?t ?r] =>
        destruct (upsert_recorded pk d t r) as [r' [Hr Hcols]]
    end.
    exists "customer_subscriptions", r'. split; [exact Hr |].
    split; [| split].
    + apply Hcols. unfold nullable, prop.
      rewrite !lookup_insert_ne by discriminate. apply lookup_insert_eq.
    + apply Hcols. unfold nullable, prop, text_or_null.
      rewrite !lookup_insert_ne by discriminate. apply lookup_insert_eq.
    + right. split; [exact Ha |]. split; [reflexivity |].
      split; [| split]; apply Hcols; unfold prop;
        rewrite ?lookup_insert_ne by discriminate; apply lookup_insert_eq.
Qed.

End CheckoutRoundTrip.

(** The session the gateway reports once the checkout of the creator
    subscription of u1 is completed, and a gateway that delivers it. *)
Definition completed_session : session :=
  {| session_id := "cs_1";
     session_metadata := Some (creator_metadata (Scenario.payload1 (Js.decimal 2999 2)));
     session_customer := Some "cus_1";
     session_subscription := Some "sub_9" |}.

Definition completing_gateway : Stripe :=
  Scenario.stripe (checkout_session_completed completed_session).

Lemma checkout_round_trip_witness :
  let req := Scenario.post "create_creator_subscription" (Js.decimal 2999 2) in
  let w := Scenario.start Scenario.store3 in
  let p := creator_session req "cus_1" in
  let out := @Webhooks.handler Scenario.platform completing_gateway (Some "whsec_1")
               Scenario.delivery w in
  In (Call (checkout_sessions_create p None))
     (trace (@StripeConfig.handler Scenario.platform completing_gateway req w).2)
  /\ out.1 = Js.Normal received
  /\ exists t r,
       In r (from (db out.2) t)
       /\ r !! "status" = Some (VStr "active")
       /\ r !! "stripe_subscription_id" = Some (VStr "sub_9")
       /\ recorded_for req t r.
Proof.
  cbv zeta.
  assert (Hin : In (Call (checkout_sessions_create
                            (creator_session
                               (Scenario.post "create_creator_subscription"
                                  (Js.decimal 2999 2)) "cus_1") None))
                   (trace (@StripeConfig.handler Scenario.platform completing_gateway
                             (Scenario.post "create_creator_subscription"
                                (Js.decimal 2999 2))
                             (Scenario.start Scenario.store3)).2)).
  { assert (Htrace :
      trace (@StripeConfig.handler Scenario.platform completing_gateway
               (Scenario.post "create_creator_subscription" (Js.decimal 2999 2))
               (Scenario.start Scenario.store3)).2
      = [Select "creator_subscriptions" (active_of "u1");
         Call (customers_list "u1@example.com");
         Call (customers_create "u1@example.com"
                 (<["userId" := "u1"]> (<["type" := "creator"]> ∅)) None);
         Call (checkout_sessions_create
                 (creator_session
                    (Scenario.post "create_creator_subscription" (Js.decimal 2999 2))
                    "cus_1") None)])
      by (vm_compute; reflexivity).
    rewrite Htrace. do 3 right. left. reflexivity. }
  split; [exact Hin |].
  exact (@checkout_round_trip Scenario.platform completing_gateway
           (Scenario.post "create_creator_subscription" (Js.decimal 2999 2))
           (Scenario.start Scenario.store3)
           (creator_session
              (Scenario.post "create_creator_subscription" (Js.decimal 2999 2)) "cus_1")
           None (Some "whsec_1") Scenario.delivery (Scenario.start Scenario.store3)
           completed_session (fun H => H) Hin eq_refl eq_refl eq_refl).
Defined.

(** ** Prices in cents *)

(** The unit amount of the price of [c] cents is [c]. *)
Definition cents_kept (c : Z) : bool :=
  match StripeConfig.unitAmount (Js.decimal c 2) with
  | Some r => (r =? c)%Z
  | None => false
  end.

(** Every price of [n] cents or less keeps its cents. *)
Definition cents_exact (n : Z) : bool :=
  forallb (fun c => cents_kept (Z.of_nat c)) (seq 0 (Z.to_nat (n + 1))).

Lemma cents_exact_spec (n c : Z) :
  cents_exact n = true -> 0 <= c <= n ->
  StripeConfig.unitAmount (Js.decimal c 2) = Some c.
Proof.
  unfold cents_exact. intros Hall Hc.
  rewrite forallb_forall in Hall.
  specialize (Hall (Z.to_nat c)).
  rewrite Z2Nat.id in Hall by lia.
  assert (Hin : In (Z.to_nat c) (seq 0 (Z.to_nat (n + 1)))) by (apply in_seq; lia).
  apply Hall in Hin. unfold cents_kept in Hin.
  destruct (StripeConfig.unitAmount (Js.decimal c 2)) as [r |]; [| discriminate Hin].
  apply Z.eqb_eq in Hin. congruence.
Qed.

Lemma cents_exact_5000 : cents_exact 5000 = true.
Proof. vm_compute. reflexivity. Qed.

(** X25.  The unit amount sent for a customer subscription,
    [Math.round(monthlyPrice * 100)], is exact on prices with two
    decimals: for every price from 0.00 to 50.00 written with two
    decimals, the double arithmetic gives back the price in cents. *)
Theorem unit_amount_exact (c : Z) :
  0 <= c <= 5000 ->
  StripeConfig.unitAmount (Js.decimal c 2) = Some c.
Proof. exact (cents_exact_spec 5000 c cents_exact_5000). Qed.

Lemma unit_amount_exact_witness :
  StripeConfig.unitAmount (Js.decimal 1999 2) = Some 1999.
Proof. apply (unit_amount_exact 1999). lia. Defined.
